(** * The browser client of the authentication system (frontend/js/auth.js)

    A shallow embedding of the client script: the request helper
    [apiRequest], the form handlers [register], [login], [verifyOtp],
    [resendOtp], [logout], and the one-time-passcode countdown.

    - A JavaScript string is the list of its UTF-16 code units.
    - A JavaScript value (a parsed response, a field of a request) is a
      term of [value]; an object is a finite map from property names.
    - The page is a finite map from element ids to elements; an id that is
      not in the map is an element [document.getElementById] does not find.
    - The script's variables, the browser's timers, the requests issued and
      the handlers suspended at an [await] are fields of [state].
    - A function is a computation in the monad [M]: it may change the state
      and it returns or throws.  An [async] handler is cut at its [await]:
      the first half issues the request and stores a [continuation], the
      second half runs when the response arrives.
    - [JSON.parse] and the text of the engine's own [TypeError]s belong to
      the platform and are taken as an [engine].
    - An assignment to [window.location.href] is recorded in [location];
      the script goes on until the browser replaces the page, and so does
      the model.
    - Calls to [console], [event.preventDefault] and [event.stopPropagation]
      are not modelled. *)

From Stdlib Require Import ZArith Ascii String.
From stdpp Require Import gmap list strings pretty.

#[local] Set Warnings "-register-all".
#[local] Open Scope Z_scope.

(** ** Strings *)

Definition jsstring := list N.

(** A literal of the source, as code units. *)
Definition lit (s : string) : jsstring :=
  (fun a => N_of_ascii a) <$> list_ascii_of_string s.

(** The code units [String.prototype.trim] removes: WhiteSpace and
    LineTerminator of ECMAScript. *)
Definition whitespace : list N :=
  [9; 10; 11; 12; 13; 32; 160; 5760;
   8192; 8193; 8194; 8195; 8196; 8197; 8198; 8199; 8200; 8201; 8202;
   8232; 8233; 8239; 8287; 12288; 65279]%N.

Definition is_whitespace (c : N) : bool := bool_decide (c ∈ whitespace).

Fixpoint trimStart (s : jsstring) : jsstring :=
  match s with
  | c :: s' => if is_whitespace c then trimStart s' else s
  | [] => []
  end.

Definition trimEnd (s : jsstring) : jsstring := reverse (trimStart (reverse s)).

Definition trim (s : jsstring) : jsstring := trimEnd (trimStart s).

Fixpoint startsWith (s p : jsstring) : bool :=
  match p, s with
  | [], _ => true
  | a :: p', b :: s' => if N.eqb a b then startsWith s' p' else false
  | _ :: _, [] => false
  end.

Fixpoint includes (s p : jsstring) : bool :=
  startsWith s p ||
  match s with
  | [] => false
  | _ :: s' => includes s' p
  end.

(** [toLowerCase] on the code units below 256, which is what a header value
    is made of: A-Z and the capital letters of Latin-1 move by 32. *)
Definition lower_unit (c : N) : N :=
  if ((65 <=? c) && (c <=? 90))%N then (c + 32)%N
  else if ((192 <=? c) && (c <=? 222) && negb (c =? 215))%N then (c + 32)%N
  else c.

Definition toLowerCase (s : jsstring) : jsstring := lower_unit <$> s.

Definition substring0 (n : nat) (s : jsstring) : jsstring := take n s.

(** [String(n)] for an integer. *)
Definition String_of_Z (n : Z) : jsstring := lit (pretty n).

(** [s.padStart(n, c)] for a one-unit filler. *)
Definition padStart (n : nat) (c : N) (s : jsstring) : jsstring :=
  replicate (n - length s) c ++ s.

Definition is_digit (c : N) : bool := ((48 <=? c) && (c <=? 57))%N.

(** [s.replace(/[^0-9]/g, '')] *)
Definition strip_non_digits (s : jsstring) : jsstring := filter (fun c => is_digit c = true) s.

Definition nonempty (s : jsstring) : bool :=
  match s with [] => false | _ => true end.

(** ** Values *)

Inductive value :=
| VUndefined
| VNull
| VBool (b : bool)
| VNumber (text : jsstring)   (* a number, held as the text [String] gives for it *)
| VString (s : jsstring)
| VArray (l : list value)
| VObject (o : gmap jsstring value).

Definition truthy (v : value) : bool :=
  match v with
  | VUndefined | VNull => false
  | VBool b => b
  | VNumber t => negb (bool_decide (t = lit "0")) && negb (bool_decide (t = lit "NaN"))
  | VString s => nonempty s
  | VArray _ | VObject _ => true
  end.

(** [a || b] on values already computed. *)
Definition or_else (a b : value) : value := if truthy a then a else b.

(** The three tests of the cleaning loop of [apiRequest]:
    [v !== null && v !== undefined && v !== ''] *)
Definition is_provided (v : value) : bool :=
  match v with
  | VNull | VUndefined | VString [] => false
  | _ => true
  end.

(** ** Errors *)

Inductive type_error :=
| NullProperty (key : string)   (* reading or writing [key] on null or undefined *)
| NotPrimitive.                 (* an object that has no string conversion *)

Inductive error :=
| Error (message : jsstring)          (* [new Error(message)] *)
| TypeError (why : type_error)        (* thrown by the engine *)
| NetworkError (message : jsstring).  (* what [fetch] rejects with *)

Inductive outcome (A : Type) :=
| Ok (a : A)
| Throw (e : error).
Arguments Ok {A} a.
Arguments Throw {A} e.

(** [String(v)], the conversion behind [new Error(v)], [textContent = v] and
    [dataset.x = v].  A parsed object that carries a member [toString] has
    no string conversion; an array joins its elements with commas. *)
Fixpoint ToString (v : value) : option jsstring :=
  match v with
  | VUndefined => Some (lit "undefined")
  | VNull => Some (lit "null")
  | VBool b => Some (lit (if b then "true" else "false"))
  | VNumber t => Some t
  | VString s => Some s
  | VArray l =>
      let item x :=
        match x with
        | VUndefined | VNull => Some []
        | _ => ToString x
        end in
      (fix join (l : list value) : option jsstring :=
         match l with
         | [] => Some []
         | [x] => item x
         | x :: l' =>
             match item x, join l' with
             | Some a, Some b => Some (a ++ lit "," ++ b)
             | _, _ => None
             end
         end) l
  | VObject o =>
      match o !! lit "toString" with
      | Some _ => None
      | None => Some (lit "[object Object]")
      end
  end.

(** [v.key], for the property names this script reads
    (success, message, data, identifier, direct_login, authenticated, user,
    first_name, last_name, email, phone): none of them is a property of a
    string, number, boolean or array. *)
Definition get (v : value) (key : string) : outcome value :=
  match v with
  | VUndefined | VNull => Throw (TypeError (NullProperty key))
  | VObject o => Ok (default VUndefined (o !! lit key))
  | _ => Ok VUndefined
  end.

(** [v?.key] *)
Definition get_opt (v : value) (key : string) : outcome value :=
  match v with
  | VUndefined | VNull => Ok VUndefined
  | _ => get v key
  end.

(** ** The platform *)

Record engine := Engine {
  JSON_parse : jsstring -> option value;        (* [None]: a SyntaxError *)
  TypeError_message : type_error -> jsstring
}.

Definition error_message (E : engine) (e : error) : jsstring :=
  match e with
  | Error m => m
  | TypeError why => TypeError_message E why
  | NetworkError m => m
  end.

(** ** The page *)

Record element := Element {
  el_value : jsstring;                  (* [.value] *)
  el_textContent : jsstring;            (* [.textContent] *)
  el_display : string;                  (* [.style.display] *)
  el_class : list string;               (* the class tokens: [.className], [.classList] *)
  el_dataset : gmap string jsstring;    (* [.dataset] *)
  el_disabled : bool                    (* [.disabled] *)
}.

Definition set_value (v : jsstring) (e : element) : element :=
  Element v (el_textContent e) (el_display e) (el_class e) (el_dataset e) (el_disabled e).
Definition set_textContent (t : jsstring) (e : element) : element :=
  Element (el_value e) t (el_display e) (el_class e) (el_dataset e) (el_disabled e).
Definition set_display (d : string) (e : element) : element :=
  Element (el_value e) (el_textContent e) d (el_class e) (el_dataset e) (el_disabled e).
Definition set_class (c : list string) (e : element) : element :=
  Element (el_value e) (el_textContent e) (el_display e) c (el_dataset e) (el_disabled e).
Definition set_data (k : string) (v : jsstring) (e : element) : element :=
  Element (el_value e) (el_textContent e) (el_display e) (el_class e)
          (<[k := v]> (el_dataset e)) (el_disabled e).
Definition set_disabled (b : bool) (e : element) : element :=
  Element (el_value e) (el_textContent e) (el_display e) (el_class e) (el_dataset e) b.

(** [classList.add] and [classList.remove] *)
Definition class_add (c : string) (e : element) : element :=
  if bool_decide (c ∈ el_class e) then e else set_class (el_class e ++ [c]) e.
Definition class_remove (cs : list string) (e : element) : element :=
  set_class (filter (fun c => c ∉ cs) (el_class e)) e.

(** ** Requests and responses *)

(** The body of a request is the text [JSON.stringify] gives for the cleaned
    object; it is kept as that object. *)
Inductive body :=
| JSON_stringify (cleanData : gmap jsstring value).

Record request := Request {
  req_url : jsstring;
  req_method : jsstring;
  req_headers : list (string * string);
  req_credentials : string;
  req_body : option body
}.

Record response := Response {
  status : Z;
  content_type : option jsstring;   (* [headers.get('content-type')], null when absent *)
  text : option jsstring            (* [None]: reading the body fails *)
}.

Definition ok (r : response) : bool := (200 <=? status r) && (status r <=? 299).

Inductive fetch_outcome :=
| Rejects (message : jsstring)   (* the request never got an answer *)
| Responds (r : response).

(** ** The state of a loaded page *)

Inductive timer :=
| HideMessage   (* the [setTimeout] of [showMessage] *)
| GoDashboard   (* the [setTimeout] of [verifyOtp] *)
| Countdown.    (* the [setInterval] of [startOtpTimer] *)

(** Where an [async] function waits for its [apiRequest], with the local
    variables the rest of the function still reads. *)
Inductive continuation :=
| K_checkAuthStatus
| K_register (email phone : jsstring)
| K_login (email phone : jsstring)
| K_verifyOtp_register
| K_verifyOtp_login
| K_resendOtp
| K_logout
| K_loadUserInfo.

Record state := State {
  dom : gmap string element;
  otpTimerInterval : option positive;
  otpTimerSeconds : Z;
  isVerifyingOtp : bool;
  timers : gmap positive timer;          (* the timeouts and intervals that are set *)
  next_timer : positive;
  requests : list request;               (* every call of [fetch], oldest first *)
  pending : gmap nat continuation;       (* by position in [requests] *)
  location : list jsstring               (* every [window.location.href = ...], oldest first *)
}.

Definition set_dom (f : gmap string element -> gmap string element) (s : state) : state :=
  State (f (dom s)) (otpTimerInterval s) (otpTimerSeconds s) (isVerifyingOtp s)
        (timers s) (next_timer s) (requests s) (pending s) (location s).
Definition set_otpTimerInterval (i : option positive) (s : state) : state :=
  State (dom s) i (otpTimerSeconds s) (isVerifyingOtp s)
        (timers s) (next_timer s) (requests s) (pending s) (location s).
Definition set_otpTimerSeconds (n : Z) (s : state) : state :=
  State (dom s) (otpTimerInterval s) n (isVerifyingOtp s)
        (timers s) (next_timer s) (requests s) (pending s) (location s).
Definition set_isVerifyingOtp (b : bool) (s : state) : state :=
  State (dom s) (otpTimerInterval s) (otpTimerSeconds s) b
        (timers s) (next_timer s) (requests s) (pending s) (location s).
Definition set_timers (f : gmap positive timer -> gmap positive timer) (s : state) : state :=
  State (dom s) (otpTimerInterval s) (otpTimerSeconds s) (isVerifyingOtp s)
        (f (timers s)) (next_timer s) (requests s) (pending s) (location s).
Definition new_timer (t : timer) (s : state) : state :=
  State (dom s) (otpTimerInterval s) (otpTimerSeconds s) (isVerifyingOtp s)
        (<[next_timer s := t]> (timers s)) (Pos.succ (next_timer s))
        (requests s) (pending s) (location s).
Definition send (r : request) (k : option continuation) (s : state) : state :=
  State (dom s) (otpTimerInterval s) (otpTimerSeconds s) (isVerifyingOtp s)
        (timers s) (next_timer s) (requests s ++ [r])
        (match k with
         | Some k => <[length (requests s) := k]> (pending s)
         | None => pending s
         end)
        (location s).
Definition set_pending (f : gmap nat continuation -> gmap nat continuation) (s : state) : state :=
  State (dom s) (otpTimerInterval s) (otpTimerSeconds s) (isVerifyingOtp s)
        (timers s) (next_timer s) (requests s) (f (pending s)) (location s).
Definition navigate (url : jsstring) (s : state) : state :=
  State (dom s) (otpTimerInterval s) (otpTimerSeconds s) (isVerifyingOtp s)
        (timers s) (next_timer s) (requests s) (pending s) (location s ++ [url]).

(** [if (el) el.x = ...]: nothing happens when the element is not there. *)
Definition update (id : string) (f : element -> element) : state -> state :=
  set_dom (alter f id).

(** ** Computations *)

Definition M (A : Type) : Type := state -> outcome A * state.

Definition ret {A} (a : A) : M A := fun s => (Ok a, s).
Definition throw {A} (e : error) : M A := fun s => (Throw e, s).
Definition bind {A B} (m : M A) (f : A -> M B) : M B :=
  fun s =>
    match m s with
    | (Ok a, s') => f a s'
    | (Throw e, s') => (Throw e, s')
    end.
Definition read {A} (f : state -> A) : M A := fun s => (Ok (f s), s).
Definition modify (f : state -> state) : M unit := fun s => (Ok tt, f s).
Definition lift {A} (r : outcome A) : M A := fun s => (r, s).

#[export] Instance M_ret : MRet M := @ret.
#[export] Instance M_bind : MBind M := fun A B f m => bind m f.

(** [try { body } catch (error) { handler }] *)
Definition try_catch {A} (body : M A) (handler : error -> M A) : M A :=
  fun s =>
    match body s with
    | (Ok a, s') => (Ok a, s')
    | (Throw e, s') => handler e s'
    end.

(** [try { body } finally { after }] *)
Definition try_finally {A} (body : M A) (after : M unit) : M A :=
  fun s =>
    let (r, s') := body s in
    match after s' with
    | (Ok _, s'') => (r, s'')
    | (Throw e, s'') => (Throw e, s'')
    end.

(** [document.getElementById(id).x]: a TypeError when there is no such
    element. *)
Definition element_field {A} (id : string) (key : string) (f : element -> A) : M A :=
  fun s =>
    match dom s !! id with
    | Some e => (Ok (f e), s)
    | None => (Throw (TypeError (NullProperty key)), s)
    end.

Definition to_string (v : value) : M jsstring :=
  lift (match ToString v with
        | Some t => Ok t
        | None => Throw (TypeError NotPrimitive)
        end).

(** The state a computation leaves, whether it returned or threw. *)
Definition run {A} (m : M A) (s : state) : state := snd (m s).

#[export] Instance outcome_ret : MRet outcome := @Ok.
#[export] Instance outcome_bind : MBind outcome := fun A B f r =>
  match r with
  | Ok a => f a
  | Throw e => Throw e
  end.

#[local] Open Scope string_scope.
#[local] Open Scope list_scope.

Definition getElementById (id : string) : M (option element) :=
  read (fun s => dom s !! id).

(** [document.getElementById(id).value.trim()] *)
Definition trimmed_value (id : string) : M jsstring :=
  v ← element_field id "value" el_value;
  mret (trim v).

(** ** Helper functions *)

Definition API_BASE_URL : jsstring := lit "http://localhost:8000/api".

Definition setTimeout (t : timer) : M unit := modify (new_timer t).

Definition showMessage (message : value) (type : string) : M unit :=
  messageEl ← getElementById "message";
  match messageEl with
  | None => mret tt
  | Some _ =>
      t ← to_string message;
      modify (update "message" (set_textContent t));;
      modify (update "message" (set_class ["message"; type]));;
      modify (update "message" (set_display "block"));;
      setTimeout HideMessage
  end.

(** The children [.btn-text] and [.btn-loader] of a button are kept in the
    page under the button's id followed by the selector. *)
Definition setLoading (buttonId : string) (isLoading : bool) : M unit :=
  btn ← getElementById buttonId;
  match btn with
  | None => mret tt
  | Some _ =>
      let btnText := buttonId +:+ " .btn-text" in
      let btnLoader := buttonId +:+ " .btn-loader" in
      if isLoading then
        modify (update buttonId (set_disabled true));;
        modify (update btnText (set_display "none"));;
        modify (update btnLoader (set_display "block"))
      else
        modify (update buttonId (set_disabled false));;
        modify (update btnText (set_display "inline"));;
        modify (update btnLoader (set_display "none"))
  end.

(** ** apiRequest *)

(** The loop [for (const key in data)] that fills [cleanData]. *)
Definition cleanData (data : gmap jsstring value) : gmap jsstring value :=
  map_fold (fun key v acc => if is_provided v then <[key := v]> acc else acc) ∅ data.

(** The argument of [fetch]: the address and the [options] object. *)
Definition apiRequest_options (endpoint method : jsstring)
    (data : option (gmap jsstring value)) : request :=
  {| req_url := API_BASE_URL ++ endpoint;
     req_method := method;
     req_headers := [("Content-Type", "application/json; charset=utf-8")];
     req_credentials := "include";
     req_body :=
       match data with
       | Some d =>
           if bool_decide (method ≠ lit "GET")
           then Some (JSON_stringify (cleanData d))
           else None
       | None => None
       end |}.

(** [await apiRequest(endpoint, method, data)], up to the call of [fetch]:
    the caller waits as [k]. *)
Definition apiRequest_send (endpoint method : jsstring)
    (data : option (gmap jsstring value)) (k : continuation) : M unit :=
  modify (send (apiRequest_options endpoint method data) (Some k)).

Definition connection_error : jsstring :=
  lit "Server connection error. Please ensure the server is running.".

Definition status_text (r : response) : jsstring := String_of_Z (status r).

(** The [try] block of [apiRequest] from the answer of [fetch] on. *)
Definition apiRequest_try (E : engine) (o : fetch_outcome) : outcome value :=
  match o with
  | Rejects m => Throw (NetworkError m)
  | Responds response =>
      let contentType := toLowerCase (default [] (content_type response)) in
      let isJson := includes contentType (lit "application/json") in
      responseText ← match text response with
                      | Some t => Ok t
                      | None => Throw (Error connection_error)
                      end;
      if negb (nonempty responseText) || bool_decide (trim responseText = [])
      then Throw (Error (lit "Server returned empty response (Status: "
                           ++ status_text response ++ lit "). Please check the server."))
      else
        let looksLikeJson :=
          startsWith (trim responseText) (lit "{") || startsWith (trim responseText) (lit "[") in
        result ← (if isJson || looksLikeJson
                  then match JSON_parse E responseText with
                       | Some v => Ok v
                       | None => Throw (Error (lit "Invalid JSON response from server: "
                                                 ++ substring0 100 responseText))
                       end
                  else Throw (Error (lit "Server returned non-JSON response (Status: "
                                       ++ status_text response
                                       ++ lit "). Please check the server.")));
        if negb (ok response)
        then
          m ← get result "message";
          let errorMessage := or_else m (VString (lit "HTTP Error " ++ status_text response)) in
          match ToString errorMessage with
          | Some t => Throw (Error t)
          | None => Throw (TypeError NotPrimitive)
          end
        else Ok result
  end.

(** The [catch] block of [apiRequest]. *)
Definition apiRequest_catch (E : engine) (error : error) : outcome value :=
  let message := error_message E error in
  if includes message (lit "Failed to fetch")
     || includes message (lit "NetworkError")
     || includes message (lit "Network request failed")
     || includes message (lit "fetch")
  then Throw (Error connection_error)
  else Throw error.

(** What [await apiRequest(...)] gives the caller once [fetch] has answered. *)
Definition apiRequest_receive (E : engine) (o : fetch_outcome) : outcome value :=
  match apiRequest_try E o with
  | Ok result => Ok result
  | Throw error => apiRequest_catch E error
  end.

(** ** The countdown *)

Definition stopOtpTimer : M unit :=
  i ← read otpTimerInterval;
  match i with
  | Some id =>
      modify (set_timers (delete id));;
      modify (set_otpTimerInterval None)
  | None => mret tt
  end.

Definition updateTimerDisplay : M unit :=
  timerElement ← getElementById "otpTimer";
  match timerElement with
  | None => mret tt
  | Some _ =>
      n ← read otpTimerSeconds;
      let minutes := n `div` 60 in
      let seconds := n `rem` 60 in
      let formattedTime :=
        padStart 2 48 (String_of_Z minutes) ++ lit ":" ++ padStart 2 48 (String_of_Z seconds) in
      modify (update "otpTimer" (set_textContent formattedTime));;
      if (n <=? 60)%Z
      then modify (update "otpTimer" (class_add "warning"));;
           modify (update "otpTimer" (class_remove ["expired"]))
      else modify (update "otpTimer" (class_remove ["warning"; "expired"]))
  end.

Definition startOtpTimer : M unit :=
  modify (set_otpTimerSeconds 300);;
  stopOtpTimer;;
  timerElement ← getElementById "otpTimer";
  match timerElement with
  | None => mret tt
  | Some _ =>
      updateTimerDisplay;;
      id ← read next_timer;
      modify (new_timer Countdown);;
      modify (set_otpTimerInterval (Some id))
  end.

(** The function [startOtpTimer] hands to [setInterval]. *)
Definition countdown : M unit :=
  n ← read otpTimerSeconds;
  modify (set_otpTimerSeconds (n - 1));;
  updateTimerDisplay;;
  n ← read otpTimerSeconds;
  if (n <=? 0)%Z
  then stopOtpTimer;;
       modify (update "otpTimer" (set_textContent (lit "00:00")));;
       modify (update "otpTimer" (class_add "expired"));;
       showMessage
         (VString (lit "Verification code has expired. Please request a new code.")) "error"
  else mret tt.

(** ** The one-time-passcode form *)

Definition showOtpForm (identifier : value) (type : string) : M unit :=
  modify (update "loginForm" (set_display "none"));;
  modify (update "registerForm" (set_display "none"));;
  otpForm ← getElementById "otpForm";
  match otpForm with
  | Some _ =>
      modify (update "otpForm" (set_display "block"));;
      otpIdentifier ← getElementById "otpIdentifier";
      match otpIdentifier with
      | Some _ => t ← to_string identifier; modify (update "otpIdentifier" (set_textContent t))
      | None => mret tt
      end
  | None => mret tt
  end;;
  match otpForm with
  | None => throw (TypeError (NullProperty "dataset"))
  | Some _ =>
      modify (update "otpForm" (set_data "type" (lit type)));;
      t ← to_string identifier;
      modify (update "otpForm" (set_data "identifier" t));;
      modify (update "otpCode" (set_value []));;
      startOtpTimer
  end.

Definition backToForm : M unit :=
  stopOtpTimer;;
  otpForm ← getElementById "otpForm";
  match otpForm with
  | None => mret tt
  | Some f =>
      let type := el_dataset f !! "type" in
      modify (update "otpForm" (set_display "none"));;
      modify (update "otpTimer" (set_textContent (lit "05:00")));;
      modify (update "otpTimer" (class_remove ["warning"; "expired"]));;
      if bool_decide (type = Some (lit "login"))
      then modify (update "loginForm" (set_display "block"))
      else if bool_decide (type = Some (lit "register"))
      then modify (update "registerForm" (set_display "block"))
      else mret tt
  end.

(** ** The handlers *)

(** [const errorMessage = error.message || '...'; showMessage(errorMessage, 'error')] *)
Definition report (E : engine) (error : error) : M unit :=
  showMessage (or_else (VString (error_message E error)) (VString connection_error)) "error".

(** [result.data?.identifier || result.identifier || (email || phone)] *)
Definition identifier_of (result : value) (email phone : jsstring) : outcome value :=
  data ← get result "data";
  a ← get_opt data "identifier";
  if truthy a then Ok a
  else
    b ← get result "identifier";
    if truthy b then Ok b
    else Ok (VString (if nonempty email then email else phone)).

(** [result.data?.direct_login || result.direct_login] *)
Definition direct_login (result : value) : outcome value :=
  data ← get result "data";
  a ← get_opt data "direct_login";
  if truthy a then Ok a else get result "direct_login".

(** [x || null] for a string [x] *)
Definition or_null (x : jsstring) : value :=
  if nonempty x then VString x else VNull.

Definition checkAuthStatus : M unit :=
  apiRequest_send (lit "/check-auth") (lit "GET") None K_checkAuthStatus.

Definition checkAuthStatus_resume (E : engine) (o : fetch_outcome) : M unit :=
  try_catch
    (result ← lift (apiRequest_receive E o);
     success ← lift (get result "success");
     if truthy success
     then authenticated ← lift (get result "authenticated");
          if truthy authenticated
          then modify (navigate (lit "dashboard.html"))
          else mret tt
     else mret tt)
    (fun _ => mret tt).

Definition register : M unit :=
  firstName ← trimmed_value "firstName";
  lastName ← trimmed_value "lastName";
  email ← trimmed_value "registerEmail";
  phone ← trimmed_value "registerPhone";
  if negb (nonempty firstName) || negb (nonempty lastName)
  then showMessage (VString (lit "Please enter first name and last name")) "error"
  else if negb (nonempty email) && negb (nonempty phone)
  then showMessage (VString (lit "Please enter email or phone number")) "error"
  else
    setLoading "registerBtn" true;;
    let requestData : gmap jsstring value :=
      <[lit "last_name" := VString lastName]> {[ lit "first_name" := VString firstName ]} in
    let requestData :=
      if nonempty email then <[lit "email" := VString email]> requestData else requestData in
    let requestData :=
      if nonempty phone then <[lit "phone" := VString phone]> requestData else requestData in
    apiRequest_send (lit "/register") (lit "POST") (Some requestData) (K_register email phone).

Definition register_resume (E : engine) (email phone : jsstring) (o : fetch_outcome) : M unit :=
  try_finally
    (try_catch
       (result ← lift (apiRequest_receive E o);
        success ← lift (get result "success");
        if truthy success
        then identifier ← lift (identifier_of result email phone);
             showOtpForm identifier "register";;
             message ← lift (get result "message");
             showMessage (or_else message (VString (lit "Verification code sent"))) "success"
        else message ← lift (get result "message");
             showMessage (or_else message (VString (lit "Registration error"))) "error")
       (report E))
    (setLoading "registerBtn" false).

Definition login : M unit :=
  email ← trimmed_value "loginEmail";
  phone ← trimmed_value "loginPhone";
  if negb (nonempty email) && negb (nonempty phone)
  then showMessage (VString (lit "Please enter email or phone number")) "error"
  else
    setLoading "loginBtn" true;;
    let data : gmap jsstring value :=
      <[lit "phone" := or_null phone]> {[ lit "email" := or_null email ]} in
    apiRequest_send (lit "/login") (lit "POST") (Some data) (K_login email phone).

Definition login_resume (E : engine) (email phone : jsstring) (o : fetch_outcome) : M unit :=
  try_finally
    (try_catch
       (result ← lift (apiRequest_receive E o);
        success ← lift (get result "success");
        if truthy success
        then direct ← lift (direct_login result);
             if truthy direct
             then modify (navigate (lit "dashboard.html"))
             else identifier ← lift (identifier_of result email phone);
                  showOtpForm identifier "login";;
                  message ← lift (get result "message");
                  showMessage (or_else message (VString (lit "Verification code sent"))) "success"
        else message ← lift (get result "message");
             showMessage (or_else message (VString (lit "Login error"))) "error")
       (report E))
    (setLoading "loginBtn" false).

(** The [finally] block of [verifyOtp]. *)
Definition verifyOtp_finally : M unit :=
  modify (set_isVerifyingOtp false);;
  setLoading "verifyOtpBtn" false.

(** [otpForm ? otpForm.dataset.x : null], an absent entry read as undefined. *)
Definition dataset_of (otpForm : option element) (key : string) : option jsstring :=
  f ← otpForm; el_dataset f !! key.

Definition verifyOtp (E : engine) : M unit :=
  busy ← read isVerifyingOtp;
  if busy : bool then mret tt
  else
    otpForm ← getElementById "otpForm";
    otpCode ← trimmed_value "otpCode";
    let type := dataset_of otpForm "type" in
    let identifier := dataset_of otpForm "identifier" in
    if negb (nonempty otpCode) || negb (bool_decide (length otpCode = 6%nat))
    then showMessage (VString (lit "Please enter a 6-digit code")) "error"
    else
      match identifier with
      | None | Some [] =>
          showMessage (VString (lit "Identifier not found. Please try again.")) "error"
      | Some identifier =>
          modify (set_isVerifyingOtp true);;
          setLoading "verifyOtpBtn" true;;
          let data : gmap jsstring value :=
            <[lit "otp" := VString otpCode]> {[ lit "identifier" := VString identifier ]} in
          if bool_decide (type = Some (lit "register"))
          then apiRequest_send (lit "/verify-otp") (lit "POST") (Some data) K_verifyOtp_register
          else if bool_decide (type = Some (lit "login"))
          then apiRequest_send (lit "/verify-login-otp") (lit "POST") (Some data)
                               K_verifyOtp_login
          else
            try_finally
              (try_catch (showMessage (VString (lit "Unknown operation type")) "error")
                         (report E))
              verifyOtp_finally
      end.

(** The rest of [verifyOtp] after either request; [done] is the message of
    that branch ('Registration successful' or 'Login successful'). *)
Definition verifyOtp_resume (E : engine) (done : string) (o : fetch_outcome) : M unit :=
  try_finally
    (try_catch
       (result ← lift (apiRequest_receive E o);
        success ← lift (get result "success");
        if truthy success
        then stopOtpTimer;;
             message ← lift (get result "message");
             showMessage (or_else message (VString (lit done))) "success";;
             setTimeout GoDashboard
        else message ← lift (get result "message");
             showMessage (or_else message (VString (lit "Invalid verification code"))) "error")
       (report E))
    verifyOtp_finally.

(** [document.getElementById(id)?.value.trim()], then [|| null] *)
Definition optional_value (id : string) : M value :=
  el ← getElementById id;
  mret (match el with
        | Some e => or_null (trim (el_value e))
        | None => VNull
        end).

Definition resendOtp : M unit :=
  otpForm ← getElementById "otpForm";
  let type := dataset_of otpForm "type" in
  let identifier := dataset_of otpForm "identifier" in
  match identifier with
  | None | Some [] => showMessage (VString (lit "Error retrieving information")) "error"
  | Some _ =>
      try_catch
        (if bool_decide (type = Some (lit "register"))
         then showMessage (VString (lit "Please fill out the registration form again")) "info";;
              backToForm
         else if bool_decide (type = Some (lit "login"))
         then email ← optional_value "loginEmail";
              phone ← optional_value "loginPhone";
              let data : gmap jsstring value :=
                <[lit "phone" := phone]> {[ lit "email" := email ]} in
              apiRequest_send (lit "/login") (lit "POST") (Some data) K_resendOtp
         else mret tt)
        (fun _ => showMessage (VString (lit "Server connection error")) "error")
  end.

Definition resendOtp_resume (E : engine) (o : fetch_outcome) : M unit :=
  try_catch
    (result ← lift (apiRequest_receive E o);
     success ← lift (get result "success");
     if truthy success
     then startOtpTimer;;
          showMessage (VString (lit "Verification code resent")) "success"
     else message ← lift (get result "message");
          showMessage (or_else message (VString (lit "Error resending code"))) "error")
    (fun _ => showMessage (VString (lit "Server connection error")) "error").

Definition logout : M unit :=
  apiRequest_send (lit "/logout") (lit "POST") None K_logout.

Definition logout_resume (E : engine) (o : fetch_outcome) : M unit :=
  try_catch
    (result ← lift (apiRequest_receive E o);
     success ← lift (get result "success");
     if truthy success
     then modify (navigate (lit "index.html"))
     else mret tt)
    (fun _ => modify (navigate (lit "index.html"))).

Definition loadUserInfo : M unit :=
  apiRequest_send (lit "/check-auth") (lit "GET") None K_loadUserInfo.

(** [result.success && result.authenticated && result.user] *)
Definition logged_in (result : value) : outcome bool :=
  success ← get result "success";
  if truthy success
  then authenticated ← get result "authenticated";
       if truthy authenticated
       then user ← get result "user"; Ok (truthy user)
       else Ok false
  else Ok false.

(** The two lines of the dashboard that show an address when the user has
    one; [icon] is the text the source puts in front of it. *)
Definition show_contact (id : string) (icon : jsstring) (v : value) : M unit :=
  el ← getElementById id;
  match el with
  | Some _ =>
      if truthy v
      then t ← to_string v;
           modify (update id (set_textContent (icon ++ t)));;
           modify (update id (set_display "block"))
      else modify (update id (set_display "none"))
  | None => mret tt
  end.

Definition loadUserInfo_resume (E : engine) (o : fetch_outcome) : M unit :=
  try_catch
    (result ← lift (apiRequest_receive E o);
     shown ← lift (logged_in result);
     if shown : bool
     then user ← lift (get result "user");
          userName ← getElementById "userName";
          match userName with
          | Some _ =>
              first_name ← lift (get user "first_name");
              a ← to_string first_name;
              last_name ← lift (get user "last_name");
              b ← to_string last_name;
              modify (update "userName" (set_textContent (a ++ lit " " ++ b)))
          | None => mret tt
          end;;
          email ← lift (get user "email");
          show_contact "userEmail" [240; 376; 8220; 167; 32]%N email;;
          phone ← lift (get user "phone");
          show_contact "userPhone" [240; 376; 8220; 177; 32]%N phone
     else modify (navigate (lit "index.html")))
    (fun _ => modify (navigate (lit "index.html"))).

(** ** The page at work *)

(** The second half of the handler that waits as [k]. *)
Definition resume (E : engine) (k : continuation) (o : fetch_outcome) : M unit :=
  match k with
  | K_checkAuthStatus => checkAuthStatus_resume E o
  | K_register email phone => register_resume E email phone o
  | K_login email phone => login_resume E email phone o
  | K_verifyOtp_register => verifyOtp_resume E "Registration successful" o
  | K_verifyOtp_login => verifyOtp_resume E "Login successful" o
  | K_resendOtp => resendOtp_resume E o
  | K_logout => logout_resume E o
  | K_loadUserInfo => loadUserInfo_resume E o
  end.

(** The functions of the script the markup of a page can call. *)
Inductive global :=
| G_checkAuthStatus | G_register | G_login | G_verifyOtp | G_resendOtp
| G_backToForm | G_logout | G_loadUserInfo
| G_startOtpTimer | G_stopOtpTimer | G_updateTimerDisplay.

Definition call (E : engine) (g : global) : M unit :=
  match g with
  | G_checkAuthStatus => checkAuthStatus
  | G_register => register
  | G_login => login
  | G_verifyOtp => verifyOtp E
  | G_resendOtp => resendOtp
  | G_backToForm => backToForm
  | G_logout => logout
  | G_loadUserInfo => loadUserInfo
  | G_startOtpTimer => startOtpTimer
  | G_stopOtpTimer => stopOtpTimer
  | G_updateTimerDisplay => updateTimerDisplay
  end.

Definition present (id : string) (s : state) : bool := bool_decide (is_Some (dom s !! id)).

(** The listeners the script installs when it is loaded (its last lines):
    each is installed only when its button is on the page. *)
Definition on_click (E : engine) (id : string) : M unit :=
  if bool_decide (id = "loginBtn") then login
  else if bool_decide (id = "registerBtn") then register
  else if bool_decide (id = "verifyOtpBtn") then verifyOtp E
  else if bool_decide (id = "resendOtpBtn") then resendOtp
  else if bool_decide (id = "backToLoginBtn") then backToForm
  else if bool_decide (id = "backToRegisterBtn") then backToForm
  else mret tt.

Definition on_enter (E : engine) (id : string) : M unit :=
  has_login ← read (present "loginBtn");
  has_register ← read (present "registerBtn");
  has_verify ← read (present "verifyOtpBtn");
  if has_login && bool_decide (id ∈ ["loginEmail"; "loginPhone"]) then login
  else if has_register
          && bool_decide (id ∈ ["firstName"; "lastName"; "registerEmail"; "registerPhone"])
  then register
  else if has_verify && bool_decide (id = "otpCode") then verifyOtp E
  else mret tt.

(** The field [id] receives the content [v]; the listener of the code field
    then keeps its digits only. *)
Definition on_input (id : string) (v : jsstring) : M unit :=
  modify (update id (set_value v));;
  has_verify ← read (present "verifyOtpBtn");
  if has_verify && bool_decide (id = "otpCode")
  then modify (update "otpCode" (fun e => set_value (strip_non_digits (el_value e)) e))
  else mret tt.

Definition fire (id : positive) (s : state) : state :=
  match timers s !! id with
  | Some HideMessage => update "message" (set_display "none") (set_timers (delete id) s)
  | Some GoDashboard => navigate (lit "dashboard.html") (set_timers (delete id) s)
  | Some Countdown => run countdown s
  | None => s
  end.

Definition answer (E : engine) (n : nat) (o : fetch_outcome) (s : state) : state :=
  match pending s !! n with
  | Some k => run (resume E k o) (set_pending (delete n) s)
  | None => s
  end.

Inductive event :=
| Calls (g : global)
| Click (id : string)
| Enter (id : string)
| Input (id : string) (v : jsstring)
| Fires (id : positive)
| Answers (n : nat) (o : fetch_outcome).

(** One turn of the event loop.  A click, a key or an input reaches an
    element that is on the page; the outcome of a handler is dropped. *)
Definition step (E : engine) (ev : event) (s : state) : state :=
  match ev with
  | Calls g => run (call E g) s
  | Click id => if present id s then run (on_click E id) s else s
  | Enter id => if present id s then run (on_enter E id) s else s
  | Input id v => if present id s then run (on_input id v) s else s
  | Fires id => fire id s
  | Answers n o => answer E n o s
  end.

(** A page as the browser hands it to the script. *)
Definition loaded (page : gmap string element) : state :=
  {| dom := page; otpTimerInterval := None; otpTimerSeconds := 300;
     isVerifyingOtp := false; timers := ∅; next_timer := 1%positive;
     requests := []; pending := ∅; location := [] |}.

Inductive reachable (E : engine) (page : gmap string element) : state -> Prop :=
| reachable_loaded : reachable E page (loaded page)
| reachable_step ev s : reachable E page s -> reachable E page (step E ev s).

(** ** Sample pages and a sample platform, for the examples *)

Definition blank : element :=
  {| el_value := []; el_textContent := []; el_display := ""; el_class := [];
     el_dataset := ∅; el_disabled := false |}.

Definition field (v : string) : element := set_value (lit v) blank.

(** Modelled from the spec: the markup of register.html is not among the
    sources.  A registration page with the elements the script looks up on
    it: the register form with its four fields, and the code form. *)
Definition register_page (firstName lastName email phone : string) : gmap string element :=
  list_to_map
    [("message", blank); ("registerForm", blank); ("registerBtn", blank);
     ("firstName", field firstName); ("lastName", field lastName);
     ("registerEmail", field email); ("registerPhone", field phone);
     ("otpForm", blank); ("otpIdentifier", blank); ("otpCode", blank);
     ("otpTimer", blank); ("verifyOtpBtn", blank); ("resendOtpBtn", blank);
     ("backToRegisterBtn", blank)].

(** Modelled from the spec: the markup of index.html is not among the
    sources.  A login page with the elements the script looks up on it: the
    login form with its two fields, and the code form. *)
Definition login_page (email phone : string) : gmap string element :=
  list_to_map
    [("message", blank); ("loginForm", blank); ("loginBtn", blank);
     ("loginEmail", field email); ("loginPhone", field phone);
     ("otpForm", blank); ("otpIdentifier", blank); ("otpCode", blank);
     ("otpTimer", blank); ("verifyOtpBtn", blank); ("resendOtpBtn", blank);
     ("backToLoginBtn", blank)].

(** A page whose code form is open for [identifier] in mode [type], with
    [code] in the code field. *)
Definition code_page (page : gmap string element) (type identifier code : string)
  : gmap string element :=
  <["otpCode" := field code]>
    (<["otpForm" := set_data "identifier" (lit identifier)
                      (set_data "type" (lit type) (set_display "block" blank))]> page).

(** A member ["key":value] of a JSON text, and a JSON text. *)
Definition quoted (s : string) : jsstring := [34%N] ++ lit s ++ [34%N].
Definition member (key : string) (v : jsstring) : jsstring := quoted key ++ lit ":" ++ v.
Definition braces (members : jsstring) : jsstring := lit "{" ++ members ++ lit "}".

(** {"success":false,"message":"Failed to fetch user"} *)
Definition text_failure_fetch_user : jsstring :=
  braces (member "success" (lit "false") ++ lit ","
          ++ member "message" (quoted "Failed to fetch user")).
(** {"success":false} *)
Definition text_failure : jsstring := braces (member "success" (lit "false")).
(** {"success":true} *)
Definition text_success : jsstring := braces (member "success" (lit "true")).
(** {"success":true,"data":{"direct_login":true}} *)
Definition text_direct_login : jsstring :=
  braces (member "success" (lit "true") ++ lit ","
          ++ member "data" (braces (member "direct_login" (lit "true")))).

Definition object (members : list (string * value)) : value :=
  VObject (list_to_map (prod_map lit id <$> members)).

(** A platform that reads the four texts above as [JSON.parse] does and
    takes any other text for a syntax error. *)
Definition sample_engine : engine :=
  {| JSON_parse t :=
       if bool_decide (t = text_failure_fetch_user)
       then Some (object [("success", VBool false);
                          ("message", VString (lit "Failed to fetch user"))])
       else if bool_decide (t = text_failure)
       then Some (object [("success", VBool false)])
       else if bool_decide (t = text_success)
       then Some (object [("success", VBool true)])
       else if bool_decide (t = text_direct_login)
       then Some (object [("success", VBool true);
                          ("data", object [("direct_login", VBool true)])])
       else None;
     TypeError_message why :=
       match why with
       | NullProperty key => lit "Cannot read properties of null (reading '" ++ lit key ++ lit "')"
       | NotPrimitive => lit "Cannot convert object to primitive value"
       end |}.

Definition json_answer (status : Z) (t : jsstring) : fetch_outcome :=
  Responds {| status := status; content_type := Some (lit "application/json"); text := Some t |}.

(** The page after a list of events, oldest first. *)
Definition play (E : engine) (evs : list event) (s : state) : state :=
  foldl (fun s ev => step E ev s) s evs.

(** The login page after the user has asked to log in, the server has sent
    a code, and the user has entered six digits and asked to verify them:
    the verification request has no answer yet. *)
Definition code_awaited : state :=
  play sample_engine
    [Click "loginBtn"; Answers 0 (json_answer 200 text_success);
     Input "otpCode" (lit "123456"); Click "verifyOtpBtn"]
    (loaded (login_page "ali@example.com" "")).

(** Modelled from the lookups of [loadUserInfo]: the markup of
    dashboard.html is not among the sources.  A dashboard with the three
    lines the script fills in. *)
Definition dashboard_page : gmap string element :=
  list_to_map [("userName", blank); ("userEmail", blank); ("userPhone", blank)].

(** {"success":true,"authenticated":true,"user":{"first_name":"Ali",
    "last_name":"Ashrafpour","email":"ali@example.com"}} *)
Definition text_session : jsstring :=
  braces (member "success" (lit "true") ++ lit ","
          ++ member "authenticated" (lit "true") ++ lit ","
          ++ member "user"
               (braces (member "first_name" (quoted "Ali") ++ lit ","
                        ++ member "last_name" (quoted "Ashrafpour") ++ lit ","
                        ++ member "email" (quoted "ali@example.com")))).

(** The sample platform, which reads this text as well. *)
Definition session_engine : engine :=
  {| JSON_parse t :=
       if bool_decide (t = text_session)
       then Some (object [("success", VBool true); ("authenticated", VBool true);
                          ("user", object [("first_name", VString (lit "Ali"));
                                           ("last_name", VString (lit "Ashrafpour"));
                                           ("email", VString (lit "ali@example.com"))])])
       else JSON_parse sample_engine t;
     TypeError_message := TypeError_message sample_engine |}.

(** ** The vocabulary of the properties *)

(** [m], started where [P] holds, returns where [Q] holds or throws where
    [X] holds. *)
Definition triple {A} (P : state -> Prop) (m : M A)
    (Q : A -> state -> Prop) (X : error -> state -> Prop) : Prop :=
  forall s, P s ->
    match m s with
    | (Ok a, s') => Q a s'
    | (Throw e, s') => X e s'
    end.

(** [m] keeps [I], however it ends. *)
Definition keeps {A} (I : state -> Prop) (m : M A) : Prop :=
  triple I m (fun _ => I) (fun _ => I).

Definition counts_down (s : state) (id : positive) : Prop :=
  timers s !! id = Some Countdown.

(** The interval the script remembers is the only one that counts down, and
    its id has been handed out. *)
Definition one_countdown (s : state) : Prop :=
  (forall id, counts_down s id -> otpTimerInterval s = Some id)
  /\ (forall id, otpTimerInterval s = Some id -> (id < next_timer s)%positive).

Definition no_countdown (s : state) : Prop :=
  (forall id, ~ counts_down s id) /\ otpTimerInterval s = None.

(** [m] returns, it does not throw. *)
Definition never_throws {A} (m : M A) : Prop :=
  forall s, exists a s', m s = (Ok a, s').

Definition is_verifyOtp (k : continuation) : bool :=
  match k with
  | K_verifyOtp_register | K_verifyOtp_login => true
  | _ => false
  end.

(** Request [n] is a verification request that has no answer yet. *)
Definition verifying (s : state) (n : nat) : Prop :=
  exists k, pending s !! n = Some k /\ is_verifyOtp k = true.

Definition single_flight (s : state) : Prop :=
  (forall n, verifying s n -> isVerifyingOtp s = true)
  /\ (forall i j, verifying s i -> verifying s j -> i = j).

Definition none_verifying (s : state) : Prop := forall n, ~ verifying s n.

Definition has_marker (m : jsstring) : bool :=
  includes m (lit "Failed to fetch") || includes m (lit "NetworkError")
  || includes m (lit "Network request failed") || includes m (lit "fetch").

(** The answer to the login request is a success that says direct login. *)
Definition says_direct_login (E : engine) (o : fetch_outcome) : Prop :=
  exists result success direct,
    apiRequest_receive E o = Ok result
    /\ get result "success" = Ok success /\ truthy success = true
    /\ direct_login result = Ok direct /\ truthy direct = true.

(** The answer is a success that does not say direct login. *)
Definition asks_for_code (E : engine) (o : fetch_outcome) : Prop :=
  exists result success direct,
    apiRequest_receive E o = Ok result
    /\ get result "success" = Ok success /\ truthy success = true
    /\ direct_login result = Ok direct /\ truthy direct = false.

(** In [s] the code form, the timer line and the countdown are as in [s0]:
    the form was not shown, no countdown was started. *)
Definition code_form_as_in (s0 s : state) : Prop :=
  dom s !! "otpForm" = dom s0 !! "otpForm"
  /\ dom s !! "otpTimer" = dom s0 !! "otpTimer"
  /\ otpTimerInterval s = otpTimerInterval s0
  /\ otpTimerSeconds s = otpTimerSeconds s0
  /\ forall id, counts_down s id -> counts_down s0 id.

(** The answer to a request is a success. *)
Definition says_success (E : engine) (o : fetch_outcome) : Prop :=
  exists result success,
    apiRequest_receive E o = Ok result
    /\ get result "success" = Ok success /\ truthy success = true.

(** ** The vocabulary of the further properties *)

(** The addresses the script calls, each with its method. *)
Definition interface : list (jsstring * jsstring) :=
  [(lit "/check-auth", lit "GET"); (lit "/register", lit "POST");
   (lit "/login", lit "POST"); (lit "/verify-otp", lit "POST");
   (lit "/verify-login-otp", lit "POST"); (lit "/logout", lit "POST")].

(** [r] goes to one of these addresses under [API_BASE_URL], as JSON, with
    the cookies of the site, and without a body when it is a GET. *)
Definition addressed (r : request) : Prop :=
  exists endpoint method,
    (endpoint, method) ∈ interface
    /\ req_url r = API_BASE_URL ++ endpoint
    /\ req_method r = method
    /\ req_headers r = [("Content-Type", "application/json; charset=utf-8")]
    /\ req_credentials r = "include"
    /\ (method = lit "GET" -> req_body r = None).

(** Every handler that waits, waits for a request that was sent. *)
Definition pending_sent (s : state) : Prop :=
  forall n, is_Some (pending s !! n) -> (n < length (requests s))%nat.

(** The flag is set only while a verification request has no answer. *)
Definition flag_backed (s : state) : Prop :=
  pending_sent s /\ (isVerifyingOtp s = true -> exists n, verifying s n).

(** The answer to the session check says the user is logged in. *)
Definition says_authenticated (E : engine) (o : fetch_outcome) : Prop :=
  exists result success authenticated,
    apiRequest_receive E o = Ok result
    /\ get result "success" = Ok success /\ truthy success = true
    /\ get result "authenticated" = Ok authenticated /\ truthy authenticated = true.

(** The answer gives the dashboard a user to show. *)
Definition says_logged_in (E : engine) (o : fetch_outcome) : Prop :=
  exists result, apiRequest_receive E o = Ok result /\ logged_in result = Ok true.

(** Two digits, a colon, two digits. *)
Definition clock_shaped (t : jsstring) : bool :=
  match t with
  | [a; b; c; d; e] => is_digit a && is_digit b && (c =? 58)%N && is_digit d && is_digit e
  | _ => false
  end.

(** The text [updateTimerDisplay] writes for [n] seconds. *)
Definition clock_text (n : Z) : jsstring :=
  padStart 2 48 (String_of_Z (n `div` 60)) ++ lit ":" ++ padStart 2 48 (String_of_Z (n `rem` 60)).

(** The button a handler shows as busy while it waits. *)
Definition busy_button (k : continuation) : option string :=
  match k with
  | K_register _ _ => Some "registerBtn"
  | K_login _ _ => Some "loginBtn"
  | K_verifyOtp_register | K_verifyOtp_login => Some "verifyOtpBtn"
  | _ => None
  end.

(** The code form is open on [f] in mode [type] for [id], five minutes are
    left, and nothing was sent or navigated to since [rq] and [loc]. *)
Definition code_form_open (f : element) (type : string) (id : jsstring)
    (rq : list request) (loc : list jsstring) (s : state) : Prop :=
  dom s !! "otpForm"
  = Some (set_data "identifier" id (set_data "type" (lit type) (set_display "block" f)))
  /\ otpTimerSeconds s = 300 /\ requests s = rq /\ location s = loc.

(** The time left is between 0 and 300 seconds, and at least one second
    while an interval counts down. *)
Definition seconds_in_range (s : state) : Prop :=
  0 <= otpTimerSeconds s <= 300
  /\ forall id, counts_down s id -> 1 <= otpTimerSeconds s.

(** The fields in which the Enter key stands for a button. *)
Definition enter_keys : list (string * string) :=
  [("loginEmail", "loginBtn"); ("loginPhone", "loginBtn");
   ("firstName", "registerBtn"); ("lastName", "registerBtn");
   ("registerEmail", "registerBtn"); ("registerPhone", "registerBtn");
   ("otpCode", "verifyOtpBtn")].

(** The two pages the script navigates to. *)
Definition destinations : list jsstring := [lit "dashboard.html"; lit "index.html"].

(** Every navigation so far went to one of them. *)
Definition navigates_within (s : state) : Prop :=
  forall url, url ∈ location s -> url ∈ destinations.

(** * Properties *)

(** ** Reasoning about computations *)

Lemma keeps_run {A} (I : state -> Prop) (m : M A) s : keeps I m -> I s -> I (run m s).
Proof. intros H Hs. specialize (H s Hs). unfold run. destruct (m s) as [[a|e] s']; exact H. Qed.

Lemma triple_ret {A} P (a : A) (Q : A -> state -> Prop) X :
  (forall s, P s -> Q a s) -> triple P (mret a) Q X.
Proof. intros H s Hs. apply H, Hs. Qed.

Lemma triple_throw {A} P e (Q : A -> state -> Prop) (X : error -> state -> Prop) :
  (forall s, P s -> X e s) -> triple P (throw e) Q X.
Proof. intros H s Hs. apply H, Hs. Qed.

Lemma triple_bind {A B} P (m : M A) (f : A -> M B) R Q X :
  triple P m R X -> (forall a, triple (R a) (f a) Q X) -> triple P (m ≫= f) Q X.
Proof.
  intros Hm Hf s Hs. specialize (Hm s Hs).
  unfold mbind, M_bind, bind. destruct (m s) as [[a|e] s']; [apply Hf, Hm | exact Hm].
Qed.

Lemma triple_read {A} P (f : state -> A) (Q : A -> state -> Prop) X :
  (forall s, P s -> Q (f s) s) -> triple P (read f) Q X.
Proof. intros H s Hs. apply H, Hs. Qed.

Lemma triple_modify P f (Q : unit -> state -> Prop) X :
  (forall s, P s -> Q tt (f s)) -> triple P (modify f) Q X.
Proof. intros H s Hs. apply H, Hs. Qed.

Lemma triple_lift {A} P (r : outcome A) (Q : A -> state -> Prop) (X : error -> state -> Prop) :
  (forall s, P s -> match r with Ok a => Q a s | Throw e => X e s end) ->
  triple P (lift r) Q X.
Proof. intros H s Hs. specialize (H s Hs). unfold lift. destruct r; exact H. Qed.

Lemma triple_try_catch {A} P (body : M A) handler Q X X' :
  triple P body Q X' -> (forall e, triple (X' e) (handler e) Q X) ->
  triple P (try_catch body handler) Q X.
Proof.
  intros Hb Hh s Hs. specialize (Hb s Hs). unfold try_catch.
  destruct (body s) as [[a|e] s']; [exact Hb | apply Hh, Hb].
Qed.

Lemma triple_try_finally {A} P (body : M A) after Q X Q' X' :
  triple P body Q' X' ->
  (forall a, triple (Q' a) after (fun _ => Q a) X) ->
  (forall e, triple (X' e) after (fun _ => X e) X) ->
  triple P (try_finally body after) Q X.
Proof.
  intros Hb Hq Hx s Hs. specialize (Hb s Hs). unfold try_finally.
  destruct (body s) as [[a|e] s'].
  - specialize (Hq a s' Hb). destruct (after s') as [[[]|e'] s'']; exact Hq.
  - specialize (Hx e s' Hb). destruct (after s') as [[[]|e'] s'']; exact Hx.
Qed.

Lemma triple_weaken {A} (P P' : state -> Prop) (m : M A) (Q Q' : A -> state -> Prop)
    (X X' : error -> state -> Prop) :
  triple P' m Q' X' ->
  (forall s, P s -> P' s) -> (forall a s, Q' a s -> Q a s) -> (forall e s, X' e s -> X e s) ->
  triple P m Q X.
Proof.
  intros H HP HQ HX s Hs. specialize (H s (HP s Hs)).
  destruct (m s) as [[a|e] s']; [apply HQ, H | apply HX, H].
Qed.

Section Keeps.
Variable I : state -> Prop.

Lemma keeps_ret {A} (a : A) : keeps I (mret a).
Proof. apply triple_ret; auto. Qed.

Lemma keeps_throw {A} e : keeps I (throw e : M A).
Proof. apply triple_throw; auto. Qed.

Lemma keeps_bind {A B} (m : M A) (f : A -> M B) :
  keeps I m -> (forall a, keeps I (f a)) -> keeps I (m ≫= f).
Proof. intros Hm Hf. eapply triple_bind; [exact Hm | exact Hf]. Qed.

Lemma keeps_read {A} (f : state -> A) : keeps I (read f).
Proof. apply triple_read; auto. Qed.

Lemma keeps_lift {A} (r : outcome A) : keeps I (lift r).
Proof. apply triple_lift. intros s Hs. destruct r; exact Hs. Qed.

Lemma keeps_modify f : (forall s, I s -> I (f s)) -> keeps I (modify f).
Proof. intros H. apply triple_modify. exact H. Qed.

Lemma keeps_try_catch {A} (body : M A) handler :
  keeps I body -> (forall e, keeps I (handler e)) -> keeps I (try_catch body handler).
Proof. intros Hb Hh. eapply triple_try_catch; [exact Hb | exact Hh]. Qed.

Lemma keeps_try_finally {A} (body : M A) after :
  keeps I body -> keeps I after -> keeps I (try_finally body after).
Proof.
  intros Hb Ha. eapply triple_try_finally; [exact Hb | intros a; exact Ha | intros e; exact Ha].
Qed.

Lemma keeps_getElementById id : keeps I (getElementById id).
Proof. apply keeps_read. Qed.

Lemma keeps_element_field {A} id key (f : element -> A) : keeps I (element_field id key f).
Proof. intros s Hs. unfold element_field. destruct (dom s !! id); exact Hs. Qed.

Lemma keeps_to_string v : keeps I (to_string v).
Proof. apply keeps_lift. Qed.
End Keeps.

Ltac head_of t :=
  lazymatch t with
  | ?f _ => head_of f
  | _ => t
  end.

(** One step of a proof that a computation keeps a property: follow the
    structure of the computation, leave its state changes to [prim]. *)
Ltac keeps_step prim :=
  cbv zeta;
  lazymatch goal with
  | |- keeps _ (mret _) => apply keeps_ret
  | |- keeps _ (throw _) => apply keeps_throw
  | |- keeps _ (_ ≫= _) => apply keeps_bind; [| intros ?]
  | |- keeps _ (read _) => apply keeps_read
  | |- keeps _ (lift _) => apply keeps_lift
  | |- keeps _ (getElementById _) => apply keeps_getElementById
  | |- keeps _ (element_field _ _ _) => apply keeps_element_field
  | |- keeps _ (to_string _) => apply keeps_to_string
  | |- keeps _ (try_catch _ _) => apply keeps_try_catch; [| intros ?]
  | |- keeps _ (try_finally _ _) => apply keeps_try_finally
  | |- keeps _ (modify _) => apply keeps_modify; prim
  | |- keeps _ (if ?b then _ else _) => destruct b
  | |- keeps _ (match ?x with _ => _ end) => destruct x
  | |- keeps _ ?m => let h := head_of m in unfold h
  end.

Ltac keeps_with known prim := repeat first [ solve [known] | keeps_step prim ].

(** ** The countdown (C9) *)

Lemma no_countdown_one s : no_countdown s -> one_countdown s.
Proof. intros [H1 H2]. split; intros id H; [destruct (H1 id H) | congruence]. Qed.

Lemma counts_down_new_timer s t id :
  t <> Countdown -> counts_down (new_timer t s) id -> counts_down s id.
Proof.
  unfold counts_down. simpl. intros Ht Hc.
  rewrite lookup_insert in Hc. case_decide; [congruence | exact Hc].
Qed.

Ltac countdown_prim :=
  let s := fresh "s" in
  let Ha := fresh "Ha" in
  let Hb := fresh "Hb" in
  intros s [Ha Hb]; split;
  [ let Hc := fresh "Hc" in
    intros ? Hc; apply Ha;
    first [ exact Hc | eapply counts_down_new_timer; [| exact Hc]; discriminate ]
  | simpl; intros ? ?; eauto using Pos.lt_lt_succ ].

Lemma stopOtpTimer_no_countdown :
  triple one_countdown stopOtpTimer (fun _ => no_countdown) (fun _ _ => False).
Proof.
  intros s [Ha Hb]. unfold stopOtpTimer, mbind, M_bind, bind, read, modify. simpl.
  destruct (otpTimerInterval s) as [old|] eqn:Hi; simpl.
  - split; [| reflexivity]. intros id. unfold counts_down. simpl.
    rewrite lookup_delete. case_decide; [congruence |].
    intros Hc. apply Ha in Hc. congruence.
  - split; [| exact Hi]. intros id Hc. apply Ha in Hc. congruence.
Qed.

Lemma stopOtpTimer_one_countdown : keeps one_countdown stopOtpTimer.
Proof.
  eapply triple_weaken; [apply stopOtpTimer_no_countdown | auto | |].
  - intros ? s. apply no_countdown_one.
  - intros ? s [].
Qed.

Lemma startOtpTimer_installs :
  triple one_countdown startOtpTimer
    (fun _ s => one_countdown s /\ otpTimerSeconds s = 300) (fun _ _ => False).
Proof.
  intros s Hs.
  assert (Hset : one_countdown (set_otpTimerSeconds 300 s)) by (destruct Hs; split; assumption).
  pose proof (stopOtpTimer_no_countdown _ Hset) as Hstop.
  unfold startOtpTimer, mbind, M_bind, bind, modify at 1. simpl.
  destruct (stopOtpTimer (set_otpTimerSeconds 300 s)) as [[[]|e] s1] eqn:Hrun; [| destruct Hstop].
  assert (Hsec : otpTimerSeconds s1 = 300).
  { revert Hrun. unfold stopOtpTimer, mbind, M_bind, bind, read, modify. simpl.
    destruct (otpTimerInterval s); intros [= <-]; reflexivity. }
  unfold getElementById, read. simpl.
  destruct (dom s1 !! "otpTimer") as [el|] eqn:Hel.
  - assert (Hdisp : exists s2, updateTimerDisplay s1 = (Ok tt, s2)
                     /\ timers s2 = timers s1 /\ next_timer s2 = next_timer s1
                     /\ otpTimerSeconds s2 = 300).
    { unfold updateTimerDisplay, mbind, M_bind, bind, getElementById, read, modify. simpl.
      rewrite Hel, Hsec. simpl. eexists. split; [reflexivity |]. auto. }
    destruct Hdisp as (s2 & -> & Ht & Hn & Hsec2). unfold read, modify. simpl.
    split; [| exact Hsec2]. destruct Hstop as [Hnone _]. split; simpl.
    + intros id. unfold counts_down. simpl. rewrite lookup_insert.
      case_decide; [congruence |]. rewrite Ht. intros Hc. destruct (Hnone id Hc).
    + intros id [= <-]. apply Pos.lt_succ_diag_r.
  - simpl. split; [apply no_countdown_one, Hstop | exact Hsec].
Qed.

Lemma startOtpTimer_one_countdown : keeps one_countdown startOtpTimer.
Proof.
  eapply triple_weaken; [apply startOtpTimer_installs | auto | |].
  - intros ? s [H _]. exact H.
  - intros ? s [].
Qed.

Ltac countdown_known :=
  first [ apply stopOtpTimer_one_countdown | apply startOtpTimer_one_countdown ].

Lemma showMessage_one_countdown m t : keeps one_countdown (showMessage m t).
Proof. keeps_with countdown_known countdown_prim. Qed.

Lemma resume_one_countdown E k o : keeps one_countdown (resume E k o).
Proof. destruct k; keeps_with countdown_known countdown_prim. Qed.

Lemma call_one_countdown E g : keeps one_countdown (call E g).
Proof. destruct g; keeps_with countdown_known countdown_prim. Qed.

Lemma on_click_one_countdown E id : keeps one_countdown (on_click E id).
Proof. keeps_with countdown_known countdown_prim. Qed.

Lemma on_enter_one_countdown E id : keeps one_countdown (on_enter E id).
Proof. keeps_with countdown_known countdown_prim. Qed.

Lemma on_input_one_countdown id v : keeps one_countdown (on_input id v).
Proof. keeps_with countdown_known countdown_prim. Qed.

Lemma countdown_one_countdown : keeps one_countdown countdown.
Proof. keeps_with countdown_known countdown_prim. Qed.

Lemma one_countdown_delete id s :
  one_countdown s -> timers s !! id <> Some Countdown ->
  one_countdown (set_timers (delete id) s).
Proof.
  intros [Ha Hb] Hid. split; [| exact Hb].
  intros j. unfold counts_down. simpl. rewrite lookup_delete.
  case_decide; [discriminate | apply Ha].
Qed.

Lemma fire_one_countdown id s : one_countdown s -> one_countdown (fire id s).
Proof.
  intros Hs. unfold fire.
  destruct (timers s !! id) as [[]|] eqn:Ht; [| | | exact Hs].
  - apply (one_countdown_delete id) in Hs; [| congruence]. exact Hs.
  - apply (one_countdown_delete id) in Hs; [| congruence]. exact Hs.
  - apply keeps_run; [apply countdown_one_countdown | exact Hs].
Qed.

Lemma step_one_countdown E ev s : one_countdown s -> one_countdown (step E ev s).
Proof.
  intros Hs. destruct ev; simpl.
  - apply keeps_run; [apply call_one_countdown | exact Hs].
  - destruct (present id s); [| exact Hs].
    apply keeps_run; [apply on_click_one_countdown | exact Hs].
  - destruct (present id s); [| exact Hs].
    apply keeps_run; [apply on_enter_one_countdown | exact Hs].
  - destruct (present id s); [| exact Hs].
    apply keeps_run; [apply on_input_one_countdown | exact Hs].
  - apply fire_one_countdown, Hs.
  - unfold answer. destruct (pending s !! n); [| exact Hs].
    apply keeps_run; [apply resume_one_countdown | exact Hs].
Qed.

Lemma reachable_one_countdown E page s : reachable E page s -> one_countdown s.
Proof.
  induction 1 as [| ev s _ IH].
  - split; [intros id Hc; discriminate Hc | intros id Hi; discriminate Hi].
  - apply step_one_countdown, IH.
Qed.

(** Running a computation one statement at a time. *)
Lemma bind_modify {B} f (k : unit -> M B) s : (modify f ≫= k) s = k tt (f s).
Proof. reflexivity. Qed.

Lemma bind_read {A B} (f : state -> A) (k : A -> M B) s : (read f ≫= k) s = k (f s) s.
Proof. reflexivity. Qed.

Lemma bind_getElementById {B} id (k : option element -> M B) s :
  (getElementById id ≫= k) s = k (dom s !! id) s.
Proof. reflexivity. Qed.

Lemma bind_returns {A B} (m : M A) (k : A -> M B) s a s' :
  m s = (Ok a, s') -> (m ≫= k) s = k a s'.
Proof. intros H. unfold mbind, M_bind, bind. rewrite H. reflexivity. Qed.

Lemma bind_throws {A B} (m : M A) (k : A -> M B) s e s' :
  m s = (Throw e, s') -> (m ≫= k) s = (Throw e, s').
Proof. intros H. unfold mbind, M_bind, bind. rewrite H. reflexivity. Qed.

Lemma bind_lift {A B} (a : A) (k : A -> M B) s : (lift (Ok a) ≫= k) s = k a s.
Proof. reflexivity. Qed.

Lemma bind_ret {A B} (a : A) (k : A -> M B) s : (mret a ≫= k) s = k a s.
Proof. reflexivity. Qed.

Lemma stopOtpTimer_eq s :
  stopOtpTimer s =
  (Ok tt, match otpTimerInterval s with
          | Some old => set_otpTimerInterval None (set_timers (delete old) s)
          | None => s
          end).
Proof. unfold stopOtpTimer. rewrite bind_read. destruct (otpTimerInterval s); reflexivity. Qed.

(** [updateTimerDisplay] returns and changes the page only. *)
Lemma updateTimerDisplay_eq s :
  exists d, updateTimerDisplay s = (Ok tt, set_dom (fun _ => d) s).
Proof.
  unfold updateTimerDisplay. rewrite bind_getElementById.
  destruct (dom s !! "otpTimer").
  - rewrite bind_read, bind_modify.
    destruct (otpTimerSeconds s <=? 60)%Z; eexists; reflexivity.
  - exists (dom s). destruct s; reflexivity.
Qed.

(** What [startOtpTimer] leaves, whatever the state it starts in. *)
Lemma startOtpTimer_result s :
  exists s', startOtpTimer s = (Ok tt, s')
    /\ otpTimerSeconds s' = 300
    /\ timers s' =
         (let stopped := match otpTimerInterval s with
                         | Some old => delete old (timers s)
                         | None => timers s
                         end in
          if present "otpTimer" s then <[next_timer s := Countdown]> stopped else stopped)
    /\ otpTimerInterval s' = (if present "otpTimer" s then Some (next_timer s) else None)
    /\ next_timer s' = (if present "otpTimer" s then Pos.succ (next_timer s) else next_timer s)
    /\ requests s' = requests s /\ pending s' = pending s /\ location s' = location s
    /\ isVerifyingOtp s' = isVerifyingOtp s.
Proof.
  unfold startOtpTimer. rewrite bind_modify.
  erewrite bind_returns by apply stopOtpTimer_eq.
  rewrite bind_getElementById.
  set (s1 := match otpTimerInterval (set_otpTimerSeconds 300 s) with
             | Some old => _
             | None => _
             end).
  assert (Hdom : dom s1 = dom s) by (subst s1; simpl; destruct (otpTimerInterval s); reflexivity).
  rewrite Hdom. unfold present.
  destruct (dom s !! "otpTimer") as [el|] eqn:Hel.
  - rewrite bool_decide_true by eauto.
    destruct (updateTimerDisplay_eq s1) as [d Hd].
    erewrite bind_returns by exact Hd.
    rewrite bind_read, bind_modify.
    eexists. split; [reflexivity |].
    subst s1. cbn. destruct (otpTimerInterval s) eqn:Hi; cbn; rewrite ?Hi; auto 10.
  - rewrite bool_decide_false by (intros [? [=]]).
    eexists. split; [reflexivity |].
    subst s1. cbn. destruct (otpTimerInterval s) eqn:Hi; cbn; rewrite ?Hi; auto 10.
Qed.

Lemma triple_safe {A} (I : state -> Prop) (m : M A) :
  keeps I m -> never_throws m -> triple I m (fun _ => I) (fun _ _ => False).
Proof.
  intros Hk Hn s Hs. specialize (Hk s Hs). destruct (Hn s) as (a & s' & Heq).
  rewrite Heq in *. exact Hk.
Qed.

Lemma never_throws_ret {A} (a : A) : never_throws (mret a).
Proof. intros s. eexists _, _. reflexivity. Qed.

Lemma never_throws_bind {A B} (m : M A) (f : A -> M B) :
  never_throws m -> (forall a, never_throws (f a)) -> never_throws (m ≫= f).
Proof.
  intros Hm Hf s. destruct (Hm s) as (a & s' & Heq).
  unfold mbind, M_bind, bind. rewrite Heq. apply Hf.
Qed.

Lemma never_throws_read {A} (f : state -> A) : never_throws (read f).
Proof. intros s. eexists _, _. reflexivity. Qed.

Lemma never_throws_modify f : never_throws (modify f).
Proof. intros s. eexists _, _. reflexivity. Qed.

Lemma never_throws_lift {A} (a : A) : never_throws (lift (Ok a)).
Proof. intros s. eexists _, _. reflexivity. Qed.

Lemma never_throws_to_string s : never_throws (to_string (VString s)).
Proof. intros s0. eexists _, _. reflexivity. Qed.

Lemma never_throws_try_catch {A} (body : M A) handler :
  (forall e, never_throws (handler e)) -> never_throws (try_catch body handler).
Proof.
  intros Hh s. unfold try_catch. destruct (body s) as [[a|e] s']; [| apply Hh].
  eexists _, _. reflexivity.
Qed.

Lemma never_throws_try_finally {A} (body : M A) after :
  never_throws body -> never_throws after -> never_throws (try_finally body after).
Proof.
  intros Hb Ha s. unfold try_finally. destruct (Hb s) as (a & s' & ->).
  destruct (Ha s') as ([] & s'' & ->). eexists _, _. reflexivity.
Qed.

Ltac never_throws_step :=
  cbv zeta;
  lazymatch goal with
  | |- never_throws (mret _) => apply never_throws_ret
  | |- never_throws (_ ≫= _) => apply never_throws_bind; [| intros ?]
  | |- never_throws (read _) => apply never_throws_read
  | |- never_throws (modify _) => apply never_throws_modify
  | |- never_throws (lift (Ok _)) => apply never_throws_lift
  | |- never_throws (getElementById _) => apply never_throws_read
  | |- never_throws (to_string (VString _)) => apply never_throws_to_string
  | |- never_throws (try_catch _ _) => apply never_throws_try_catch; intros ?
  | |- never_throws (try_finally _ _) => apply never_throws_try_finally
  | |- never_throws (if ?b then _ else _) => destruct b
  | |- never_throws (match ?x with _ => _ end) => destruct x
  | |- never_throws ?m => let h := head_of m in unfold h
  end.

Ltac never_throws_auto := repeat never_throws_step.

Lemma showMessage_returns t type : never_throws (showMessage (VString t) type).
Proof. never_throws_auto. Qed.

Lemma setLoading_returns id b : never_throws (setLoading id b).
Proof. never_throws_auto. Qed.

Lemma stopOtpTimer_returns : never_throws stopOtpTimer.
Proof. never_throws_auto. Qed.

Lemma updateTimerDisplay_returns : never_throws updateTimerDisplay.
Proof. never_throws_auto. Qed.

Lemma startOtpTimer_returns : never_throws startOtpTimer.
Proof. never_throws_auto. Qed.

Lemma backToForm_returns : never_throws backToForm.
Proof. never_throws_auto. Qed.

Lemma countdown_returns : never_throws countdown.
Proof. never_throws_auto. Qed.

(** [showMessage] of a string returns; it changes the message element and
    sets the timeout that hides it, when the page has a message element. *)
Lemma showMessage_eq t type s :
  exists d, showMessage (VString t) type s =
            (Ok tt, if present "message" s
                    then new_timer HideMessage (set_dom (fun _ => d) s)
                    else s).
Proof.
  unfold showMessage, present. rewrite bind_getElementById.
  destruct (dom s !! "message") as [el|] eqn:Hel.
  - rewrite bool_decide_true by eauto. eexists. reflexivity.
  - rewrite bool_decide_false by (intros [? [=]]). exists (dom s). reflexivity.
Qed.

(** One firing of the interval: a second less, and at zero the interval is
    cleared. *)
Lemma countdown_result s :
  exists s', countdown s = (Ok tt, s')
    /\ otpTimerSeconds s' = otpTimerSeconds s - 1
    /\ (otpTimerSeconds s <= 1 ->
        otpTimerInterval s' = None
        /\ forall id, counts_down s' id -> counts_down s id /\ otpTimerInterval s <> Some id)
    /\ (1 < otpTimerSeconds s ->
        timers s' = timers s /\ otpTimerInterval s' = otpTimerInterval s).
Proof.
  unfold countdown. rewrite bind_read, bind_modify.
  destruct (updateTimerDisplay_eq (set_otpTimerSeconds (otpTimerSeconds s - 1) s)) as [d Hd].
  erewrite bind_returns by exact Hd. rewrite bind_read. cbn [otpTimerSeconds set_dom set_otpTimerSeconds].
  destruct (Z.leb_spec (otpTimerSeconds s - 1) 0) as [Hle|Hgt].
  - erewrite bind_returns by apply stopOtpTimer_eq. rewrite !bind_modify.
    cbn [otpTimerInterval set_dom set_otpTimerSeconds].
    match goal with |- context [showMessage (VString ?t) ?ty ?s0] =>
      destruct (showMessage_eq t ty s0) as [d' ->] end.
    eexists. split; [reflexivity |].
    destruct (otpTimerInterval s) as [old|] eqn:Hi;
      (destruct (present _ _); cbn; rewrite ?Hi;
       (split; [reflexivity |]); (split; [| lia]); intros _; (split; [reflexivity |]);
       intros id; unfold counts_down; cbn; rewrite ?Hi;
       rewrite ?lookup_insert, ?lookup_delete; repeat case_decide; subst;
       intros Hc; try discriminate Hc; (split; [exact Hc | congruence])).
  - eexists. split; [reflexivity |]. cbn. split; [reflexivity |]. split; [lia | auto].
Qed.

Lemma countdown_stops id s :
  one_countdown s -> counts_down s id -> otpTimerSeconds s <= 1 ->
  no_countdown (fire id s).
Proof.
  intros [Ha Hb] Hid Hn. unfold fire. rewrite Hid. unfold run.
  destruct (countdown_result s) as (s' & -> & _ & Hstop & _).
  destruct (Hstop Hn) as [Hnone Hgone]. split; [| exact Hnone].
  intros j Hj. destruct (Hgone j Hj) as [Hc Hne]. apply Hne, Ha, Hc.
Qed.

Lemma countdown_goes_on id s :
  counts_down s id -> 1 < otpTimerSeconds s ->
  counts_down (fire id s) id /\ otpTimerSeconds (fire id s) = otpTimerSeconds s - 1.
Proof.
  intros Hid Hn. unfold fire. rewrite Hid. unfold run.
  destruct (countdown_result s) as (s' & -> & Hsec & _ & Hon).
  destruct (Hon Hn) as [Ht _]. split; [| exact Hsec].
  unfold counts_down. simpl. rewrite Ht. exact Hid.
Qed.

Lemma countdown_runs_out n : forall s id,
  one_countdown s -> counts_down s id -> otpTimerSeconds s = Z.of_nat (S n) ->
  no_countdown (Nat.iter (S n) (fire id) s).
Proof.
  induction n as [|n IH]; intros s id Hs Hid Hn.
  - simpl. apply countdown_stops; [exact Hs | exact Hid | lia].
  - rewrite Nat.iter_succ_r.
    destruct (countdown_goes_on id s Hid) as [Hid' Hn']; [lia |].
    apply IH; [apply fire_one_countdown, Hs | exact Hid' | lia].
Qed.

Lemma startOtpTimer_clears_old s :
  one_countdown s ->
  otpTimerSeconds (run startOtpTimer s) = 300
  /\ (forall old, otpTimerInterval s = Some old -> ~ counts_down (run startOtpTimer s) old).
Proof.
  intros Hs. destruct (startOtpTimer_result s) as (s' & Heq & Hsec & Ht & _).
  unfold run. rewrite Heq. cbn [snd]. split; [exact Hsec |].
  intros old Hold. unfold counts_down. rewrite Ht, Hold. cbv zeta.
  destruct Hs as [_ Hb]. apply Hb in Hold.
  destruct (present "otpTimer" s).
  - rewrite lookup_insert. case_decide; [lia |]. rewrite lookup_delete_eq. discriminate.
  - rewrite lookup_delete_eq. discriminate.
Qed.

Lemma startOtpTimer_runs_out s :
  one_countdown s -> present "otpTimer" s = true ->
  counts_down (run startOtpTimer s) (next_timer s)
  /\ no_countdown (Nat.iter 300 (fire (next_timer s)) (run startOtpTimer s)).
Proof.
  intros Hs Hp. pose proof (keeps_run _ _ s startOtpTimer_one_countdown Hs) as Hs'.
  destruct (startOtpTimer_result s) as (s' & Heq & Hsec & Ht & _).
  unfold run in *. rewrite Heq in *. cbn [snd] in *. rewrite Hp in Ht.
  assert (Hnew : counts_down s' (next_timer s)).
  { unfold counts_down. rewrite Ht. apply lookup_insert_eq. }
  split; [exact Hnew |].
  apply (countdown_runs_out 299 s' (next_timer s) Hs' Hnew). rewrite Hsec. reflexivity.
Qed.

(** C9. On every state the page can reach at most one interval counts down.
    A call of [startOtpTimer] sets the remaining time to 300 seconds, leaves
    the interval that ran before cleared, and leaves at most one interval;
    an interval that fires with one second left clears itself, and no
    interval counts down after it.  On a page with a timer line the interval
    [startOtpTimer] installs is cleared by its own 300th firing. *)
Theorem startOtpTimer_single_interval E page s :
  reachable E page s ->
  (forall i j, counts_down s i -> counts_down s j -> i = j)
  /\ otpTimerSeconds (run startOtpTimer s) = 300
  /\ (forall old, otpTimerInterval s = Some old -> ~ counts_down (run startOtpTimer s) old)
  /\ (forall i j, counts_down (run startOtpTimer s) i ->
                  counts_down (run startOtpTimer s) j -> i = j)
  /\ (forall id, counts_down s id -> otpTimerSeconds s <= 1 ->
                 forall j, ~ counts_down (fire id s) j)
  /\ (present "otpTimer" s = true ->
      counts_down (run startOtpTimer s) (next_timer s)
      /\ no_countdown (Nat.iter 300 (fire (next_timer s)) (run startOtpTimer s))).
Proof.
  intros Hr. pose proof (reachable_one_countdown _ _ _ Hr) as Hs.
  assert (Hunique : forall s0, one_countdown s0 ->
            forall i j, counts_down s0 i -> counts_down s0 j -> i = j).
  { intros s0 [Ha _] i j Hi Hj. apply Ha in Hi, Hj. congruence. }
  pose proof (keeps_run _ _ s startOtpTimer_one_countdown Hs) as Hs'.
  destruct (startOtpTimer_clears_old s Hs) as [Hsec Hold].
  split; [apply Hunique, Hs |]. split; [exact Hsec |]. split; [exact Hold |].
  split; [apply Hunique, Hs' |]. split.
  - intros id Hid Hn j. apply (countdown_stops id s Hs Hid Hn).
  - apply startOtpTimer_runs_out, Hs.
Qed.

(** ** One verification at a time (C3) *)

Lemma none_verifying_single_flight s : none_verifying s -> single_flight s.
Proof. intros H. split; [intros n Hn | intros i j Hi]; exfalso; eapply H; eauto. Qed.

Lemma verifying_send r k s n :
  is_verifyOtp k = false -> verifying (send r (Some k) s) n -> verifying s n.
Proof.
  intros Hk (k' & Hl & Hv). simpl in Hl. rewrite lookup_insert in Hl.
  case_decide; [congruence |]. exists k'. auto.
Qed.

Ltac verifying_frame Hn :=
  first [ exact Hn | eapply verifying_send; [| exact Hn]; reflexivity ].

Ltac flight_prim :=
  let s := fresh "s" in
  let Ha := fresh "Ha" in
  let Hb := fresh "Hb" in
  intros s [Ha Hb]; split;
  [ let Hn := fresh "Hn" in
    intros ? Hn; first [ reflexivity | eapply Ha; verifying_frame Hn ]
  | let Hi := fresh "Hi" in
    let Hj := fresh "Hj" in
    intros ? ? Hi Hj; apply Hb; [verifying_frame Hi | verifying_frame Hj] ].

Ltac none_prim :=
  let s := fresh "s" in
  let H := fresh "H" in
  let Hn := fresh "Hn" in
  intros s H ? Hn; eapply H; verifying_frame Hn.

Lemma triple_trivial {A} (P : state -> Prop) (m : M A) :
  triple P m (fun _ _ => True) (fun _ _ => True).
Proof. intros s _. destruct (m s) as [[a|e] s']; exact Logic.I. Qed.

Lemma verifyOtp_finally_clears :
  triple (fun _ => True) verifyOtp_finally
    (fun _ s => isVerifyingOtp s = false) (fun _ s => isVerifyingOtp s = false).
Proof.
  unfold verifyOtp_finally.
  eapply triple_bind with (R := fun _ s => isVerifyingOtp s = false).
  - apply triple_modify. reflexivity.
  - intros _. change (keeps (fun s => isVerifyingOtp s = false) (setLoading "verifyOtpBtn" false)).
    keeps_with fail ltac:(intros s H; exact H).
Qed.

Lemma verifyOtp_resume_clears E done o s :
  isVerifyingOtp (run (verifyOtp_resume E done o) s) = false.
Proof.
  assert (T : triple (fun _ => True) (verifyOtp_resume E done o)
                (fun _ s => isVerifyingOtp s = false) (fun _ s => isVerifyingOtp s = false)).
  { unfold verifyOtp_resume. eapply triple_try_finally.
    - apply triple_trivial.
    - intros a. eapply triple_weaken; [apply verifyOtp_finally_clears | auto..].
    - intros e. eapply triple_weaken; [apply verifyOtp_finally_clears | auto..]. }
  specialize (T s Logic.I). unfold run.
  destruct (verifyOtp_resume E done o s) as [[a|e] s']; exact T.
Qed.

Lemma triple_of_keeps {A} (I P : state -> Prop) (m : M A) Q X :
  keeps I m -> (forall s, P s -> I s) -> (forall a s, I s -> Q a s) ->
  (forall e s, I s -> X e s) -> triple P m Q X.
Proof. intros Hk HP HQ HX. eapply triple_weaken; [exact Hk | exact HP | exact HQ | exact HX]. Qed.

Lemma single_flight_send r k s :
  none_verifying s -> isVerifyingOtp s = true -> single_flight (send r (Some k) s).
Proof.
  intros Hnone Hflag.
  assert (Hat : forall n, verifying (send r (Some k) s) n -> n = length (requests s)).
  { intros n (k' & Hl & Hv). simpl in Hl. rewrite lookup_insert in Hl.
    case_decide; [congruence |]. destruct (Hnone n). exists k'. auto. }
  split; [intros n _; exact Hflag |].
  intros i j Hi Hj. apply Hat in Hi, Hj. congruence.
Qed.

Lemma verifyOtp_starts_one E :
  triple none_verifying (verifyOtp E) (fun _ => single_flight) (fun _ => single_flight).
Proof.
  pose proof none_verifying_single_flight as Hweak.
  assert (Hshow : forall (P : state -> Prop) m t, (forall s, P s -> none_verifying s) ->
            triple P (showMessage m t) (fun _ => single_flight) (fun _ => single_flight)).
  { intros P m t HP. apply (triple_of_keeps none_verifying); auto.
    keeps_with fail none_prim. }
  unfold verifyOtp.
  eapply triple_bind with (R := fun _ => none_verifying); [apply triple_read; auto |].
  intros busy. destruct busy; [apply triple_ret; auto |].
  eapply triple_bind with (R := fun _ => none_verifying); [apply triple_read; auto |].
  intros otpForm.
  eapply triple_bind with (R := fun _ => none_verifying).
  { apply (triple_of_keeps none_verifying); auto. keeps_with fail none_prim. }
  intros otpCode. cbv zeta.
  destruct (_ || _); [apply Hshow; auto |].
  destruct (dataset_of otpForm "identifier") as [[|c identifier]|];
    [apply Hshow; auto | | apply Hshow; auto].
  eapply triple_bind with (R := fun _ s => none_verifying s /\ isVerifyingOtp s = true).
  { apply triple_modify. intros s H. split; [exact H | reflexivity]. }
  intros _.
  eapply triple_bind with (R := fun _ s => none_verifying s /\ isVerifyingOtp s = true).
  { apply (triple_of_keeps (fun s => none_verifying s /\ isVerifyingOtp s = true)); auto.
    - keeps_with fail ltac:(intros s H; exact H).
    - intros e s [H _]. auto. }
  intros _.
  destruct (bool_decide (dataset_of otpForm "type" = Some (lit "register"))).
  { apply triple_modify. intros s [H1 H2]. apply single_flight_send; assumption. }
  destruct (bool_decide (dataset_of otpForm "type" = Some (lit "login"))).
  { apply triple_modify. intros s [H1 H2]. apply single_flight_send; assumption. }
  apply (triple_of_keeps none_verifying); auto; [| intros s [H _]; exact H].
  keeps_with fail none_prim.
Qed.

Lemma verifyOtp_single_flight E : keeps single_flight (verifyOtp E).
Proof.
  intros s Hs. destruct (isVerifyingOtp s) eqn:Hflag.
  - unfold verifyOtp. rewrite bind_read, Hflag. exact Hs.
  - apply verifyOtp_starts_one. intros n Hn. apply Hs in Hn. congruence.
Qed.

Ltac flight_known := apply verifyOtp_single_flight.

Lemma resume_none_verifying E k o : keeps none_verifying (resume E k o).
Proof. destruct k; keeps_with fail none_prim. Qed.

Lemma resume_single_flight E k o :
  is_verifyOtp k = false -> keeps single_flight (resume E k o).
Proof. destruct k; try discriminate; intros _; keeps_with flight_known flight_prim. Qed.

Lemma call_single_flight E g : keeps single_flight (call E g).
Proof. destruct g; keeps_with flight_known flight_prim. Qed.

Lemma on_click_single_flight E id : keeps single_flight (on_click E id).
Proof. keeps_with flight_known flight_prim. Qed.

Lemma on_enter_single_flight E id : keeps single_flight (on_enter E id).
Proof. keeps_with flight_known flight_prim. Qed.

Lemma on_input_single_flight id v : keeps single_flight (on_input id v).
Proof. keeps_with flight_known flight_prim. Qed.

Lemma countdown_single_flight : keeps single_flight countdown.
Proof. keeps_with flight_known flight_prim. Qed.

Lemma verifying_delete n s m :
  verifying (set_pending (delete n) s) m -> verifying s m /\ m <> n.
Proof.
  intros (k & Hl & Hv). simpl in Hl. rewrite lookup_delete in Hl.
  case_decide; [discriminate |]. split; [exists k; auto | congruence].
Qed.

Lemma answer_single_flight E n o s : single_flight s -> single_flight (answer E n o s).
Proof.
  intros [Ha Hb]. unfold answer. destruct (pending s !! n) as [k|] eqn:Hk; [| split; assumption].
  destruct (is_verifyOtp k) eqn:Hv.
  - apply none_verifying_single_flight, keeps_run; [apply resume_none_verifying |].
    intros m Hm. apply verifying_delete in Hm as [Hm Hne].
    apply Hne, Hb; [exact Hm | exists k; auto].
  - apply keeps_run; [apply resume_single_flight, Hv |].
    split.
    + intros m Hm. apply verifying_delete in Hm as [Hm _]. apply (Ha m Hm).
    + intros i j Hi Hj. apply verifying_delete in Hi as [Hi _], Hj as [Hj _]. auto.
Qed.

Lemma fire_single_flight id s : single_flight s -> single_flight (fire id s).
Proof.
  intros Hs. unfold fire. destruct (timers s !! id) as [[]|]; try exact Hs.
  apply keeps_run; [apply countdown_single_flight | exact Hs].
Qed.

Lemma step_single_flight E ev s : single_flight s -> single_flight (step E ev s).
Proof.
  intros Hs. destruct ev; simpl.
  - apply keeps_run; [apply call_single_flight | exact Hs].
  - destruct (present id s); [| exact Hs].
    apply keeps_run; [apply on_click_single_flight | exact Hs].
  - destruct (present id s); [| exact Hs].
    apply keeps_run; [apply on_enter_single_flight | exact Hs].
  - destruct (present id s); [| exact Hs].
    apply keeps_run; [apply on_input_single_flight | exact Hs].
  - apply fire_single_flight, Hs.
  - apply answer_single_flight, Hs.
Qed.

Lemma reachable_single_flight E page s : reachable E page s -> single_flight s.
Proof.
  induction 1 as [| ev s _ IH].
  - apply none_verifying_single_flight. intros n (k & Hl & _). discriminate Hl.
  - apply step_single_flight, IH.
Qed.

(** C3. On every state the page can reach at most one verification request
    is waiting for its answer; while the flag is set a call of [verifyOtp]
    returns at once and changes nothing, so it sends no request; and the
    answer to the request in flight (a success, a refusal or a failure that
    makes [apiRequest] throw) leaves the flag cleared. *)
Theorem verifyOtp_one_request_in_flight E page s :
  reachable E page s ->
  (forall i j, verifying s i -> verifying s j -> i = j)
  /\ (forall n, verifying s n -> isVerifyingOtp s = true)
  /\ (isVerifyingOtp s = true -> verifyOtp E s = (Ok tt, s))
  /\ (forall n o, verifying s n -> isVerifyingOtp (answer E n o s) = false).
Proof.
  intros Hr. destruct (reachable_single_flight _ _ _ Hr) as [Ha Hb].
  split; [exact Hb |]. split; [exact Ha |]. split.
  - intros Hflag. unfold verifyOtp. rewrite bind_read, Hflag. reflexivity.
  - intros n o (k & Hk & Hv). unfold answer. rewrite Hk.
    destruct k; try discriminate Hv; apply verifyOtp_resume_clears.
Qed.

(** ** The body of a request (C2, C10) *)

Lemma cleanData_lookup (data : gmap jsstring value) key :
  cleanData data !! key =
  match data !! key with
  | Some v => if is_provided v then Some v else None
  | None => None
  end.
Proof.
  unfold cleanData.
  apply (map_fold_weak_ind
           (fun (acc d : gmap jsstring value) =>
              acc !! key = match d !! key with
                           | Some v => if is_provided v then Some v else None
                           | None => None
                           end)).
  - rewrite !lookup_empty. reflexivity.
  - intros i x m r Hi IH. rewrite (lookup_insert m).
    destruct (decide (i = key)) as [->|Hne].
    + destruct (is_provided x); [rewrite lookup_insert_eq; reflexivity |].
      rewrite IH, Hi. reflexivity.
    + destruct (is_provided x); [rewrite lookup_insert_ne by exact Hne |]; exact IH.
Qed.

Lemma is_provided_spec v :
  is_provided v = true <-> v <> VNull /\ v <> VUndefined /\ v <> VString [].
Proof.
  split.
  - intros H. repeat split; intros ->; discriminate H.
  - intros (H1 & H2 & H3). destruct v as [| | | | [|c t] | |]; try reflexivity; congruence.
Qed.

(** C2. A request whose method is not GET and that is given a data object
    is sent with the JSON text of an object that has exactly the fields of
    the data whose value is not null, not undefined and not the empty
    string, each with the value it has in the data. *)
Theorem apiRequest_body_omits_blank_fields (endpoint method : jsstring)
    (data : gmap jsstring value) (k : continuation) (s : state) :
  method ≠ lit "GET" ->
  exists sent,
    requests (run (apiRequest_send endpoint method (Some data) k) s)
    = requests s ++ [{| req_url := API_BASE_URL ++ endpoint;
                        req_method := method;
                        req_headers := [("Content-Type", "application/json; charset=utf-8")];
                        req_credentials := "include";
                        req_body := Some (JSON_stringify sent) |}]
    /\ forall key v,
         sent !! key = Some v
         <-> data !! key = Some v /\ v <> VNull /\ v <> VUndefined /\ v <> VString [].
Proof.
  intros Hm. exists (cleanData data). split.
  - unfold run, apiRequest_send, apiRequest_options, modify. simpl.
    rewrite bool_decide_true by exact Hm. reflexivity.
  - intros key v. rewrite cleanData_lookup, <- is_provided_spec.
    destruct (data !! key) as [w|]; [| split; [discriminate | intros [[=] _]]].
    destruct (is_provided w) eqn:Hw.
    + split; [intros [= <-]; auto | intros [[= <-] _]; reflexivity].
    + split; [discriminate | intros [[= <-] Hv]; congruence].
Qed.

(** C10. A GET request is sent without a body, whatever data it is given. *)
Theorem apiRequest_GET_has_no_body endpoint data k s :
  requests (run (apiRequest_send endpoint (lit "GET") data k) s)
  = requests s ++ [{| req_url := API_BASE_URL ++ endpoint;
                      req_method := lit "GET";
                      req_headers := [("Content-Type", "application/json; charset=utf-8")];
                      req_credentials := "include";
                      req_body := None |}].
Proof.
  unfold run, apiRequest_send, apiRequest_options, modify. simpl.
  destruct data; reflexivity.
Qed.

(** ** Registration (C1) *)

Lemma trimmed_value_eq id v s :
  el_value <$> dom s !! id = Some v -> trimmed_value id s = (Ok (trim v), s).
Proof.
  intros H. unfold trimmed_value, element_field, mbind, M_bind, bind.
  destruct (dom s !! id) as [el|]; [| discriminate H].
  injection H as <-. reflexivity.
Qed.

(** [setLoading] returns and changes the page only. *)
Lemma setLoading_eq id b s : exists d, setLoading id b s = (Ok tt, set_dom (fun _ => d) s).
Proof.
  unfold setLoading. rewrite bind_getElementById.
  destruct (dom s !! id).
  - destruct b; eexists; reflexivity.
  - exists (dom s). destruct s; reflexivity.
Qed.

Lemma nonempty_false (x : jsstring) : nonempty x = false <-> x = [].
Proof. destruct x; split; intros H; try reflexivity; discriminate H. Qed.

Lemma showMessage_requests t type s :
  requests (run (showMessage (VString t) type) s) = requests s
  /\ pending (run (showMessage (VString t) type) s) = pending s.
Proof.
  unfold run. destruct (showMessage_eq t type s) as [d ->].
  destruct (present "message" s); split; reflexivity.
Qed.

(** C1, as the code has it.  With the four fields on the page, [register]
    stops with a validation message, and sends nothing, exactly when the
    trimmed first name or the trimmed last name is empty, or both the
    trimmed email and the trimmed phone are empty; otherwise it sends one
    POST request to /register. *)
Theorem register_validates s firstName lastName email phone :
  el_value <$> dom s !! "firstName" = Some firstName ->
  el_value <$> dom s !! "lastName" = Some lastName ->
  el_value <$> dom s !! "registerEmail" = Some email ->
  el_value <$> dom s !! "registerPhone" = Some phone ->
  let refused := trim firstName = [] \/ trim lastName = []
                 \/ (trim email = [] /\ trim phone = []) in
  (refused ->
     (exists m, register s = showMessage (VString (lit m)) "error" s
                /\ (m = "Please enter first name and last name"
                    \/ m = "Please enter email or phone number"))
     /\ requests (run register s) = requests s
     /\ pending (run register s) = pending s)
  /\ (~ refused ->
      exists r, requests (run register s) = requests s ++ [r]
                /\ pending (run register s) !! length (requests s)
                   = Some (K_register (trim email) (trim phone))
                /\ req_url r = API_BASE_URL ++ lit "/register"
                /\ req_method r = lit "POST").
Proof.
  intros H1 H2 H3 H4 refused.
  assert (Hrun : register s =
            (if negb (nonempty (trim firstName)) || negb (nonempty (trim lastName))
             then showMessage (VString (lit "Please enter first name and last name")) "error"
             else if negb (nonempty (trim email)) && negb (nonempty (trim phone))
             then showMessage (VString (lit "Please enter email or phone number")) "error"
             else
               setLoading "registerBtn" true;;
               apiRequest_send (lit "/register") (lit "POST")
                 (Some (let d : gmap jsstring value :=
                          <[lit "last_name" := VString (trim lastName)]>
                            {[ lit "first_name" := VString (trim firstName) ]} in
                        let d := if nonempty (trim email)
                                 then <[lit "email" := VString (trim email)]> d else d in
                        if nonempty (trim phone)
                        then <[lit "phone" := VString (trim phone)]> d else d))
                 (K_register (trim email) (trim phone))) s).
  { unfold register.
    erewrite bind_returns by (apply trimmed_value_eq, H1).
    erewrite bind_returns by (apply trimmed_value_eq, H2).
    erewrite bind_returns by (apply trimmed_value_eq, H3).
    erewrite bind_returns by (apply trimmed_value_eq, H4).
    reflexivity. }
  unfold run. rewrite Hrun. clear Hrun. subst refused.
  destruct (nonempty (trim firstName)) eqn:Hf; simpl.
  2: { apply nonempty_false in Hf. split; [| tauto]. intros _.
       split; [eauto |]. apply showMessage_requests. }
  destruct (nonempty (trim lastName)) eqn:Hl; simpl.
  2: { apply nonempty_false in Hl. split; [| tauto]. intros _.
       split; [eauto |]. apply showMessage_requests. }
  destruct (nonempty (trim email)) eqn:He; simpl.
  - split.
    + intros [Hx | [Hx | [Hx _]]]; apply nonempty_false in Hx; congruence.
    + intros _. destruct (setLoading_eq "registerBtn" true s) as [d Hd].
      erewrite bind_returns by exact Hd.
      eexists. split; [reflexivity |]. split; [apply lookup_insert_eq |]. split; reflexivity.
  - destruct (nonempty (trim phone)) eqn:Hp; simpl.
    + split.
      * intros [Hx | [Hx | [_ Hx]]]; apply nonempty_false in Hx; congruence.
      * intros _. destruct (setLoading_eq "registerBtn" true s) as [d Hd].
        erewrite bind_returns by exact Hd.
        eexists. split; [reflexivity |]. split; [apply lookup_insert_eq |]. split; reflexivity.
    + apply nonempty_false in He, Hp. split; [| tauto]. intros _.
      split; [eauto |]. apply showMessage_requests.
Qed.

(** C1 as the claim words it fails on a form with a first name, an email and
    no last name: the names are not both blank and an identifier is present,
    and [register] shows the validation message and sends nothing. *)
Lemma register_refuses_one_blank_name :
  let s := loaded (register_page "Ali" "" "ali@example.com" "") in
  ~ (trim (lit "Ali") = [] /\ trim (lit "") = [])
  /\ ~ (trim (lit "ali@example.com") = [] /\ trim (lit "") = [])
  /\ requests (run register s) = []
  /\ el_textContent <$> dom (run register s) !! "message"
     = Some (lit "Please enter first name and last name").
Proof.
  cbv zeta. split; [intros [H _]; vm_compute in H; discriminate H |].
  split; [intros [H _]; vm_compute in H; discriminate H |].
  split; vm_compute; reflexivity.
Qed.

Lemma register_validates_witness :
  let s := loaded (register_page "Ali" "Ahmadi" "ali@example.com" "") in
  exists r, requests (run register s) = requests s ++ [r]
            /\ pending (run register s) !! length (requests s)
               = Some (K_register (trim (lit "ali@example.com")) (trim (lit "")))
            /\ req_url r = API_BASE_URL ++ lit "/register"
            /\ req_method r = lit "POST".
Proof.
  cbv zeta.
  apply (register_validates (loaded (register_page "Ali" "Ahmadi" "ali@example.com" ""))
           (lit "Ali") (lit "Ahmadi") (lit "ali@example.com") (lit ""));
    [vm_compute; reflexivity | vm_compute; reflexivity
    | vm_compute; reflexivity | vm_compute; reflexivity |].
  intros [H | [H | [H _]]]; vm_compute in H; discriminate H.
Defined.

(** ** The code field (C4) *)

Lemma trimStart_id (x : jsstring) :
  Forall (fun c => is_whitespace c = false) x -> trimStart x = x.
Proof. intros H. destruct H as [|c x Hc _]; [reflexivity |]. simpl. rewrite Hc. reflexivity. Qed.

Lemma is_digit_not_whitespace c : is_digit c = true -> is_whitespace c = false.
Proof.
  unfold is_digit. intros H. apply andb_true_iff in H as [H1 H2].
  apply N.leb_le in H1, H2.
  apply bool_decide_eq_false. unfold whitespace. intros Hin.
  repeat (apply elem_of_cons in Hin as [-> | Hin]; [lia |]).
  inversion Hin.
Qed.

Lemma strip_non_digits_digits raw : Forall (fun c => is_digit c = true) (strip_non_digits raw).
Proof. apply Forall_forall. intros c Hc. apply list_elem_of_filter in Hc as [Hc _]. exact Hc. Qed.

Lemma trim_digits x : Forall (fun c => is_digit c = true) x -> trim x = x.
Proof.
  intros H.
  assert (Hw : Forall (fun c => is_whitespace c = false) x).
  { eapply Forall_impl; [exact H | apply is_digit_not_whitespace]. }
  unfold trim, trimEnd. rewrite (trimStart_id x Hw).
  rewrite trimStart_id by (apply Forall_reverse, Hw). apply reverse_involutive.
Qed.

(** [verifyOtp] on a page that has the code field, when no verification is
    in flight. *)
Lemma verifyOtp_eval E s code :
  isVerifyingOtp s = false ->
  el_value <$> dom s !! "otpCode" = Some code ->
  verifyOtp E s =
  (if negb (nonempty (trim code)) || negb (bool_decide (length (trim code) = 6%nat))
   then showMessage (VString (lit "Please enter a 6-digit code")) "error"
   else
     match dataset_of (dom s !! "otpForm") "identifier" with
     | None | Some [] =>
         showMessage (VString (lit "Identifier not found. Please try again.")) "error"
     | Some identifier =>
         modify (set_isVerifyingOtp true);;
         setLoading "verifyOtpBtn" true;;
         let data : gmap jsstring value :=
           <[lit "otp" := VString (trim code)]> {[ lit "identifier" := VString identifier ]} in
         if bool_decide (dataset_of (dom s !! "otpForm") "type" = Some (lit "register"))
         then apiRequest_send (lit "/verify-otp") (lit "POST") (Some data) K_verifyOtp_register
         else if bool_decide (dataset_of (dom s !! "otpForm") "type" = Some (lit "login"))
         then apiRequest_send (lit "/verify-login-otp") (lit "POST") (Some data)
                              K_verifyOtp_login
         else
           try_finally
             (try_catch (showMessage (VString (lit "Unknown operation type")) "error")
                        (report E))
             verifyOtp_finally
     end) s.
Proof.
  intros Hflag Hcode. unfold verifyOtp.
  rewrite bind_read, Hflag, bind_getElementById.
  erewrite bind_returns by (apply trimmed_value_eq, Hcode). reflexivity.
Qed.

Lemma verifyOtp_sends_only_length_six E s code :
  el_value <$> dom s !! "otpCode" = Some code ->
  requests (run (verifyOtp E) s) <> requests s -> length (trim code) = 6%nat.
Proof.
  intros Hcode Hsent. destruct (isVerifyingOtp s) eqn:Hflag.
  { exfalso. apply Hsent. unfold run, verifyOtp. rewrite bind_read, Hflag. reflexivity. }
  unfold run in Hsent. rewrite (verifyOtp_eval E s code Hflag Hcode) in Hsent.
  destruct (bool_decide (length (trim code) = 6%nat)) eqn:Hlen.
  - apply bool_decide_eq_true in Hlen. exact Hlen.
  - exfalso. apply Hsent. rewrite orb_true_r. apply showMessage_requests.
Qed.

Lemma present_update id id' f s : present id (update id' f s) = present id s.
Proof.
  unfold present. simpl. apply bool_decide_ext, lookup_alter_is_Some.
Qed.

Lemma on_input_code E raw s :
  present "verifyOtpBtn" s = true -> is_Some (dom s !! "otpCode") ->
  el_value <$> dom (step E (Input "otpCode" raw) s) !! "otpCode"
  = Some (strip_non_digits raw).
Proof.
  intros Hbtn [el Hel]. simpl.
  assert (Hp : present "otpCode" s = true) by (apply bool_decide_eq_true; eauto).
  rewrite Hp. unfold run, on_input.
  rewrite bind_modify, bind_read, present_update, Hbtn. simpl.
  rewrite !lookup_alter_eq, Hel. reflexivity.
Qed.

Lemma verifyOtp_sends_length_six E s code identifier type :
  isVerifyingOtp s = false ->
  el_value <$> dom s !! "otpCode" = Some code ->
  length (trim code) = 6%nat ->
  dataset_of (dom s !! "otpForm") "identifier" = Some identifier -> identifier <> [] ->
  dataset_of (dom s !! "otpForm") "type" = Some (lit type) ->
  type = "register" \/ type = "login" ->
  exists r, requests (run (verifyOtp E) s) = requests s ++ [r]
            /\ req_method r = lit "POST"
            /\ req_url r = API_BASE_URL
                           ++ lit (if bool_decide (type = "register")
                                   then "/verify-otp" else "/verify-login-otp")
            /\ req_body r = Some (JSON_stringify
                                    (cleanData (<[lit "otp" := VString (trim code)]>
                                                  {[ lit "identifier" := VString identifier ]}))).
Proof.
  intros Hflag Hcode Hlen Hid Hne Htype Hkind.
  unfold run. rewrite (verifyOtp_eval E s code Hflag Hcode).
  rewrite (bool_decide_true _ Hlen), Hid, Htype.
  assert (Hn : nonempty (trim code) = true) by (destruct (trim code); [discriminate Hlen | reflexivity]).
  rewrite Hn. cbn [negb orb].
  destruct identifier as [|c identifier]; [congruence |].
  rewrite bind_modify.
  destruct (setLoading_eq "verifyOtpBtn" true (set_isVerifyingOtp true s)) as [d Hd].
  erewrite bind_returns by exact Hd.
  destruct Hkind as [-> | ->]; eexists; (split; [reflexivity |]); auto.
Qed.

(** C4, as the code has it.  [verifyOtp] sends a request only when the
    trimmed content of the code field has exactly 6 code units, and it
    refuses any other length with the message 'Please enter a 6-digit code'
    and sends nothing.  It does not look at what the 6 units are.  Digits
    are the work of the input listener of the field: it deletes every other
    character as the code is entered, so a code that went through the
    listener is sent only when it is exactly 6 digits. *)
Theorem verifyOtp_checks_length E s code :
  el_value <$> dom s !! "otpCode" = Some code ->
  (requests (run (verifyOtp E) s) <> requests s -> length (trim code) = 6%nat)
  /\ (isVerifyingOtp s = false -> length (trim code) <> 6%nat ->
      verifyOtp E s = showMessage (VString (lit "Please enter a 6-digit code")) "error" s
      /\ requests (run (verifyOtp E) s) = requests s)
  /\ (isVerifyingOtp s = false -> length (trim code) = 6%nat ->
      forall identifier type,
        dataset_of (dom s !! "otpForm") "identifier" = Some identifier -> identifier <> [] ->
        dataset_of (dom s !! "otpForm") "type" = Some (lit type) ->
        type = "register" \/ type = "login" ->
        exists r, requests (run (verifyOtp E) s) = requests s ++ [r]
                  /\ req_body r = Some (JSON_stringify
                                          (cleanData
                                             (<[lit "otp" := VString (trim code)]>
                                                {[ lit "identifier" := VString identifier ]}))))
  /\ (forall raw, present "verifyOtpBtn" s = true ->
      let s1 := step E (Input "otpCode" raw) s in
      el_value <$> dom s1 !! "otpCode" = Some (strip_non_digits raw)
      /\ (requests (run (verifyOtp E) s1) <> requests s1 ->
          length (strip_non_digits raw) = 6%nat
          /\ Forall (fun c => is_digit c = true) (strip_non_digits raw))).
Proof.
  intros Hcode. split; [apply verifyOtp_sends_only_length_six, Hcode |].
  split; [| split].
  - intros Hflag Hlen. unfold run. rewrite (verifyOtp_eval E s code Hflag Hcode).
    rewrite (bool_decide_false _ Hlen), orb_true_r.
    split; [reflexivity | apply showMessage_requests].
  - intros Hflag Hlen identifier type Hid Hne Htype Hkind.
    destruct (verifyOtp_sends_length_six E s code identifier type
                Hflag Hcode Hlen Hid Hne Htype Hkind) as (r & Hr & _ & _ & Hb).
    exists r. auto.
  - intros raw Hbtn s1.
    assert (Hval : el_value <$> dom s1 !! "otpCode" = Some (strip_non_digits raw)).
    { apply on_input_code; [exact Hbtn |]. destruct (dom s !! "otpCode"); [eauto | discriminate]. }
    split; [exact Hval |]. intros Hsent.
    pose proof (strip_non_digits_digits raw) as Hd.
    split; [| exact Hd].
    rewrite <- (trim_digits _ Hd) at 1.
    apply (verifyOtp_sends_only_length_six E s1 _ Hval Hsent).
Qed.

(** ** What [apiRequest] throws (C5) *)

(** C5, the code at the failing input.  A refusal of the server whose
    message holds the word fetch (status 400, a well-formed JSON body) and a
    request that never got an answer give the caller the same error, the
    connection error: the [catch] block of [apiRequest] also rewrites the
    error the [try] block has made from the server's message. *)
Theorem apiRequest_takes_refusal_for_connection_error :
  apiRequest_try sample_engine (json_answer 400 text_failure_fetch_user)
  = Throw (Error (lit "Failed to fetch user"))
  /\ apiRequest_receive sample_engine (json_answer 400 text_failure_fetch_user)
     = Throw (Error connection_error)
  /\ apiRequest_receive sample_engine (Rejects (lit "Failed to fetch"))
     = Throw (Error connection_error).
Proof. repeat split; vm_compute; reflexivity. Qed.

(** Apart from that rewriting, the three outcomes are kept apart. *)
Lemma apiRequest_receive_result E r t v :
  text r = Some t -> trim t <> [] ->
  includes (toLowerCase (default [] (content_type r))) (lit "application/json")
  || startsWith (trim t) (lit "{") || startsWith (trim t) (lit "[") = true ->
  JSON_parse E t = Some v -> ok r = true ->
  apiRequest_receive E (Responds r) = Ok v.
Proof.
  intros Ht Hne Hjson Hparse Hok. unfold apiRequest_receive, apiRequest_try.
  rewrite Ht. simpl.
  assert (Hn : nonempty t = true) by (destruct t; [destruct Hne |]; reflexivity).
  rewrite Hn, (bool_decide_false _ Hne). simpl.
  rewrite <- orb_assoc in Hjson. rewrite Hjson, Hparse. simpl. rewrite Hok. reflexivity.
Qed.

Lemma apiRequest_receive_refusal E r t v m :
  text r = Some t -> trim t <> [] ->
  includes (toLowerCase (default [] (content_type r))) (lit "application/json")
  || startsWith (trim t) (lit "{") || startsWith (trim t) (lit "[") = true ->
  JSON_parse E t = Some v -> ok r = false ->
  get v "message" = Ok (VString m) -> m <> [] ->
  apiRequest_receive E (Responds r)
  = Throw (Error (if has_marker m then connection_error else m)).
Proof.
  intros Ht Hne Hjson Hparse Hok Hm Hmne. unfold apiRequest_receive, apiRequest_try.
  rewrite Ht. simpl.
  assert (Hn : nonempty t = true) by (destruct t; [destruct Hne |]; reflexivity).
  rewrite Hn, (bool_decide_false _ Hne). simpl.
  rewrite <- orb_assoc in Hjson. rewrite Hjson, Hparse. simpl. rewrite Hok, Hm. simpl.
  unfold or_else. simpl.
  assert (Hmn : nonempty m = true) by (destruct m; [destruct Hmne |]; reflexivity).
  rewrite Hmn. simpl. unfold apiRequest_catch, has_marker. simpl.
  match goal with |- (if ?b then _ else _) = _ => destruct b end; reflexivity.
Qed.

Lemma apiRequest_receive_no_answer E m :
  apiRequest_receive E (Rejects m)
  = Throw (if has_marker m then Error connection_error else NetworkError m).
Proof.
  unfold apiRequest_receive, apiRequest_try, apiRequest_catch, has_marker. simpl.
  match goal with |- (if ?b then _ else _) = _ => destruct b end; reflexivity.
Qed.

(** ** Logout (C7) *)

(** C7, the code at the failing input.  When the server answers the logout
    request with status 200 and a body whose [success] is false, [logout]
    returns and leaves the client where it is: nothing is assigned to
    [window.location.href]. *)
Theorem logout_stays_after_refusal s :
  logout_resume sample_engine (json_answer 200 text_failure) s = (Ok tt, s)
  /\ location (run (logout_resume sample_engine (json_answer 200 text_failure)) s)
     = location s.
Proof.
  assert (H : logout_resume sample_engine (json_answer 200 text_failure) s = (Ok tt, s)).
  { unfold logout_resume, try_catch.
    assert (Hr : apiRequest_receive sample_engine (json_answer 200 text_failure)
                 = Ok (object [("success", VBool false)])) by (vm_compute; reflexivity).
    rewrite Hr. reflexivity. }
  split; [exact H |]. unfold run. rewrite H. reflexivity.
Qed.

(** On every other answer [logout] returns and goes to the login page. *)
Lemma logout_resume_cases E o s :
  logout_resume E o s = (Ok tt, navigate (lit "index.html") s)
  \/ (logout_resume E o s = (Ok tt, s)
      /\ exists result success,
           apiRequest_receive E o = Ok result
           /\ get result "success" = Ok success /\ truthy success = false).
Proof.
  unfold logout_resume, try_catch.
  destruct (apiRequest_receive E o) as [result|e] eqn:Hr; [| left; reflexivity].
  rewrite bind_lift. destruct (get result "success") as [success|e] eqn:Hs.
  - rewrite bind_lift. destruct (truthy success) eqn:Ht; [left; reflexivity |].
    right. split; [reflexivity |]. eauto.
  - left. reflexivity.
Qed.

(** ** Direct login (C6) *)

Lemma lift_bind {A B} (a : A) (k : A -> M B) : (lift (Ok a) ≫= k) = k a.
Proof. reflexivity. Qed.

Lemma lift_throw_bind {A B} e (k : A -> M B) : (lift (Throw e) ≫= k) = throw e.
Proof. reflexivity. Qed.

Ltac other_element := let H := fresh in intros H; vm_compute in H; discriminate H.

Ltac as_in_prim :=
  let s := fresh "s" in
  let H1 := fresh "H1" in
  let H2 := fresh "H2" in
  let H3 := fresh "H3" in
  let H4 := fresh "H4" in
  let H5 := fresh "H5" in
  intros s (H1 & H2 & H3 & H4 & H5);
  split; [simpl; try (rewrite lookup_alter_ne by other_element); exact H1 |];
  split; [simpl; try (rewrite lookup_alter_ne by other_element); exact H2 |];
  split; [exact H3 |]; split; [exact H4 |];
  let Hc := fresh "Hc" in
  intros ? Hc; apply H5;
  first [ exact Hc | eapply counts_down_new_timer; [| exact Hc]; discriminate ].

Lemma showMessage_as_in s0 m t : keeps (code_form_as_in s0) (showMessage m t).
Proof. keeps_with fail as_in_prim. Qed.

Lemma setLoading_loginBtn_as_in s0 b : keeps (code_form_as_in s0) (setLoading "loginBtn" b).
Proof. keeps_with fail as_in_prim. Qed.

Lemma code_form_as_in_refl s : code_form_as_in s s.
Proof. repeat split; auto. Qed.

Lemma throw_bind {A B} e (k : A -> M B) : (throw e ≫= k) = throw e.
Proof. reflexivity. Qed.

(** C6. When the answer to the login request is a success that says direct
    login, [login] assigns the dashboard to [window.location.href] at once
    (no timeout is set), and the code form, the timer line and the
    countdown stay as they were.  On every answer, either they stay as they
    were or the answer is a success that does not say direct login. *)
Theorem login_direct_goes_to_dashboard E email phone o s :
  (says_direct_login E o ->
   location (run (login_resume E email phone o) s) = location s ++ [lit "dashboard.html"]
   /\ timers (run (login_resume E email phone o) s) = timers s
   /\ code_form_as_in s (run (login_resume E email phone o) s))
  /\ (code_form_as_in s (run (login_resume E email phone o) s) \/ asks_for_code E o).
Proof.
  assert (Hdirect : forall result success direct,
            apiRequest_receive E o = Ok result ->
            get result "success" = Ok success -> truthy success = true ->
            direct_login result = Ok direct -> truthy direct = true ->
            login_resume E email phone o
            = try_finally (try_catch (modify (navigate (lit "dashboard.html"))) (report E))
                          (setLoading "loginBtn" false)).
  { intros result success direct Hr Hs Ht Hd Htd. unfold login_resume.
    rewrite Hr, lift_bind, Hs, lift_bind, Ht, Hd, lift_bind, Htd. reflexivity. }
  assert (Hkeep : forall result success direct,
            apiRequest_receive E o = Ok result ->
            get result "success" = Ok success -> truthy success = true ->
            direct_login result = Ok direct -> truthy direct = true ->
            code_form_as_in s (run (login_resume E email phone o) s)).
  { intros result success direct Hr Hs Ht Hd Htd.
    rewrite (Hdirect _ _ _ Hr Hs Ht Hd Htd).
    apply keeps_run; [| apply code_form_as_in_refl].
    keeps_with ltac:(first [apply showMessage_as_in | apply setLoading_loginBtn_as_in])
               as_in_prim. }
  split.
  - intros (result & success & direct & Hr & Hs & Ht & Hd & Htd).
    split; [| split; [| eapply Hkeep; eassumption]];
      rewrite (Hdirect _ _ _ Hr Hs Ht Hd Htd); unfold run, try_finally, try_catch;
      cbn [modify];
      destruct (setLoading_eq "loginBtn" false (navigate (lit "dashboard.html") s)) as [d ->];
      reflexivity.
  - destruct (apiRequest_receive E o) as [result|e] eqn:Hr.
    2: { left. unfold login_resume. rewrite Hr, lift_throw_bind.
         apply keeps_run; [| apply code_form_as_in_refl].
         keeps_with ltac:(first [apply showMessage_as_in | apply setLoading_loginBtn_as_in])
                    as_in_prim. }
    destruct (get result "success") as [success|e] eqn:Hs.
    2: { left. unfold login_resume. rewrite Hr, lift_bind, Hs, lift_throw_bind.
         apply keeps_run; [| apply code_form_as_in_refl].
         keeps_with ltac:(first [apply showMessage_as_in | apply setLoading_loginBtn_as_in])
                    as_in_prim. }
    destruct (truthy success) eqn:Ht.
    2: { left. unfold login_resume. rewrite Hr, lift_bind, Hs, lift_bind, Ht.
         apply keeps_run; [| apply code_form_as_in_refl].
         keeps_with ltac:(first [apply showMessage_as_in | apply setLoading_loginBtn_as_in])
                    as_in_prim. }
    destruct (direct_login result) as [direct|e] eqn:Hd.
    2: { left. unfold login_resume.
         rewrite Hr, lift_bind, Hs, lift_bind, Ht, Hd, lift_throw_bind.
         apply keeps_run; [| apply code_form_as_in_refl].
         keeps_with ltac:(first [apply showMessage_as_in | apply setLoading_loginBtn_as_in])
                    as_in_prim. }
    destruct (truthy direct) eqn:Htd.
    + left. apply (Hkeep result success direct); first [reflexivity | assumption].
    + right. exists result, success, direct. auto.
Qed.

(** ** Resending the code (C8) *)

Lemma showMessage_exact t type s :
  showMessage (VString t) type s =
  (Ok tt, if present "message" s
          then new_timer HideMessage
                 (update "message" (set_display "block")
                    (update "message" (set_class ["message"; type])
                       (update "message" (set_textContent t) s)))
          else s).
Proof.
  unfold showMessage, present. rewrite bind_getElementById.
  destruct (dom s !! "message") as [el|] eqn:Hel.
  - rewrite bool_decide_true by eauto. reflexivity.
  - rewrite bool_decide_false by (intros [? [=]]). reflexivity.
Qed.

Ltac dom_simpl :=
  repeat first [ rewrite lookup_alter_ne by other_element | rewrite lookup_alter_eq ].

Lemma try_catch_returns {A} (body : M A) handler s a s' :
  body s = (Ok a, s') -> try_catch body handler s = (Ok a, s').
Proof. intros H. unfold try_catch. rewrite H. reflexivity. Qed.

Lemma optional_value_eq id s : exists v, optional_value id s = (Ok v, s).
Proof. unfold optional_value. rewrite bind_getElementById. eexists. reflexivity. Qed.

Lemma dataset_of_Some f key : dataset_of (Some f) key = el_dataset f !! key.
Proof. reflexivity. Qed.

Lemma resendOtp_login s f (identifier : jsstring) :
  dom s !! "otpForm" = Some f ->
  el_dataset f !! "identifier" = Some identifier -> identifier <> [] ->
  el_dataset f !! "type" = Some (lit "login") ->
  exists r, resendOtp s = (Ok tt, send r (Some K_resendOtp) s)
            /\ req_url r = API_BASE_URL ++ lit "/login"
            /\ req_method r = lit "POST".
Proof.
  intros Hf Hid Hne Htype. unfold resendOtp.
  rewrite bind_getElementById, Hf, !dataset_of_Some, Hid, Htype.
  destruct identifier as [|c identifier]; [congruence |].
  destruct (optional_value_eq "loginEmail" s) as [email He].
  destruct (optional_value_eq "loginPhone" s) as [phone Hp].
  eexists. split.
  - apply try_catch_returns.
    rewrite bool_decide_false by (intros H; vm_compute in H; discriminate H).
    rewrite bool_decide_true by reflexivity.
    erewrite bind_returns by exact He. erewrite bind_returns by exact Hp.
    reflexivity.
  - split; reflexivity.
Qed.

Lemma resendOtp_resume_restarts E o s :
  says_success E o ->
  otpTimerSeconds (run (resendOtp_resume E o) s) = 300
  /\ requests (run (resendOtp_resume E o) s) = requests s
  /\ (present "otpTimer" s = true ->
      otpTimerInterval (run (resendOtp_resume E o) s) = Some (next_timer s)
      /\ counts_down (run (resendOtp_resume E o) s) (next_timer s)).
Proof.
  intros (result & success & Hr & Hs & Ht).
  destruct (startOtpTimer_result s) as (s1 & Hstart & Hsec & Htimers & Hint & Hnext & Hreq & _).
  assert (Hrun : resendOtp_resume E o s
                 = showMessage (VString (lit "Verification code resent")) "success" s1).
  { unfold resendOtp_resume. rewrite Hr, lift_bind, Hs, lift_bind, Ht.
    unfold try_catch. erewrite bind_returns by exact Hstart.
    rewrite showMessage_exact. reflexivity. }
  unfold run. rewrite Hrun, showMessage_exact. cbn [snd].
  destruct (present "message" s1); cbn.
  - split; [exact Hsec |]. split; [exact Hreq |]. intros Hp. rewrite Hp in *.
    split; [exact Hint |]. unfold counts_down. cbn.
    rewrite Hnext, lookup_insert_ne by lia. rewrite Htimers. apply lookup_insert_eq.
  - split; [exact Hsec |]. split; [exact Hreq |]. intros Hp. rewrite Hp in *.
    split; [exact Hint |]. unfold counts_down. rewrite Htimers. apply lookup_insert_eq.
Qed.

Lemma backToForm_register s f :
  dom s !! "otpForm" = Some f ->
  el_dataset f !! "type" = Some (lit "register") ->
  exists s', backToForm s = (Ok tt, s')
    /\ requests s' = requests s /\ pending s' = pending s
    /\ otpTimerInterval s' = None
    /\ el_display <$> dom s' !! "otpForm" = Some "none"
    /\ (is_Some (dom s !! "registerForm") ->
        el_display <$> dom s' !! "registerForm" = Some "block").
Proof.
  intros Hf Htype. unfold backToForm.
  erewrite bind_returns by apply stopOtpTimer_eq.
  rewrite bind_getElementById.
  set (s1 := match otpTimerInterval s with Some old => _ | None => s end).
  assert (H1 : dom s1 = dom s /\ requests s1 = requests s /\ pending s1 = pending s
               /\ otpTimerInterval s1 = None).
  { subst s1. destruct (otpTimerInterval s) eqn:Hi; cbn; auto. }
  destruct H1 as (Hdom & Hreq & Hpen & Hint).
  rewrite Hdom, Hf. rewrite !bind_modify, Htype.
  rewrite bool_decide_false by (intros H; vm_compute in H; discriminate H).
  rewrite bool_decide_true by reflexivity.
  eexists. split; [reflexivity |]. cbn. rewrite Hdom.
  split; [exact Hreq |]. split; [exact Hpen |]. split; [exact Hint |].
  split.
  - dom_simpl. rewrite Hf. reflexivity.
  - intros [g Hg]. dom_simpl. rewrite Hg. reflexivity.
Qed.

Lemma resendOtp_register s f (identifier : jsstring) :
  dom s !! "otpForm" = Some f ->
  el_dataset f !! "identifier" = Some identifier -> identifier <> [] ->
  el_dataset f !! "type" = Some (lit "register") ->
  requests (run resendOtp s) = requests s
  /\ pending (run resendOtp s) = pending s
  /\ otpTimerInterval (run resendOtp s) = None
  /\ el_display <$> dom (run resendOtp s) !! "otpForm" = Some "none"
  /\ (is_Some (dom s !! "registerForm") ->
      el_display <$> dom (run resendOtp s) !! "registerForm" = Some "block").
Proof.
  intros Hf Hid Hne Htype.
  set (shown := (showMessage (VString (lit "Please fill out the registration form again"))
                             "info" s).2).
  assert (Hshown : showMessage (VString (lit "Please fill out the registration form again"))
                               "info" s = (Ok tt, shown)).
  { subst shown. rewrite showMessage_exact. reflexivity. }
  assert (H1 : dom shown !! "otpForm" = Some f
               /\ dom shown !! "registerForm" = dom s !! "registerForm"
               /\ requests shown = requests s /\ pending shown = pending s).
  { subst shown. rewrite showMessage_exact.
    destruct (present "message" s); cbn; dom_simpl; auto. }
  destruct H1 as (Hf1 & Hreg & Hreq & Hpen).
  destruct (backToForm_register shown f Hf1 Htype)
    as (s' & Hback & Hreq' & Hpen' & Hint & Hform & Hregister).
  assert (Hrun : resendOtp s = (Ok tt, s')).
  { unfold resendOtp. rewrite bind_getElementById, Hf, !dataset_of_Some, Hid, Htype.
    destruct identifier as [|c identifier]; [congruence |].
    apply try_catch_returns. rewrite bool_decide_true by reflexivity.
    erewrite bind_returns by exact Hshown. exact Hback. }
  unfold run. rewrite Hrun. cbn [snd].
  split; [congruence |]. split; [congruence |]. split; [exact Hint |].
  split; [exact Hform |]. intros Hr. apply Hregister. rewrite Hreg. exact Hr.
Qed.

(** C8. With the code form open for an identifier: in login mode
    [resendOtp] sends a POST request to /login, the address [login] itself
    uses, and when the answer is a success the remaining time is 300
    seconds again and, on a page with a timer line, a new interval counts
    down; in register mode [resendOtp] sends nothing, clears the countdown,
    hides the code form and shows the registration form. *)
Theorem resendOtp_reuses_login E s f (identifier : jsstring) :
  dom s !! "otpForm" = Some f ->
  el_dataset f !! "identifier" = Some identifier -> identifier <> [] ->
  (el_dataset f !! "type" = Some (lit "login") ->
   (exists r, resendOtp s = (Ok tt, send r (Some K_resendOtp) s)
              /\ req_url r = API_BASE_URL ++ lit "/login"
              /\ req_method r = lit "POST")
   /\ forall o s1,
        says_success E o ->
        otpTimerSeconds (run (resendOtp_resume E o) s1) = 300
        /\ requests (run (resendOtp_resume E o) s1) = requests s1
        /\ (present "otpTimer" s1 = true ->
            otpTimerInterval (run (resendOtp_resume E o) s1) = Some (next_timer s1)
            /\ counts_down (run (resendOtp_resume E o) s1) (next_timer s1)))
  /\ (el_dataset f !! "type" = Some (lit "register") ->
      requests (run resendOtp s) = requests s
      /\ pending (run resendOtp s) = pending s
      /\ otpTimerInterval (run resendOtp s) = None
      /\ el_display <$> dom (run resendOtp s) !! "otpForm" = Some "none"
      /\ (is_Some (dom s !! "registerForm") ->
          el_display <$> dom (run resendOtp s) !! "registerForm" = Some "block")).
Proof.
  intros Hf Hid Hne. split.
  - intros Htype. split; [eapply resendOtp_login; eassumption |].
    intros o s1. apply resendOtp_resume_restarts.
  - intros Htype. eapply resendOtp_register; eassumption.
Qed.

(** ** Examples *)

Lemma reachable_play E page evs : reachable E page (play E evs (loaded page)).
Proof.
  unfold play. induction evs as [|ev evs IH] using rev_ind.
  - apply reachable_loaded.
  - rewrite foldl_app. apply reachable_step, IH.
Qed.

Lemma apiRequest_body_omits_blank_fields_witness :
  exists sent,
    requests (run (apiRequest_send (lit "/login") (lit "POST")
                     (Some (<[lit "phone" := VNull]>
                              {[ lit "email" := VString (lit "ali@example.com") ]}))
                     (K_login (lit "ali@example.com") []))
                  (loaded (login_page "ali@example.com" "")))
    = [] ++ [{| req_url := API_BASE_URL ++ lit "/login";
                req_method := lit "POST";
                req_headers := [("Content-Type", "application/json; charset=utf-8")];
                req_credentials := "include";
                req_body := Some (JSON_stringify sent) |}]
    /\ forall key v,
         sent !! key = Some v
         <-> (<[lit "phone" := VNull]> {[ lit "email" := VString (lit "ali@example.com") ]}
              : gmap jsstring value) !! key = Some v
             /\ v <> VNull /\ v <> VUndefined /\ v <> VString [].
Proof.
  apply (apiRequest_body_omits_blank_fields (lit "/login") (lit "POST")).
  intros H. vm_compute in H. discriminate H.
Defined.

Lemma verifyOtp_one_request_in_flight_witness :
  verifyOtp sample_engine code_awaited = (Ok tt, code_awaited)
  /\ isVerifyingOtp (answer sample_engine 1 (json_answer 200 text_success) code_awaited) = false.
Proof.
  destruct (verifyOtp_one_request_in_flight sample_engine
              (login_page "ali@example.com" "") code_awaited
              (reachable_play _ _ _)) as (_ & _ & Hbusy & Hdone).
  split.
  - apply Hbusy. vm_compute. reflexivity.
  - apply Hdone. exists K_verifyOtp_login. split; vm_compute; reflexivity.
Defined.

(** C4 as the claim words it fails on the code 12345a6 entered in the code
    field of the login page: the code holds a letter and is not 6
    characters long, the listener turns it into 123456, and [verifyOtp]
    sends it; the message on the page is still the one of the login, no
    error was shown. *)
Lemma verifyOtp_sends_code_entered_with_letter :
  let entered := lit "12345a6" in
  let s := play sample_engine
             [Click "loginBtn"; Answers 0 (json_answer 200 text_success);
              Input "otpCode" entered; Click "verifyOtpBtn"]
             (loaded (login_page "ali@example.com" "")) in
  existsb (fun c => negb (is_digit c)) (trim entered) = true
  /\ length (trim entered) <> 6%nat
  /\ (req_url <$> requests s) = [API_BASE_URL ++ lit "/login";
                                 API_BASE_URL ++ lit "/verify-login-otp"]
  /\ (req_body <$> requests s) !! 1%nat
     = Some (Some (JSON_stringify
                     (<[lit "otp" := VString (lit "123456")]>
                        {[ lit "identifier" := VString (lit "ali@example.com") ]})))
  /\ el_textContent <$> dom s !! "message" = Some (lit "Verification code sent").
Proof.
  cbv zeta. split; [vm_compute; reflexivity |].
  split; [vm_compute; lia |].
  split; [vm_compute; reflexivity |].
  split; vm_compute; reflexivity.
Qed.

Lemma verifyOtp_checks_length_witness :
  let s := loaded (code_page (login_page "ali@example.com" "") "login" "ali@example.com" "abcdef") in
  exists r, requests (run (verifyOtp sample_engine) s) = requests s ++ [r]
            /\ req_body r = Some (JSON_stringify
                                    (cleanData
                                       (<[lit "otp" := VString (trim (lit "abcdef"))]>
                                          {[ lit "identifier" := VString (lit "ali@example.com") ]}))).
Proof.
  cbv zeta.
  destruct (verifyOtp_checks_length sample_engine
              (loaded (code_page (login_page "ali@example.com" "") "login"
                                 "ali@example.com" "abcdef"))
              (lit "abcdef")) as (_ & _ & Hsix & _); [vm_compute; reflexivity |].
  apply (Hsix eq_refl) with (type := "login");
    [vm_compute; reflexivity | vm_compute; reflexivity | discriminate
    | vm_compute; reflexivity | right; reflexivity].
Defined.

Lemma login_direct_goes_to_dashboard_witness :
  let s := loaded (login_page "ali@example.com" "") in
  let s' := run (login_resume sample_engine (lit "ali@example.com") []
                   (json_answer 200 text_direct_login)) s in
  location s' = location s ++ [lit "dashboard.html"]
  /\ timers s' = timers s
  /\ code_form_as_in s s'.
Proof.
  cbv zeta.
  apply (login_direct_goes_to_dashboard sample_engine (lit "ali@example.com") []
           (json_answer 200 text_direct_login) (loaded (login_page "ali@example.com" ""))).
  exists (object [("success", VBool true); ("data", object [("direct_login", VBool true)])]),
         (VBool true), (VBool true).
  repeat split; vm_compute; reflexivity.
Defined.

Lemma resendOtp_reuses_login_witness :
  let s := loaded (code_page (login_page "ali@example.com" "") "login" "ali@example.com" "") in
  exists r, resendOtp s = (Ok tt, send r (Some K_resendOtp) s)
            /\ req_url r = API_BASE_URL ++ lit "/login"
            /\ req_method r = lit "POST".
Proof.
  cbv zeta.
  eapply (resendOtp_reuses_login sample_engine
            (loaded (code_page (login_page "ali@example.com" "") "login" "ali@example.com" ""))
            _ (lit "ali@example.com"));
    [vm_compute; reflexivity | vm_compute; reflexivity | discriminate
    | vm_compute; reflexivity].
Defined.

Lemma startOtpTimer_single_interval_witness :
  otpTimerSeconds (run startOtpTimer code_awaited) = 300
  /\ forall i j, counts_down (run startOtpTimer code_awaited) i ->
                 counts_down (run startOtpTimer code_awaited) j -> i = j.
Proof.
  destruct (startOtpTimer_single_interval sample_engine
              (login_page "ali@example.com" "") code_awaited
              (reachable_play _ _ _)) as (_ & Hsec & _ & Hone & _ & _).
  split; [exact Hsec | exact Hone].
Defined.


(** * Further properties *)

(** ** Where the requests go *)

Lemma apiRequest_options_addressed endpoint method data :
  (endpoint, method) ∈ interface -> addressed (apiRequest_options endpoint method data).
Proof.
  intros Hin. exists endpoint, method. repeat split; try exact Hin.
  intros ->. simpl. destruct data; reflexivity.
Qed.

Ltac in_interface :=
  unfold interface; repeat first [ apply list_elem_of_here | apply list_elem_of_further ].

Ltac addressed_prim :=
  let s := fresh "s" in
  let H := fresh "H" in
  intros s H;
  first [ exact H
        | apply Forall_app; split; [exact H |];
          apply Forall_singleton, apiRequest_options_addressed; in_interface ].

Lemma resume_addressed E k o : keeps (fun s => Forall addressed (requests s)) (resume E k o).
Proof. destruct k; keeps_with fail addressed_prim. Qed.

Lemma call_addressed E g : keeps (fun s => Forall addressed (requests s)) (call E g).
Proof. destruct g; keeps_with fail addressed_prim. Qed.

Lemma on_click_addressed E id : keeps (fun s => Forall addressed (requests s)) (on_click E id).
Proof. keeps_with fail addressed_prim. Qed.

Lemma on_enter_addressed E id : keeps (fun s => Forall addressed (requests s)) (on_enter E id).
Proof. keeps_with fail addressed_prim. Qed.

Lemma on_input_addressed id v : keeps (fun s => Forall addressed (requests s)) (on_input id v).
Proof. keeps_with fail addressed_prim. Qed.

Lemma countdown_addressed : keeps (fun s => Forall addressed (requests s)) countdown.
Proof. keeps_with fail addressed_prim. Qed.

(** X1. Every request a page ever sends goes to one of the six addresses of
    the service under [API_BASE_URL], with the method of that address, the
    JSON content type and the cookies included, and a GET among them has no
    body. *)
Theorem requests_addressed E page s :
  reachable E page s -> Forall addressed (requests s).
Proof.
  induction 1 as [| ev s _ IH]; [constructor |].
  destruct ev; simpl.
  - apply (keeps_run _ _ _ (call_addressed E g) IH).
  - destruct (present id s); [| exact IH]. apply (keeps_run _ _ _ (on_click_addressed E id) IH).
  - destruct (present id s); [| exact IH]. apply (keeps_run _ _ _ (on_enter_addressed E id) IH).
  - destruct (present id s); [| exact IH]. apply (keeps_run _ _ _ (on_input_addressed id v) IH).
  - unfold fire. destruct (timers s !! id) as [[]|]; try exact IH.
    apply (keeps_run _ _ _ countdown_addressed IH).
  - unfold answer. destruct (pending s !! n); [| exact IH].
    apply (keeps_run _ _ _ (resume_addressed E c o)). exact IH.
Qed.

Lemma requests_addressed_witness : Forall addressed (requests code_awaited).
Proof.
  apply (requests_addressed sample_engine (login_page "ali@example.com" "") code_awaited).
  apply reachable_play.
Defined.

(** ** The flag is never left set *)

Lemma pending_sent_send r k s : pending_sent s -> pending_sent (send r k s).
Proof.
  intros H n Hn. simpl in *. rewrite length_app. simpl.
  destruct k as [k|]; [| apply H in Hn; lia].
  rewrite lookup_insert in Hn. case_decide; [lia |]. apply H in Hn. lia.
Qed.

Lemma flag_backed_send r k s : flag_backed s -> flag_backed (send r (Some k) s).
Proof.
  intros [Hp Hf]. split; [apply pending_sent_send, Hp |].
  intros Hflag. destruct (Hf Hflag) as (n & k' & Hn & Hv).
  exists n, k'. split; [| exact Hv]. simpl. rewrite lookup_insert_ne; [exact Hn |].
  assert (n < length (requests s))%nat by (apply Hp; eauto). lia.
Qed.

Ltac sent_prim :=
  let s := fresh "s" in
  let H := fresh "H" in
  intros s H; first [ exact H | apply pending_sent_send, H ].

Ltac backed_prim :=
  let s := fresh "s" in
  let H := fresh "H" in
  intros s H; first [ exact H | apply flag_backed_send, H ].

Lemma flag_backed_verifying r k s :
  pending_sent s -> is_verifyOtp k = true -> flag_backed (send r (Some k) s).
Proof.
  intros Hp Hk. split; [apply pending_sent_send, Hp |].
  intros _. exists (length (requests s)), k. split; [apply lookup_insert_eq | exact Hk].
Qed.

Lemma verifyOtp_finally_backed :
  triple pending_sent verifyOtp_finally (fun _ => flag_backed) (fun _ => flag_backed).
Proof.
  unfold verifyOtp_finally.
  eapply triple_bind with (R := fun _ s => pending_sent s /\ isVerifyingOtp s = false).
  - apply triple_modify. intros s H. split; [exact H | reflexivity].
  - intros _.
    apply (triple_of_keeps (fun s => pending_sent s /\ isVerifyingOtp s = false)); auto.
    + keeps_with fail ltac:(intros s H; exact H).
    + intros _ s [H1 H2]. split; [exact H1 | congruence].
    + intros _ s [H1 H2]. split; [exact H1 | congruence].
Qed.

Lemma verifyOtp_flag_backed E : keeps flag_backed (verifyOtp E).
Proof.
  intros s Hs. destruct (isVerifyingOtp s) eqn:Hflag.
  { unfold verifyOtp. rewrite bind_read, Hflag. exact Hs. }
  assert (Hidle : pending_sent s /\ isVerifyingOtp s = false) by (destruct Hs; auto).
  clear Hs. revert s Hflag Hidle.
  assert (Hweak : forall s, pending_sent s /\ isVerifyingOtp s = false -> flag_backed s).
  { intros s [H1 H2]. split; [exact H1 | congruence]. }
  assert (Hshow : forall m t,
            triple (fun s => pending_sent s /\ isVerifyingOtp s = false) (showMessage m t)
                   (fun _ => flag_backed) (fun _ => flag_backed)).
  { intros m t.
    apply (triple_of_keeps (fun s => pending_sent s /\ isVerifyingOtp s = false)); auto.
    keeps_with fail ltac:(intros s H; exact H). }
  assert (T : triple (fun s => pending_sent s /\ isVerifyingOtp s = false) (verifyOtp E)
                (fun _ => flag_backed) (fun _ => flag_backed)).
  { unfold verifyOtp.
    eapply triple_bind with (R := fun _ s => pending_sent s /\ isVerifyingOtp s = false);
      [apply triple_read; auto |].
    intros busy. destruct busy; [apply triple_ret; auto |].
    eapply triple_bind with (R := fun _ s => pending_sent s /\ isVerifyingOtp s = false);
      [apply triple_read; auto |].
    intros otpForm.
    eapply triple_bind with (R := fun _ s => pending_sent s /\ isVerifyingOtp s = false).
    { apply (triple_of_keeps (fun s => pending_sent s /\ isVerifyingOtp s = false)); auto.
      keeps_with fail ltac:(intros s H; exact H). }
    intros otpCode. cbv zeta.
    destruct (_ || _); [apply Hshow |].
    destruct (dataset_of otpForm "identifier") as [[|c identifier]|];
      [apply Hshow | | apply Hshow].
    eapply triple_bind with (R := fun _ => pending_sent).
    { apply triple_modify. intros s [H _]. exact H. }
    intros _.
    eapply triple_bind with (R := fun _ => pending_sent).
    { eapply triple_weaken with (X' := fun _ _ => False);
        [apply (triple_safe pending_sent) | auto | auto | intros ? ? []].
      - keeps_with fail sent_prim.
      - apply setLoading_returns. }
    intros _.
    destruct (bool_decide (dataset_of otpForm "type" = Some (lit "register"))).
    { apply triple_modify. intros s H. apply flag_backed_verifying; [exact H | reflexivity]. }
    destruct (bool_decide (dataset_of otpForm "type" = Some (lit "login"))).
    { apply triple_modify. intros s H. apply flag_backed_verifying; [exact H | reflexivity]. }
    eapply triple_try_finally with (Q' := fun _ => pending_sent) (X' := fun _ => pending_sent).
    - change (keeps pending_sent
                (try_catch (showMessage (VString (lit "Unknown operation type")) "error")
                           (report E))).
      keeps_with fail sent_prim.
    - intros a. apply verifyOtp_finally_backed.
    - intros e. apply verifyOtp_finally_backed. }
  intros s _ Hidle. apply T, Hidle.
Qed.

Ltac backed_known := apply verifyOtp_flag_backed.

Lemma resume_pending_sent E k o : keeps pending_sent (resume E k o).
Proof. destruct k; keeps_with fail sent_prim. Qed.

Lemma resume_flag_backed E k o :
  is_verifyOtp k = false -> keeps flag_backed (resume E k o).
Proof. destruct k; try discriminate; intros _; keeps_with backed_known backed_prim. Qed.

Lemma call_flag_backed E g : keeps flag_backed (call E g).
Proof. destruct g; keeps_with backed_known backed_prim. Qed.

Lemma on_click_flag_backed E id : keeps flag_backed (on_click E id).
Proof. keeps_with backed_known backed_prim. Qed.

Lemma on_enter_flag_backed E id : keeps flag_backed (on_enter E id).
Proof. keeps_with backed_known backed_prim. Qed.

Lemma on_input_flag_backed id v : keeps flag_backed (on_input id v).
Proof. keeps_with backed_known backed_prim. Qed.

Lemma countdown_flag_backed : keeps flag_backed countdown.
Proof. keeps_with backed_known backed_prim. Qed.

Lemma pending_sent_delete n s : pending_sent s -> pending_sent (set_pending (delete n) s).
Proof.
  intros H m Hm. simpl in *. rewrite lookup_delete in Hm.
  case_decide; [destruct Hm as [? [=]] | apply H, Hm].
Qed.

Lemma answer_flag_backed E n o s : flag_backed s -> flag_backed (answer E n o s).
Proof.
  intros [Hp Hf]. unfold answer. destruct (pending s !! n) as [k|] eqn:Hk; [| split; assumption].
  destruct (is_verifyOtp k) eqn:Hv.
  - split.
    + apply keeps_run; [apply resume_pending_sent | apply pending_sent_delete, Hp].
    + intros Hflag. exfalso.
      destruct k; try discriminate Hv; simpl in Hflag;
        rewrite verifyOtp_resume_clears in Hflag; discriminate Hflag.
  - apply keeps_run; [apply resume_flag_backed, Hv |].
    split; [apply pending_sent_delete, Hp |].
    intros Hflag. destruct (Hf Hflag) as (m & k' & Hm & Hv').
    exists m, k'. split; [| exact Hv']. simpl. rewrite lookup_delete_ne; [exact Hm |].
    intros ->. congruence.
Qed.

(** X2. On every state the page can reach, the flag [isVerifyingOtp] is set
    only while a verification request waits for its answer: the guard of
    [verifyOtp] never stays closed with nothing in flight. *)
Theorem isVerifyingOtp_backed E page s :
  reachable E page s -> isVerifyingOtp s = true -> exists n, verifying s n.
Proof.
  intros Hr. assert (H : flag_backed s); [| destruct H as [_ H]; exact H].
  induction Hr as [| ev s _ IH].
  - split; [intros n [? [=]] | discriminate].
  - destruct ev; simpl.
    + apply (keeps_run _ _ _ (call_flag_backed E g) IH).
    + destruct (present id s); [| exact IH].
      apply (keeps_run _ _ _ (on_click_flag_backed E id) IH).
    + destruct (present id s); [| exact IH].
      apply (keeps_run _ _ _ (on_enter_flag_backed E id) IH).
    + destruct (present id s); [| exact IH].
      apply (keeps_run _ _ _ (on_input_flag_backed id v) IH).
    + unfold fire. destruct (timers s !! id) as [[]|]; try exact IH.
      apply (keeps_run _ _ _ countdown_flag_backed IH).
    + apply answer_flag_backed, IH.
Qed.

Lemma isVerifyingOtp_backed_witness : exists n, verifying code_awaited n.
Proof.
  apply (isVerifyingOtp_backed sample_engine (login_page "ali@example.com" "") code_awaited).
  - apply reachable_play.
  - vm_compute. reflexivity.
Defined.

(** ** What [apiRequest] returns and throws *)

Lemma apiRequest_catch_throws E e : exists e', apiRequest_catch E e = Throw e'.
Proof. unfold apiRequest_catch. destruct (_ || _); eauto. Qed.

(** X3. [apiRequest] gives its caller a value exactly when the request was
    answered with an ok status (200 to 299) and a body that could be read,
    is not blank, is announced as JSON or begins (after trimming) with a
    brace or a bracket, and is accepted by [JSON.parse]; the value is the
    parsed body.  In every other case it throws. *)
Theorem apiRequest_returns_iff E o v :
  apiRequest_receive E o = Ok v
  <-> exists r t,
        o = Responds r /\ text r = Some t /\ trim t <> [] /\ ok r = true
        /\ JSON_parse E t = Some v
        /\ includes (toLowerCase (default [] (content_type r))) (lit "application/json")
           || startsWith (trim t) (lit "{") || startsWith (trim t) (lit "[") = true.
Proof.
  split.
  - unfold apiRequest_receive.
    destruct (apiRequest_try E o) as [result|e] eqn:Htry;
      [| destruct (apiRequest_catch_throws E e) as [e' ->]; discriminate].
    intros [= ->]. unfold apiRequest_try in Htry.
    destruct o as [m|r]; [discriminate Htry |].
    destruct (text r) as [t|] eqn:Ht; [| discriminate Htry].
    cbn [mbind outcome_bind] in Htry.
    destruct (nonempty t) eqn:Hn; cbn [negb orb] in Htry; [| discriminate Htry].
    destruct (bool_decide (trim t = [])) eqn:Hblank; [discriminate Htry |].
    apply bool_decide_eq_false in Hblank.
    match type of Htry with
    | context [if ?b then match JSON_parse _ _ with _ => _ end else _] =>
        destruct b eqn:Hjson
    end; [| discriminate Htry].
    destruct (JSON_parse E t) as [w|] eqn:Hparse; [| discriminate Htry].
    cbn [mbind outcome_bind] in Htry.
    destruct (ok r) eqn:Hok; cbn [negb] in Htry.
    + injection Htry as ->. exists r, t. rewrite <- orb_assoc. auto 10.
    + destruct (get w "message") as [m|e]; cbn [mbind outcome_bind] in Htry;
        [| discriminate Htry].
      destruct (ToString _); discriminate Htry.
  - intros (r & t & -> & Ht & Hne & Hok & Hparse & Hjson).
    apply (apiRequest_receive_result E r t v Ht Hne Hjson Hparse Hok).
Qed.

Lemma connection_error_no_marker : has_marker connection_error = false.
Proof. vm_compute. reflexivity. Qed.

(** X4. Whatever [apiRequest] throws, the message of the error holds none of
    the words 'Failed to fetch', 'NetworkError', 'Network request failed'
    and 'fetch': an error that does is replaced by the connection error. *)
Theorem apiRequest_throws_without_marker E o e :
  apiRequest_receive E o = Throw e ->
  has_marker (error_message E e) = false
  /\ (forall e0, apiRequest_try E o = Throw e0 -> has_marker (error_message E e0) = true ->
                 e = Error connection_error).
Proof.
  unfold apiRequest_receive.
  destruct (apiRequest_try E o) as [result|e0] eqn:Htry; [discriminate |].
  unfold apiRequest_catch. fold (has_marker (error_message E e0)).
  destruct (has_marker (error_message E e0)) eqn:Hm; intros [= <-].
  - split; [apply connection_error_no_marker |]. intros e1 [= <-] _. reflexivity.
  - split; [exact Hm |]. intros e1 [= <-] Hm'. congruence.
Qed.

Lemma apiRequest_throws_without_marker_witness :
  has_marker (error_message sample_engine (Error connection_error)) = false
  /\ (forall e0,
        apiRequest_try sample_engine (json_answer 400 text_failure_fetch_user) = Throw e0 ->
        has_marker (error_message sample_engine e0) = true ->
        Error connection_error = Error connection_error).
Proof.
  apply (apiRequest_throws_without_marker sample_engine
           (json_answer 400 text_failure_fetch_user) (Error connection_error)).
  vm_compute. reflexivity.
Defined.

Lemma status_messages_no_marker n :
  0 <= n < 1000 ->
  has_marker (lit "Server returned empty response (Status: " ++ String_of_Z n
              ++ lit "). Please check the server.") = false
  /\ has_marker (lit "Server returned non-JSON response (Status: " ++ String_of_Z n
                 ++ lit "). Please check the server.") = false
  /\ has_marker (lit "HTTP Error " ++ String_of_Z n) = false.
Proof.
  intros Hn.
  assert (Hall : forallb (fun n =>
            negb (has_marker (lit "Server returned empty response (Status: " ++ String_of_Z n
                              ++ lit "). Please check the server."))
            && negb (has_marker (lit "Server returned non-JSON response (Status: "
                                 ++ String_of_Z n ++ lit "). Please check the server."))
            && negb (has_marker (lit "HTTP Error " ++ String_of_Z n)))
            (seqZ 0 1000) = true) by (vm_compute; reflexivity).
  rewrite forallb_forall in Hall. specialize (Hall n).
  rewrite <- list_elem_of_In, elem_of_seqZ in Hall. specialize (Hall ltac:(lia)).
  apply andb_true_iff in Hall as [Hall H3]. apply andb_true_iff in Hall as [H1 H2].
  apply negb_true_iff in H1, H2, H3. auto.
Qed.

(** X5. For an answer with a status of at most three digits: a body that
    cannot be read makes [apiRequest] throw the connection error; a blank
    body, the error 'Server returned empty response (Status: N). Please
    check the server.'; a body that is neither announced as JSON nor begins
    with a brace or a bracket, the error 'Server returned non-JSON response
    (Status: N). Please check the server.'; and a parsed body with a status
    that is not ok and no message to show, the error 'HTTP Error N'. *)
Theorem apiRequest_names_status E r :
  0 <= status r < 1000 ->
  (text r = None -> apiRequest_receive E (Responds r) = Throw (Error connection_error))
  /\ (forall t, text r = Some t -> trim t = [] ->
        apiRequest_receive E (Responds r)
        = Throw (Error (lit "Server returned empty response (Status: " ++ status_text r
                          ++ lit "). Please check the server.")))
  /\ (forall t, text r = Some t -> trim t <> [] ->
        includes (toLowerCase (default [] (content_type r))) (lit "application/json")
        || startsWith (trim t) (lit "{") || startsWith (trim t) (lit "[") = false ->
        apiRequest_receive E (Responds r)
        = Throw (Error (lit "Server returned non-JSON response (Status: " ++ status_text r
                          ++ lit "). Please check the server.")))
  /\ (forall t v m, text r = Some t -> trim t <> [] ->
        includes (toLowerCase (default [] (content_type r))) (lit "application/json")
        || startsWith (trim t) (lit "{") || startsWith (trim t) (lit "[") = true ->
        JSON_parse E t = Some v -> ok r = false ->
        get v "message" = Ok m -> truthy m = false ->
        apiRequest_receive E (Responds r)
        = Throw (Error (lit "HTTP Error " ++ status_text r))).
Proof.
  intros Hs. destruct (status_messages_no_marker (status r) Hs) as (Hm1 & Hm2 & Hm3).
  unfold has_marker in Hm1, Hm2, Hm3.
  assert (Hne : forall t, trim t <> [] -> nonempty t = true).
  { intros [|c t] H; [destruct H |]; reflexivity. }
  split; [| split; [| split]].
  - intros Ht. unfold apiRequest_receive, apiRequest_try. rewrite Ht. reflexivity.
  - intros t Ht Hblank. unfold apiRequest_receive, apiRequest_try. rewrite Ht.
    cbn [mbind outcome_bind]. rewrite (bool_decide_true _ Hblank), orb_true_r.
    unfold apiRequest_catch, error_message, status_text. rewrite Hm1. reflexivity.
  - intros t Ht Hblank Hjson. unfold apiRequest_receive, apiRequest_try. rewrite Ht.
    cbn [mbind outcome_bind]. rewrite (Hne t Hblank), (bool_decide_false _ Hblank).
    cbn [negb orb]. rewrite <- orb_assoc in Hjson. rewrite Hjson.
    cbn [mbind outcome_bind].
    unfold apiRequest_catch, error_message, status_text. rewrite Hm2. reflexivity.
  - intros t v m Ht Hblank Hjson Hparse Hok Hmsg Hfalsy.
    unfold apiRequest_receive, apiRequest_try. rewrite Ht.
    cbn [mbind outcome_bind]. rewrite (Hne t Hblank), (bool_decide_false _ Hblank).
    cbn [negb orb]. rewrite <- orb_assoc in Hjson. rewrite Hjson, Hparse.
    cbn [mbind outcome_bind]. rewrite Hok. cbn [negb]. rewrite Hmsg.
    cbn [mbind outcome_bind]. unfold or_else. rewrite Hfalsy. cbn [ToString].
    unfold apiRequest_catch, error_message, status_text. rewrite Hm3. reflexivity.
Qed.

Lemma apiRequest_names_status_witness :
  apiRequest_receive sample_engine (json_answer 403 text_failure)
  = Throw (Error (lit "HTTP Error 403")).
Proof.
  destruct (apiRequest_names_status sample_engine
              {| status := 403; content_type := Some (lit "application/json");
                 text := Some text_failure |}) as (_ & _ & _ & H); [simpl; lia |].
  apply (H text_failure (object [("success", VBool false)]) VUndefined);
    try (vm_compute; reflexivity).
  intros Hx. vm_compute in Hx. discriminate Hx.
Defined.

(** ** What [login] and [register] send *)

Lemma nonempty_true (x : jsstring) : nonempty x = true <-> x <> [].
Proof. destruct x; split; intros H; try reflexivity; try discriminate; congruence. Qed.

Lemma or_null_provided x : is_provided (or_null x) = nonempty x.
Proof. destruct x; reflexivity. Qed.

(** X6. With the two login fields on the page, [login] shows 'Please enter
    email or phone number' and sends nothing when both are blank after
    trimming.  Otherwise it sends one POST request to /login and waits for
    the answer; the body has the trimmed email when it is not empty, the
    trimmed phone when it is not empty, and no other field: an empty
    identifier is left out, not sent as null. *)
Theorem login_sends_identifiers s email phone :
  el_value <$> dom s !! "loginEmail" = Some email ->
  el_value <$> dom s !! "loginPhone" = Some phone ->
  (trim email = [] /\ trim phone = [] ->
   login s = showMessage (VString (lit "Please enter email or phone number")) "error" s
   /\ requests (run login s) = requests s
   /\ pending (run login s) = pending s)
  /\ (~ (trim email = [] /\ trim phone = []) ->
      exists sent,
        requests (run login s)
        = requests s ++ [{| req_url := API_BASE_URL ++ lit "/login";
                            req_method := lit "POST";
                            req_headers := [("Content-Type", "application/json; charset=utf-8")];
                            req_credentials := "include";
                            req_body := Some (JSON_stringify sent) |}]
        /\ pending (run login s) !! length (requests s)
           = Some (K_login (trim email) (trim phone))
        /\ sent !! lit "email"
           = (if nonempty (trim email) then Some (VString (trim email)) else None)
        /\ sent !! lit "phone"
           = (if nonempty (trim phone) then Some (VString (trim phone)) else None)
        /\ forall key, key <> lit "email" -> key <> lit "phone" -> sent !! key = None).
Proof.
  intros He Hp.
  assert (Hrun : login s =
            (if negb (nonempty (trim email)) && negb (nonempty (trim phone))
             then showMessage (VString (lit "Please enter email or phone number")) "error"
             else setLoading "loginBtn" true;;
                  apiRequest_send (lit "/login") (lit "POST")
                    (Some (<[lit "phone" := or_null (trim phone)]>
                             {[ lit "email" := or_null (trim email) ]}))
                    (K_login (trim email) (trim phone))) s).
  { unfold login.
    erewrite bind_returns by (apply trimmed_value_eq, He).
    erewrite bind_returns by (apply trimmed_value_eq, Hp). reflexivity. }
  unfold run. rewrite Hrun. clear Hrun. split.
  - intros [H1 H2]. apply nonempty_false in H1, H2. rewrite H1, H2. cbn [negb andb].
    split; [reflexivity | apply showMessage_requests].
  - intros Hsome.
    assert (Hb : negb (nonempty (trim email)) && negb (nonempty (trim phone)) = false).
    { destruct (nonempty (trim email)) eqn:H1; [reflexivity |].
      destruct (nonempty (trim phone)) eqn:H2; [reflexivity |].
      apply nonempty_false in H1, H2. tauto. }
    rewrite Hb. destruct (setLoading_eq "loginBtn" true s) as [d Hd].
    erewrite bind_returns by exact Hd.
    eexists. split; [reflexivity |]. split; [apply lookup_insert_eq |].
    rewrite !cleanData_lookup.
    rewrite lookup_insert_ne by (intros H; vm_compute in H; discriminate H).
    rewrite lookup_singleton_eq, lookup_insert_eq, !or_null_provided.
    split; [destruct (trim email); reflexivity |].
    split; [destruct (trim phone); reflexivity |].
    intros key H1 H2. rewrite cleanData_lookup.
    rewrite lookup_insert_ne by congruence. rewrite lookup_singleton_ne by congruence.
    reflexivity.
Qed.

Lemma login_sends_identifiers_witness :
  let s := loaded (login_page "" " 0912 ") in
  exists sent,
    requests (run login s)
    = requests s ++ [{| req_url := API_BASE_URL ++ lit "/login";
                        req_method := lit "POST";
                        req_headers := [("Content-Type", "application/json; charset=utf-8")];
                        req_credentials := "include";
                        req_body := Some (JSON_stringify sent) |}]
    /\ pending (run login s) !! length (requests s)
       = Some (K_login (trim (lit "")) (trim (lit " 0912 ")))
    /\ sent !! lit "email"
       = (if nonempty (trim (lit "")) then Some (VString (trim (lit ""))) else None)
    /\ sent !! lit "phone"
       = (if nonempty (trim (lit " 0912 ")) then Some (VString (trim (lit " 0912 "))) else None)
    /\ forall key, key <> lit "email" -> key <> lit "phone" -> sent !! key = None.
Proof.
  cbv zeta.
  apply (login_sends_identifiers (loaded (login_page "" " 0912 ")) (lit "") (lit " 0912 "));
    [vm_compute; reflexivity | vm_compute; reflexivity |].
  intros [_ H]. vm_compute in H. discriminate H.
Defined.

(** X7. When [register] sends its request, the body has the trimmed first
    name as first_name, the trimmed last name as last_name, the trimmed
    email and the trimmed phone each only when it is not empty, and no
    other field; the register button is shown as busy. *)
Theorem register_sends_fields s firstName lastName email phone :
  el_value <$> dom s !! "firstName" = Some firstName ->
  el_value <$> dom s !! "lastName" = Some lastName ->
  el_value <$> dom s !! "registerEmail" = Some email ->
  el_value <$> dom s !! "registerPhone" = Some phone ->
  trim firstName <> [] -> trim lastName <> [] ->
  ~ (trim email = [] /\ trim phone = []) ->
  exists sent,
    requests (run register s)
    = requests s ++ [{| req_url := API_BASE_URL ++ lit "/register";
                        req_method := lit "POST";
                        req_headers := [("Content-Type", "application/json; charset=utf-8")];
                        req_credentials := "include";
                        req_body := Some (JSON_stringify sent) |}]
    /\ sent !! lit "first_name" = Some (VString (trim firstName))
    /\ sent !! lit "last_name" = Some (VString (trim lastName))
    /\ sent !! lit "email"
       = (if nonempty (trim email) then Some (VString (trim email)) else None)
    /\ sent !! lit "phone"
       = (if nonempty (trim phone) then Some (VString (trim phone)) else None)
    /\ (forall key, key <> lit "first_name" -> key <> lit "last_name" ->
                    key <> lit "email" -> key <> lit "phone" -> sent !! key = None)
    /\ (is_Some (dom s !! "registerBtn") ->
        el_disabled <$> dom (run register s) !! "registerBtn" = Some true).
Proof.
  intros H1 H2 H3 H4 Hf Hl Hid.
  apply nonempty_true in Hf, Hl.
  assert (Hb : negb (nonempty (trim email)) && negb (nonempty (trim phone)) = false).
  { destruct (nonempty (trim email)) eqn:Ha; [reflexivity |].
    destruct (nonempty (trim phone)) eqn:Hb; [reflexivity |].
    apply nonempty_false in Ha, Hb. tauto. }
  set (data := (let d : gmap jsstring value :=
                  <[lit "last_name" := VString (trim lastName)]>
                    {[ lit "first_name" := VString (trim firstName) ]} in
                let d := if nonempty (trim email)
                         then <[lit "email" := VString (trim email)]> d else d in
                if nonempty (trim phone)
                then <[lit "phone" := VString (trim phone)]> d else d)).
  assert (Hrun : register s =
            (setLoading "registerBtn" true;;
             apiRequest_send (lit "/register") (lit "POST") (Some data)
               (K_register (trim email) (trim phone))) s).
  { unfold register.
    erewrite bind_returns by (apply trimmed_value_eq, H1).
    erewrite bind_returns by (apply trimmed_value_eq, H2).
    erewrite bind_returns by (apply trimmed_value_eq, H3).
    erewrite bind_returns by (apply trimmed_value_eq, H4).
    rewrite Hf, Hl, Hb. reflexivity. }
  assert (Hlook : forall key,
            data !! key =
            if bool_decide (key = lit "phone") && nonempty (trim phone)
            then Some (VString (trim phone))
            else if bool_decide (key = lit "email") && nonempty (trim email)
            then Some (VString (trim email))
            else if bool_decide (key = lit "last_name") then Some (VString (trim lastName))
            else ({[ lit "first_name" := VString (trim firstName) ]} : gmap jsstring value)
                   !! key).
  { intros key. subst data. cbv zeta.
    destruct (nonempty (trim phone)), (nonempty (trim email));
      rewrite ?andb_true_r, ?andb_false_r, ?lookup_insert;
      repeat case_decide; repeat case_bool_decide; subst;
      try reflexivity; try congruence;
      exfalso;
      match goal with
      | H : lit _ = lit _ |- _ => vm_compute in H; discriminate H
      end. }
  unfold run. rewrite Hrun.
  destruct (setLoading_eq "registerBtn" true s) as [d Hd].
  assert (Hbtn : is_Some (dom s !! "registerBtn") ->
                 el_disabled <$> d !! "registerBtn" = Some true).
  { intros [b Hbt]. revert Hd. unfold setLoading. rewrite bind_getElementById, Hbt.
    rewrite !bind_modify. intros [= <-]. dom_simpl. rewrite Hbt. reflexivity. }
  erewrite bind_returns by exact Hd.
  exists (cleanData data). split; [reflexivity |].
  rewrite !cleanData_lookup, !Hlook.
  split.
  { vm_compute bool_decide. cbn [andb]. rewrite lookup_singleton_eq.
    destruct (trim firstName); [discriminate Hf | reflexivity]. }
  split.
  { vm_compute bool_decide. cbn [andb].
    destruct (trim lastName); [discriminate Hl | reflexivity]. }
  split.
  { vm_compute bool_decide. cbn [andb].
    rewrite lookup_singleton_ne by other_element.
    destruct (trim email); reflexivity. }
  split.
  { vm_compute bool_decide. cbn [andb].
    destruct (trim phone) eqn:Hph; cbn [nonempty]; [| reflexivity].
    rewrite lookup_singleton_ne by other_element.
    destruct (nonempty (trim email)); reflexivity. }
  split; [| exact Hbtn].
  intros key Ha Hb' Hc Hd'. rewrite cleanData_lookup, Hlook.
  rewrite !bool_decide_false by assumption. cbn [andb].
  rewrite lookup_singleton_ne by congruence. reflexivity.
Qed.

Lemma register_sends_fields_witness :
  let s := loaded (register_page " Ali " "Ahmadi" "ali@example.com" "") in
  exists sent,
    requests (run register s)
    = requests s ++ [{| req_url := API_BASE_URL ++ lit "/register";
                        req_method := lit "POST";
                        req_headers := [("Content-Type", "application/json; charset=utf-8")];
                        req_credentials := "include";
                        req_body := Some (JSON_stringify sent) |}]
    /\ sent !! lit "first_name" = Some (VString (trim (lit " Ali ")))
    /\ sent !! lit "last_name" = Some (VString (trim (lit "Ahmadi")))
    /\ sent !! lit "email"
       = (if nonempty (trim (lit "ali@example.com"))
          then Some (VString (trim (lit "ali@example.com"))) else None)
    /\ sent !! lit "phone"
       = (if nonempty (trim (lit "")) then Some (VString (trim (lit ""))) else None)
    /\ (forall key, key <> lit "first_name" -> key <> lit "last_name" ->
                    key <> lit "email" -> key <> lit "phone" -> sent !! key = None)
    /\ (is_Some (dom s !! "registerBtn") ->
        el_disabled <$> dom (run register s) !! "registerBtn" = Some true).
Proof.
  cbv zeta.
  apply (register_sends_fields (loaded (register_page " Ali " "Ahmadi" "ali@example.com" ""))
           (lit " Ali ") (lit "Ahmadi") (lit "ali@example.com") (lit ""));
    try (vm_compute; reflexivity).
  - intros H. vm_compute in H. discriminate H.
  - intros H. vm_compute in H. discriminate H.
  - intros [H _]. vm_compute in H. discriminate H.
Defined.

(** ** Messages *)

Lemma present_true id s el : dom s !! id = Some el -> present id s = true.
Proof. intros H. apply bool_decide_eq_true. eauto. Qed.

(** X8. [showMessage] writes the message, its class and makes the element
    visible, and sets a timeout that hides the element.  The timeout does
    not know which message it belongs to: when a second message is shown
    before the timeout of the first has fired, that timeout hides the
    second message, whose own timeout is still to come. *)
Theorem showMessage_hidden_by_earlier_timeout s el a ta b tb :
  dom s !! "message" = Some el ->
  let first := next_timer s in
  let s1 := run (showMessage (VString a) ta) s in
  let s2 := run (showMessage (VString b) tb) s1 in
  dom s1 !! "message"
  = Some (set_display "block" (set_class ["message"; ta] (set_textContent a el)))
  /\ timers s1 !! first = Some HideMessage
  /\ dom s2 !! "message"
     = Some (set_display "block" (set_class ["message"; tb] (set_textContent b el)))
  /\ dom (fire first s2) !! "message"
     = Some (set_display "none" (set_class ["message"; tb] (set_textContent b el)))
  /\ timers (fire first s2) !! first = None
  /\ timers (fire first s2) !! Pos.succ first = Some HideMessage.
Proof.
  intros Hel first s1 s2.
  assert (H1 : s1 = new_timer HideMessage
                      (update "message" (set_display "block")
                         (update "message" (set_class ["message"; ta])
                            (update "message" (set_textContent a) s)))).
  { subst s1. unfold run. rewrite showMessage_exact, (present_true _ _ _ Hel). reflexivity. }
  assert (Hd1 : dom s1 !! "message"
                = Some (set_display "block" (set_class ["message"; ta] (set_textContent a el)))).
  { rewrite H1. cbn. dom_simpl. rewrite Hel. reflexivity. }
  assert (H2 : s2 = new_timer HideMessage
                      (update "message" (set_display "block")
                         (update "message" (set_class ["message"; tb])
                            (update "message" (set_textContent b) s1)))).
  { subst s2. unfold run. rewrite showMessage_exact, (present_true _ _ _ Hd1). reflexivity. }
  assert (Hd2 : dom s2 !! "message"
                = Some (set_display "block" (set_class ["message"; tb] (set_textContent b el)))).
  { rewrite H2. cbn. dom_simpl. rewrite Hd1. reflexivity. }
  assert (Ht2 : timers s2 = <[Pos.succ first := HideMessage]> (<[first := HideMessage]> (timers s))).
  { rewrite H2, H1. reflexivity. }
  split; [exact Hd1 |]. split; [rewrite H1; cbn; apply lookup_insert_eq |].
  split; [exact Hd2 |].
  assert (Hf : timers s2 !! first = Some HideMessage).
  { rewrite Ht2, lookup_insert_ne by lia. apply lookup_insert_eq. }
  unfold fire. rewrite Hf. cbn. rewrite Ht2.
  split; [dom_simpl; rewrite Hd2; reflexivity |].
  split; [apply lookup_delete_eq |].
  rewrite lookup_delete_ne by lia. apply lookup_insert_eq.
Qed.

Lemma showMessage_hidden_by_earlier_timeout_witness :
  let s := loaded (login_page "" "") in
  let s2 := run (showMessage (VString (lit "second")) "success")
                (run (showMessage (VString (lit "first")) "error") s) in
  dom (fire (next_timer s) s2) !! "message"
  = Some (set_display "none" (set_class ["message"; "success"]
                                (set_textContent (lit "second") blank))).
Proof.
  cbv zeta.
  apply (showMessage_hidden_by_earlier_timeout (loaded (login_page "" "")) blank
           (lit "first") "error" (lit "second") "success").
  vm_compute. reflexivity.
Defined.

(** ** Buttons *)

Lemma finally_establishes {A} (P Q : state -> Prop) (body : M A) after s :
  keeps P body -> triple P after (fun _ => Q) (fun _ => Q) -> P s ->
  Q (run (try_finally body after) s).
Proof.
  intros Hb Ha Hs.
  assert (T : triple P (try_finally body after) (fun _ => Q) (fun _ => Q)).
  { eapply triple_try_finally; [exact Hb | intros a; exact Ha | intros e; exact Ha]. }
  specialize (T s Hs). unfold run. destruct (try_finally body after s) as [[a|e] s']; exact T.
Qed.

Ltac some_prim :=
  let s := fresh "s" in
  let H := fresh "H" in
  intros s H; first [ exact H | simpl; rewrite lookup_alter_is_Some; exact H ].

Lemma setLoading_false_enables id :
  id ∈ ["registerBtn"; "loginBtn"; "verifyOtpBtn"] ->
  triple (fun s => is_Some (dom s !! id)) (setLoading id false)
    (fun _ s => el_disabled <$> dom s !! id = Some false)
    (fun _ s => el_disabled <$> dom s !! id = Some false).
Proof.
  intros Hid.
  assert (Hrun : forall s, is_Some (dom s !! id) ->
            setLoading id false s
            = (Ok tt, update (id +:+ " .btn-loader") (set_display "none")
                        (update (id +:+ " .btn-text") (set_display "inline")
                           (update id (set_disabled false) s)))).
  { intros s [b H]. unfold setLoading. rewrite bind_getElementById, H. reflexivity. }
  intros s Hs. rewrite (Hrun s Hs). destruct Hs as [b Hb].
  repeat (apply elem_of_cons in Hid as [-> | Hid]);
    [ | | | inversion Hid ]; cbn; dom_simpl; rewrite Hb; reflexivity.
Qed.

(** X9. [register], [login] and [verifyOtp] show their button as busy while
    they wait; whatever the answer (a success, a refusal, no answer at all,
    a body that cannot be parsed), once the handler has run the button that
    is on the page is enabled again. *)
Theorem busy_button_released E k o s id :
  busy_button k = Some id -> is_Some (dom s !! id) ->
  el_disabled <$> dom (run (resume E k o) s) !! id = Some false.
Proof.
  intros Hk Hs.
  destruct k; try discriminate Hk; injection Hk as <-; cbn [resume].
  - unfold register_resume.
    apply (finally_establishes (fun s => is_Some (dom s !! "registerBtn"))); [| | exact Hs].
    + keeps_with fail some_prim.
    + apply setLoading_false_enables. set_solver.
  - unfold login_resume.
    apply (finally_establishes (fun s => is_Some (dom s !! "loginBtn"))); [| | exact Hs].
    + keeps_with fail some_prim.
    + apply setLoading_false_enables. set_solver.
  - unfold verifyOtp_resume.
    apply (finally_establishes (fun s => is_Some (dom s !! "verifyOtpBtn"))); [| | exact Hs].
    + keeps_with fail some_prim.
    + unfold verifyOtp_finally.
      eapply triple_bind with (R := fun _ s => is_Some (dom s !! "verifyOtpBtn")).
      * apply triple_modify. intros s0 H0. exact H0.
      * intros _. apply setLoading_false_enables. set_solver.
  - unfold verifyOtp_resume.
    apply (finally_establishes (fun s => is_Some (dom s !! "verifyOtpBtn"))); [| | exact Hs].
    + keeps_with fail some_prim.
    + unfold verifyOtp_finally.
      eapply triple_bind with (R := fun _ s => is_Some (dom s !! "verifyOtpBtn")).
      * apply triple_modify. intros s0 H0. exact H0.
      * intros _. apply setLoading_false_enables. set_solver.
Qed.

Lemma busy_button_released_witness :
  el_disabled <$> dom (run (resume sample_engine K_verifyOtp_login (Rejects (lit "Failed to fetch")))
                           code_awaited) !! "verifyOtpBtn" = Some false.
Proof.
  apply (busy_button_released sample_engine K_verifyOtp_login).
  - reflexivity.
  - vm_compute. eauto.
Defined.

(** ** The timer line *)

Lemma clock_text_shaped n : 0 <= n < 6000 -> clock_shaped (clock_text n) = true.
Proof.
  intros Hn.
  assert (Hall : forallb (fun n => clock_shaped (clock_text n)) (seqZ 0 6000) = true)
    by (vm_compute; reflexivity).
  rewrite forallb_forall in Hall. apply Hall.
  rewrite <- list_elem_of_In, elem_of_seqZ. lia.
Qed.

Lemma updateTimerDisplay_exact s el :
  dom s !! "otpTimer" = Some el ->
  updateTimerDisplay s =
  (Ok tt,
   if (otpTimerSeconds s <=? 60)%Z
   then update "otpTimer" (class_remove ["expired"])
          (update "otpTimer" (class_add "warning")
             (update "otpTimer" (set_textContent (clock_text (otpTimerSeconds s))) s))
   else update "otpTimer" (class_remove ["warning"; "expired"])
          (update "otpTimer" (set_textContent (clock_text (otpTimerSeconds s))) s)).
Proof.
  intros Hel. unfold updateTimerDisplay. rewrite bind_getElementById, Hel, bind_read, bind_modify.
  unfold clock_text. destruct (otpTimerSeconds s <=? 60)%Z; reflexivity.
Qed.

Lemma class_add_text c e : el_textContent (class_add c e) = el_textContent e.
Proof. unfold class_add. case_bool_decide; reflexivity. Qed.

Lemma class_add_class c e x : x ∈ el_class (class_add c e) <-> x = c \/ x ∈ el_class e.
Proof.
  unfold class_add. case_bool_decide as Hc; cbn.
  - split; [auto |]. intros [-> | Hx]; assumption.
  - rewrite elem_of_app, list_elem_of_singleton. tauto.
Qed.

Lemma class_remove_class cs e x :
  x ∈ el_class (class_remove cs e) <-> (x ∉ cs) /\ x ∈ el_class e.
Proof. unfold class_remove. cbn. rewrite list_elem_of_filter. reflexivity. Qed.

(** X10. On a page with a timer line and with 0 to 5999 seconds left,
    [updateTimerDisplay] writes the time as two digits, a colon and two
    digits (minutes and seconds), gives the line the class 'warning'
    exactly when at most 60 seconds are left, and never leaves it the class
    'expired'. *)
Theorem updateTimerDisplay_clock s el :
  dom s !! "otpTimer" = Some el ->
  0 <= otpTimerSeconds s < 6000 ->
  exists el',
    dom (run updateTimerDisplay s) !! "otpTimer" = Some el'
    /\ el_textContent el' = clock_text (otpTimerSeconds s)
    /\ clock_shaped (el_textContent el') = true
    /\ ("warning" ∈ el_class el' <-> otpTimerSeconds s <= 60)
    /\ "expired" ∉ el_class el'.
Proof.
  intros Hel Hn. unfold run. rewrite (updateTimerDisplay_exact s el Hel).
  pose proof (clock_text_shaped _ Hn) as Hshape.
  destruct (Z.leb_spec (otpTimerSeconds s) 60) as [Hle|Hgt]; cbn; dom_simpl; rewrite Hel;
    eexists; (split; [reflexivity |]).
  - assert (Ht : el_textContent
                   (class_remove ["expired"]
                      (class_add "warning"
                         (set_textContent (clock_text (otpTimerSeconds s)) el)))
                 = clock_text (otpTimerSeconds s)).
    { unfold class_remove. cbn. rewrite class_add_text. reflexivity. }
    rewrite Ht. split; [reflexivity |]. split; [exact Hshape |]. split.
    + split; [intros _; exact Hle | intros _].
      apply class_remove_class. split; [| apply class_add_class; auto].
      intros Hin. apply list_elem_of_singleton in Hin. discriminate Hin.
    + intros Hx. apply class_remove_class in Hx as [Hx _]. apply Hx, list_elem_of_here.
  - cbn. split; [reflexivity |]. split; [exact Hshape |]. split.
    + split; [| lia]. intros Hx.
      apply (class_remove_class ["warning"; "expired"]) in Hx as [Hx _].
      exfalso. apply Hx, list_elem_of_here.
    + intros Hx.
      apply (class_remove_class ["warning"; "expired"]) in Hx as [Hx _].
      apply Hx, list_elem_of_further, list_elem_of_here.
Qed.

Lemma updateTimerDisplay_clock_witness :
  exists el',
    dom (run updateTimerDisplay (set_otpTimerSeconds 59 (loaded (login_page "" ""))))
      !! "otpTimer" = Some el'
    /\ el_textContent el' = clock_text 59
    /\ clock_shaped (el_textContent el') = true
    /\ ("warning" ∈ el_class el' <-> 59 <= 60)
    /\ "expired" ∉ el_class el'.
Proof.
  apply (updateTimerDisplay_clock (set_otpTimerSeconds 59 (loaded (login_page "" ""))) blank).
  - vm_compute. reflexivity.
  - simpl. lia.
Defined.

(** ** Opening and leaving the code form *)

Lemma startOtpTimer_dom id s :
  id <> "otpTimer" -> dom (run startOtpTimer s) !! id = dom s !! id.
Proof.
  intros Hid.
  apply (keeps_run (fun s' => dom s' !! id = dom s !! id)); [| reflexivity].
  keeps_with fail ltac:(let s0 := fresh in let H := fresh in
                        intros s0 H; simpl;
                        try (rewrite lookup_alter_ne by congruence); exact H).
Qed.

Lemma bind_assoc {A B C} (m : M A) (f : A -> M B) (g : B -> M C) s :
  ((m ≫= f) ≫= g) s = (m ≫= (fun x => f x ≫= g)) s.
Proof.
  unfold mbind, M_bind, bind. destruct (m s) as [[a|e] s']; reflexivity.
Qed.

(** The state in which [showOtpForm] calls [startOtpTimer]. *)
Lemma showOtpForm_exact id type s f :
  dom s !! "otpForm" = Some f ->
  exists s0,
    showOtpForm (VString id) type s = startOtpTimer s0
    /\ dom s0 !! "otpForm"
       = Some (set_data "identifier" id (set_data "type" (lit type) (set_display "block" f)))
    /\ dom s0 !! "loginForm" = set_display "none" <$> dom s !! "loginForm"
    /\ dom s0 !! "registerForm" = set_display "none" <$> dom s !! "registerForm"
    /\ dom s0 !! "otpCode" = set_value [] <$> dom s !! "otpCode"
    /\ dom s0 !! "otpTimer" = dom s !! "otpTimer"
    /\ dom s0 !! "verifyOtpBtn" = dom s !! "verifyOtpBtn"
    /\ otpTimerInterval s0 = otpTimerInterval s /\ timers s0 = timers s
    /\ next_timer s0 = next_timer s /\ requests s0 = requests s
    /\ pending s0 = pending s /\ location s0 = location s
    /\ isVerifyingOtp s0 = isVerifyingOtp s.
Proof.
  intros Hf. unfold showOtpForm. rewrite !bind_modify, bind_getElementById.
  cbn [dom update set_dom]. dom_simpl. rewrite Hf.
  rewrite bind_assoc, bind_modify, bind_assoc, bind_getElementById.
  cbn [dom update set_dom]. dom_simpl.
  destruct (dom s !! "otpIdentifier") as [oi|] eqn:Hoi; cbn [fmap option_fmap option_map].
  - rewrite bind_assoc. change (to_string (VString id)) with (@lift jsstring (Ok id)).
    rewrite bind_lift, !bind_modify, bind_lift, !bind_modify.
    eexists. split; [reflexivity |]. cbn. dom_simpl. rewrite Hf. cbn. auto 20.
  - rewrite bind_ret, !bind_modify. change (to_string (VString id)) with (@lift jsstring (Ok id)).
    rewrite bind_lift, !bind_modify.
    eexists. split; [reflexivity |]. cbn. dom_simpl. rewrite Hf. cbn. auto 20.
Qed.

Lemma backToForm_exact s f :
  dom s !! "otpForm" = Some f ->
  backToForm s =
  (Ok tt,
   let s1 := run stopOtpTimer s in
   let s2 := update "otpTimer" (class_remove ["warning"; "expired"])
               (update "otpTimer" (set_textContent (lit "05:00"))
                  (update "otpForm" (set_display "none") s1)) in
   if bool_decide (el_dataset f !! "type" = Some (lit "login"))
   then update "loginForm" (set_display "block") s2
   else if bool_decide (el_dataset f !! "type" = Some (lit "register"))
   then update "registerForm" (set_display "block") s2
   else s2).
Proof.
  intros Hf. unfold backToForm, run.
  erewrite bind_returns by apply stopOtpTimer_eq.
  rewrite stopOtpTimer_eq. cbn [snd].
  rewrite bind_getElementById.
  set (s1 := match otpTimerInterval s with Some old => _ | None => s end).
  assert (Hdom : dom s1 = dom s) by (subst s1; destruct (otpTimerInterval s); reflexivity).
  rewrite Hdom, Hf, !bind_modify.
  repeat case_bool_decide; reflexivity.
Qed.

Lemma showOtpForm_opens id type s f :
  dom s !! "otpForm" = Some f ->
  exists s1,
    showOtpForm (VString id) type s = (Ok tt, s1)
    /\ dom s1 !! "otpForm"
       = Some (set_data "identifier" id (set_data "type" (lit type) (set_display "block" f)))
    /\ dom s1 !! "loginForm" = set_display "none" <$> dom s !! "loginForm"
    /\ dom s1 !! "registerForm" = set_display "none" <$> dom s !! "registerForm"
    /\ dom s1 !! "otpCode" = set_value [] <$> dom s !! "otpCode"
    /\ dom s1 !! "verifyOtpBtn" = dom s !! "verifyOtpBtn"
    /\ (is_Some (dom s !! "otpTimer") -> is_Some (dom s1 !! "otpTimer"))
    /\ (one_countdown s -> one_countdown s1)
    /\ otpTimerSeconds s1 = 300
    /\ requests s1 = requests s /\ pending s1 = pending s /\ location s1 = location s
    /\ isVerifyingOtp s1 = isVerifyingOtp s.
Proof.
  intros Hf.
  destruct (showOtpForm_exact id type s f Hf)
    as (s0 & Hrun & Hform & Hlogin & Hreg & Hcode & Htimer & Hbtn & Hint & Htimers & Hnext
        & Hreq & Hpen & Hloc & Hflag).
  destruct (startOtpTimer_result s0)
    as (s1 & Hstart & Hsec & _ & _ & _ & Hreq1 & Hpen1 & Hloc1 & Hflag1).
  assert (Hs1 : s1 = run startOtpTimer s0) by (unfold run; rewrite Hstart; reflexivity).
  exists s1. rewrite Hrun, Hstart. split; [reflexivity |].
  rewrite Hs1, !startOtpTimer_dom by (intros H; vm_compute in H; discriminate H).
  rewrite <- Hs1.
  repeat (split; [first [assumption | congruence] |]).
  split.
  { rewrite <- Htimer. intros H.
    assert (K : keeps (fun s' => is_Some (dom s' !! "otpTimer")) startOtpTimer).
    { keeps_with fail some_prim. }
    rewrite Hs1. apply (keeps_run _ _ _ K). exact H. }
  split.
  { intros [Ha Hb]. assert (H0 : one_countdown s0).
    { split.
      - intros i Hc. rewrite Hint. apply Ha. unfold counts_down in *. rewrite <- Htimers. exact Hc.
      - intros i Hi. rewrite Hnext. apply Hb. rewrite <- Hint. exact Hi. }
    rewrite Hs1. apply (keeps_run _ _ _ startOtpTimer_one_countdown). exact H0. }
  repeat (split; [first [assumption | congruence] |]). congruence.
Qed.

(** X11. Opening the code form and leaving it again.  On a page with a code
    form, in a state where at most the remembered interval counts down,
    [showOtpForm] returns with the code form shown; [backToForm] after it
    leaves no interval counting down, hides the code form, shows the form
    of the mode the code form was opened in and leaves the other form
    hidden, and puts 05:00 on the timer line without the classes 'warning'
    and 'expired'.  Nothing is sent and the page does not navigate. *)
Theorem showOtpForm_backToForm s f id type form other :
  dom s !! "otpForm" = Some f ->
  (type, form, other) ∈ [("login", "loginForm", "registerForm");
                         ("register", "registerForm", "loginForm")] ->
  one_countdown s ->
  exists s1,
    showOtpForm (VString id) type s = (Ok tt, s1)
    /\ el_display <$> dom s1 !! "otpForm" = Some "block"
    /\ (let s2 := run backToForm s1 in
        no_countdown s2
        /\ el_display <$> dom s2 !! "otpForm" = Some "none"
        /\ el_display <$> dom s2 !! form = (fun _ => "block") <$> dom s !! form
        /\ el_display <$> dom s2 !! other = (fun _ => "none") <$> dom s !! other
        /\ (is_Some (dom s !! "otpTimer") ->
            exists t, dom s2 !! "otpTimer" = Some t
                      /\ el_textContent t = lit "05:00"
                      /\ ("warning" ∉ el_class t) /\ ("expired" ∉ el_class t))
        /\ requests s2 = requests s /\ location s2 = location s).
Proof.
  intros Hf Hkind Hone.
  destruct (showOtpForm_opens id type s f Hf)
    as (s1 & Hrun & Hform & Hlogin & Hreg & _ & _ & Htimer & Hone1 & _ & Hreq & _ & Hloc & _).
  exists s1. split; [exact Hrun |]. split; [rewrite Hform; reflexivity |].
  cbn zeta. unfold run at 1 2 3 4 5 6 7. rewrite (backToForm_exact s1 _ Hform). cbn [snd].
  pose proof (stopOtpTimer_no_countdown s1 (Hone1 Hone)) as Hstop.
  unfold run. rewrite stopOtpTimer_eq in Hstop |- *. cbn [snd].
  set (s' := match otpTimerInterval s1 with Some old => _ | None => s1 end) in *.
  assert (Hs' : dom s' = dom s1 /\ requests s' = requests s1 /\ location s' = location s1).
  { subst s'. destruct (otpTimerInterval s1); cbn; auto. }
  destruct Hs' as (Hdom & Hreq' & Hloc').
  assert (Htype : el_dataset (set_data "identifier" id (set_data "type" (lit type) (set_display "block" f)))
                  !! "type" = Some (lit type)).
  { cbn. rewrite lookup_insert_ne by (intros H; vm_compute in H; discriminate H).
    apply lookup_insert_eq. }
  rewrite Htype.
  apply elem_of_cons in Hkind as [[= -> -> ->] | Hkind];
    [| apply list_elem_of_singleton in Hkind as [= -> -> ->]].
  - rewrite bool_decide_true by reflexivity.
    split; [destruct Hstop as [Ha Hb]; split; [exact Ha | exact Hb] |].
    cbn. rewrite Hdom. dom_simpl. rewrite Hform, Hlogin, Hreg, Hreq', Hloc'.
    split; [reflexivity |].
    split; [destruct (dom s !! "loginForm"); reflexivity |].
    split; [destruct (dom s !! "registerForm"); reflexivity |].
    split; [| auto].
    intros Hs. destruct (Htimer Hs) as [t Ht]. rewrite Ht. eexists. split; [reflexivity |].
    split; [reflexivity |].
    split; intros Hx; apply class_remove_class in Hx as [Hx _]; apply Hx.
    + apply list_elem_of_here.
    + apply list_elem_of_further, list_elem_of_here.
  - rewrite bool_decide_false by (intros H; vm_compute in H; discriminate H).
    rewrite bool_decide_true by reflexivity.
    split; [destruct Hstop as [Ha Hb]; split; [exact Ha | exact Hb] |].
    cbn. rewrite Hdom. dom_simpl. rewrite Hform, Hlogin, Hreg, Hreq', Hloc'.
    split; [reflexivity |].
    split; [destruct (dom s !! "registerForm"); reflexivity |].
    split; [destruct (dom s !! "loginForm"); reflexivity |].
    split; [| auto].
    intros Hs. destruct (Htimer Hs) as [t Ht]. rewrite Ht. eexists. split; [reflexivity |].
    split; [reflexivity |].
    split; intros Hx; apply class_remove_class in Hx as [Hx _]; apply Hx.
    + apply list_elem_of_here.
    + apply list_elem_of_further, list_elem_of_here.
Qed.

Lemma showOtpForm_backToForm_witness :
  exists s1,
    showOtpForm (VString (lit "ali@example.com")) "login"
      (loaded (login_page "ali@example.com" "")) = (Ok tt, s1)
    /\ el_display <$> dom s1 !! "otpForm" = Some "block"
    /\ no_countdown (run backToForm s1)
    /\ el_display <$> dom (run backToForm s1) !! "otpForm" = Some "none"
    /\ el_display <$> dom (run backToForm s1) !! "loginForm" = Some "block".
Proof.
  destruct (showOtpForm_backToForm (loaded (login_page "ali@example.com" "")) blank
              (lit "ali@example.com") "login" "loginForm" "registerForm")
    as (s1 & H1 & H2 & H3 & H4 & H5 & _).
  - vm_compute. reflexivity.
  - apply list_elem_of_here.
  - split; intros id H; vm_compute in H; discriminate H.
  - exists s1. repeat (split; [assumption |]). rewrite H5. vm_compute. reflexivity.
Defined.

(** X12. On a page without a code form [showOtpForm] throws the TypeError
    of reading 'dataset' of null, after it has hidden the login and the
    registration form; it stores nothing, does not clear the code field and
    starts no countdown. *)
Theorem showOtpForm_without_form identifier type s :
  dom s !! "otpForm" = None ->
  showOtpForm identifier type s
  = (Throw (TypeError (NullProperty "dataset")),
     update "registerForm" (set_display "none") (update "loginForm" (set_display "none") s)).
Proof.
  intros Hf. unfold showOtpForm. rewrite !bind_modify, bind_getElementById.
  cbn [dom update set_dom]. dom_simpl. rewrite Hf. reflexivity.
Qed.

Lemma showOtpForm_without_form_witness :
  showOtpForm (VString (lit "ali@example.com")) "login" (loaded dashboard_page)
  = (Throw (TypeError (NullProperty "dataset")),
     update "registerForm" (set_display "none")
       (update "loginForm" (set_display "none") (loaded dashboard_page))).
Proof.
  apply (showOtpForm_without_form (VString (lit "ali@example.com")) "login"
           (loaded dashboard_page)).
  vm_compute. reflexivity.
Defined.

(** ** The answer that opens the code form *)

Lemma identifier_of_nonempty result email phone (id : jsstring) :
  identifier_of result email phone = Ok (VString id) ->
  nonempty email || nonempty phone = true -> id <> [].
Proof.
  unfold identifier_of. intros H Hn.
  destruct (get result "data") as [data|] eqn:Hd; [| discriminate H].
  cbn [mbind outcome_bind] in H.
  destruct (get_opt data "identifier") as [a|] eqn:Ha; [| discriminate H].
  cbn [mbind outcome_bind] in H.
  destruct (truthy a) eqn:Hta.
  { injection H as ->. intros ->. discriminate Hta. }
  destruct (get result "identifier") as [b|] eqn:Hb; [| discriminate H].
  cbn [mbind outcome_bind] in H.
  destruct (truthy b) eqn:Htb.
  { injection H as ->. intros ->. discriminate Htb. }
  injection H as <-.
  destruct (nonempty email) eqn:He.
  - intros ->. discriminate He.
  - cbn [orb] in Hn. intros ->. discriminate Hn.
Qed.

Ltac open_prim :=
  let s := fresh "s" in
  let H1 := fresh "H" in
  let H2 := fresh "H" in
  let H3 := fresh "H" in
  let H4 := fresh "H" in
  intros s (H1 & H2 & H3 & H4);
  first [ exact (conj H1 (conj H2 (conj H3 H4)))
        | split; [| exact (conj H2 (conj H3 H4))];
          cbn [dom update set_dom]; rewrite lookup_alter_ne by other_element; exact H1 ].

Lemma opens_then_keeps {A} f type id (rest : M A) after handler s :
  dom s !! "otpForm" = Some f ->
  keeps (code_form_open f type id (requests s) (location s)) rest ->
  (forall e, keeps (code_form_open f type id (requests s) (location s)) (handler e)) ->
  keeps (code_form_open f type id (requests s) (location s)) after ->
  code_form_open f type id (requests s) (location s)
    (run (try_finally (try_catch (showOtpForm (VString id) type;; rest) handler) after) s).
Proof.
  intros Hf Hrest Hhandler Hafter.
  destruct (showOtpForm_opens id type s f Hf)
    as (s1 & Hrun & Hform & _ & _ & _ & _ & _ & _ & Hsec & Hreq & _ & Hloc & _).
  assert (H1 : code_form_open f type id (requests s) (location s) s1).
  { split; [exact Hform |]. auto. }
  unfold run, try_finally, try_catch.
  erewrite bind_returns by exact Hrun.
  pose proof (Hrest s1 H1) as H2.
  destruct (rest s1) as [[a|e] s2].
  - pose proof (Hafter s2 H2) as H3. destruct (after s2) as [[[]|e] s3]; exact H3.
  - pose proof (Hhandler e s2 H2) as H3.
    destruct (handler e s2) as [[a|e'] s3];
      pose proof (Hafter s3 H3) as H4; destruct (after s3) as [[[]|e''] s4]; exact H4.
Qed.

(** X13. A success answer to the registration request, or to the login
    request when it does not say direct login, opens the code form: the
    form is shown, its dataset holds the mode (register or login) and the
    identifier the answer names (or, when it names none, the email, or the
    phone when the email is empty), and 300 seconds are left; this holds
    also when showing the message of the answer fails.  Nothing is sent, the
    page does not navigate, and the identifier is not empty when the email
    or the phone is not. *)
Theorem answer_opens_code_form E k o s f email phone type result success (id : jsstring) :
  (k, type) ∈ [(K_register email phone, "register"); (K_login email phone, "login")] ->
  apiRequest_receive E o = Ok result ->
  get result "success" = Ok success -> truthy success = true ->
  (type = "login" -> exists direct, direct_login result = Ok direct /\ truthy direct = false) ->
  identifier_of result email phone = Ok (VString id) ->
  dom s !! "otpForm" = Some f ->
  let s' := run (resume E k o) s in
  dom s' !! "otpForm"
  = Some (set_data "identifier" id (set_data "type" (lit type) (set_display "block" f)))
  /\ otpTimerSeconds s' = 300
  /\ requests s' = requests s /\ location s' = location s
  /\ (nonempty email || nonempty phone = true -> id <> []).
Proof.
  intros Hk Hr Hs Hts Hdirect Hid Hf. cbn zeta.
  assert (Hopen : code_form_open f type id (requests s) (location s) (run (resume E k o) s)).
  { apply elem_of_cons in Hk as [[= -> ->] | Hk];
      [| apply list_elem_of_singleton in Hk as [= -> ->]]; cbn [resume].
    - assert (Heq : register_resume E email phone o s
                = try_finally
                    (try_catch
                       (showOtpForm (VString id) "register";;
                        message ← lift (get result "message");
                        showMessage (or_else message (VString (lit "Verification code sent")))
                          "success")
                       (report E))
                    (setLoading "registerBtn" false) s).
      { unfold register_resume, try_finally, try_catch.
        rewrite Hr, lift_bind, Hs, lift_bind, Hts, Hid, lift_bind. reflexivity. }
      unfold run. rewrite Heq. apply (opens_then_keeps f "register" id); [exact Hf | ..].
      + keeps_with fail open_prim.
      + intros e. keeps_with fail open_prim.
      + keeps_with fail open_prim.
    - destruct (Hdirect eq_refl) as (direct & Hd & Htd).
      assert (Heq : login_resume E email phone o s
                = try_finally
                    (try_catch
                       (showOtpForm (VString id) "login";;
                        message ← lift (get result "message");
                        showMessage (or_else message (VString (lit "Verification code sent")))
                          "success")
                       (report E))
                    (setLoading "loginBtn" false) s).
      { unfold login_resume, try_finally, try_catch.
        rewrite Hr, lift_bind, Hs, lift_bind, Hts, Hd, lift_bind, Htd, Hid, lift_bind.
        reflexivity. }
      unfold run. rewrite Heq. apply (opens_then_keeps f "login" id); [exact Hf | ..].
      + keeps_with fail open_prim.
      + intros e. keeps_with fail open_prim.
      + keeps_with fail open_prim. }
  destruct Hopen as (H1 & H2 & H3 & H4).
  repeat (split; [assumption |]).
  apply (identifier_of_nonempty result), Hid.
Qed.

Lemma answer_opens_code_form_witness :
  let s := loaded (login_page "ali@example.com" "") in
  let s' := run (resume sample_engine (K_login (lit "ali@example.com") [])
                   (json_answer 200 text_success)) s in
  dom s' !! "otpForm"
  = Some (set_data "identifier" (lit "ali@example.com")
            (set_data "type" (lit "login") (set_display "block" blank)))
  /\ otpTimerSeconds s' = 300
  /\ requests s' = requests s /\ location s' = location s.
Proof.
  cbv zeta.
  destruct (answer_opens_code_form sample_engine (K_login (lit "ali@example.com") [])
              (json_answer 200 text_success) (loaded (login_page "ali@example.com" ""))
              blank (lit "ali@example.com") [] "login"
              (object [("success", VBool true)]) (VBool true) (lit "ali@example.com"))
    as (H1 & H2 & H3 & H4 & _); try (vm_compute; reflexivity).
  - apply list_elem_of_further, list_elem_of_here.
  - intros _. exists VUndefined. split; vm_compute; reflexivity.
  - auto.
Defined.

(** ** From the code form to the verification request *)

Lemma on_input_code_frame E raw s :
  present "verifyOtpBtn" s = true -> is_Some (dom s !! "otpCode") ->
  let s' := step E (Input "otpCode" raw) s in
  dom s' !! "otpForm" = dom s !! "otpForm"
  /\ isVerifyingOtp s' = isVerifyingOtp s /\ requests s' = requests s.
Proof.
  intros Hbtn [el Hel]. cbn zeta. cbn [step].
  assert (Hp : present "otpCode" s = true) by (apply bool_decide_eq_true; eauto).
  rewrite Hp. unfold run, on_input.
  rewrite bind_modify, bind_read, present_update, Hbtn.
  cbn [andb]. rewrite bool_decide_true by reflexivity.
  unfold modify. cbn [snd dom update set_dom isVerifyingOtp requests].
  dom_simpl. auto.
Qed.

(** X14. What [showOtpForm] stores is what [verifyOtp] sends.  After
    [showOtpForm] was called with a non-empty identifier in mode register
    or login and the user has entered a text whose digits are six, one
    request is sent: a POST to /verify-otp (register) or /verify-login-otp
    (login) whose body holds that identifier and the six digits. *)
Theorem code_form_carries_identifier E s f (id : jsstring) type raw :
  dom s !! "otpForm" = Some f ->
  is_Some (dom s !! "otpCode") -> is_Some (dom s !! "verifyOtpBtn") ->
  isVerifyingOtp s = false -> id <> [] ->
  type = "register" \/ type = "login" ->
  length (strip_non_digits raw) = 6%nat ->
  let s1 := run (showOtpForm (VString id) type) s in
  let s2 := step E (Input "otpCode" raw) s1 in
  exists r, requests (run (verifyOtp E) s2) = requests s ++ [r]
            /\ req_method r = lit "POST"
            /\ req_url r = API_BASE_URL
                           ++ lit (if bool_decide (type = "register")
                                   then "/verify-otp" else "/verify-login-otp")
            /\ req_body r = Some (JSON_stringify
                                    (cleanData (<[lit "otp" := VString (strip_non_digits raw)]>
                                                  {[ lit "identifier" := VString id ]}))).
Proof.
  intros Hf [c Hc] [b Hb] Hflag Hid Hkind Hlen. cbn zeta.
  destruct (showOtpForm_opens id type s f Hf)
    as (s1 & Hrun & Hform & _ & _ & Hcode & Hbtn & _ & _ & _ & Hreq & _ & _ & Hfl).
  unfold run at 2. rewrite Hrun. cbn [snd].
  assert (Hp : present "verifyOtpBtn" s1 = true).
  { apply bool_decide_eq_true. rewrite Hbtn, Hb. eauto. }
  assert (Hc1 : is_Some (dom s1 !! "otpCode")) by (rewrite Hcode, Hc; eauto).
  pose proof (on_input_code E raw s1 Hp Hc1) as Hval.
  destruct (on_input_code_frame E raw s1 Hp Hc1) as (Hform2 & Hfl2 & Hreq2).
  set (s2 := step E (Input "otpCode" raw) s1) in *.
  assert (Htrim : trim (strip_non_digits raw) = strip_non_digits raw)
    by apply trim_digits, strip_non_digits_digits.
  destruct (verifyOtp_sends_length_six E s2 (strip_non_digits raw) id type)
    as (r & Hr & Hm & Hu & Hbody).
  - rewrite Hfl2, Hfl. exact Hflag.
  - exact Hval.
  - rewrite Htrim. exact Hlen.
  - rewrite Hform2, Hform. cbn. apply lookup_insert_eq.
  - exact Hid.
  - rewrite Hform2, Hform. cbn.
    rewrite lookup_insert_ne by (intros H; vm_compute in H; discriminate H).
    apply lookup_insert_eq.
  - exact Hkind.
  - exists r. rewrite Hr, Hreq2, Hreq. rewrite Htrim in Hbody. auto.
Qed.

Lemma code_form_carries_identifier_witness :
  let s1 := run (showOtpForm (VString (lit "ali@example.com")) "login")
              (loaded (login_page "ali@example.com" "")) in
  let s2 := step sample_engine (Input "otpCode" (lit "12 34-56")) s1 in
  exists r, requests (run (verifyOtp sample_engine) s2) = [] ++ [r]
            /\ req_method r = lit "POST"
            /\ req_url r = API_BASE_URL ++ lit "/verify-login-otp"
            /\ req_body r
               = Some (JSON_stringify
                         (cleanData (<[lit "otp" := VString (strip_non_digits (lit "12 34-56"))]>
                                       {[ lit "identifier" := VString (lit "ali@example.com") ]}))).
Proof.
  cbv zeta.
  apply (code_form_carries_identifier sample_engine (loaded (login_page "ali@example.com" ""))
           blank (lit "ali@example.com") "login" (lit "12 34-56")).
  - vm_compute. reflexivity.
  - vm_compute. eauto.
  - vm_compute. eauto.
  - reflexivity.
  - discriminate.
  - right. reflexivity.
  - vm_compute. reflexivity.
Defined.

Lemma showMessage_value v t type s :
  ToString v = Some t -> showMessage v type s = showMessage (VString t) type s.
Proof. intros Ht. unfold showMessage, to_string. cbn [ToString]. rewrite Ht. reflexivity. Qed.

Lemma showMessage_shows t type s :
  let s' := run (showMessage (VString t) type) s in
  requests s' = requests s /\ pending s' = pending s
  /\ isVerifyingOtp s' = isVerifyingOtp s /\ location s' = location s
  /\ (is_Some (dom s !! "message") -> el_textContent <$> dom s' !! "message" = Some t).
Proof.
  cbn zeta. unfold run. rewrite showMessage_exact. cbn [snd]. unfold present.
  destruct (dom s !! "message") as [el|] eqn:Hel.
  - rewrite bool_decide_true by eauto. cbn. dom_simpl. rewrite Hel. auto.
  - rewrite bool_decide_false by (intros [? [=]]). repeat (split; [reflexivity |]).
    intros [? [=]].
Qed.

Lemma setLoading_other id b id' s :
  id' <> id -> id' <> id +:+ " .btn-text" -> id' <> id +:+ " .btn-loader" ->
  dom (run (setLoading id b) s) !! id' = dom s !! id'.
Proof.
  intros H1 H2 H3. unfold run, setLoading. rewrite bind_getElementById.
  destruct (dom s !! id); [| reflexivity].
  destruct b; rewrite !bind_modify; unfold modify; cbn [snd dom update set_dom];
    rewrite !lookup_alter_ne by congruence; reflexivity.
Qed.

Lemma verifyOtp_finally_eq s :
  exists d, verifyOtp_finally s = (Ok tt, set_dom (fun _ => d) (set_isVerifyingOtp false s))
            /\ d !! "message" = dom s !! "message".
Proof.
  unfold verifyOtp_finally. rewrite bind_modify.
  destruct (setLoading_eq "verifyOtpBtn" false (set_isVerifyingOtp false s)) as [d Hd].
  exists d. split; [exact Hd |].
  pose proof (setLoading_other "verifyOtpBtn" false "message" (set_isVerifyingOtp false s)) as H.
  unfold run in H. rewrite Hd in H. apply H; intros K; vm_compute in K; discriminate K.
Qed.

(** X15. With six characters in the code field, [verifyOtp] sends nothing
    when the code form holds no identifier (no form, no entry, or an empty
    one: the message is 'Identifier not found. Please try again.') or when
    its mode is neither register nor login ('Unknown operation type'); the
    flag [isVerifyingOtp] is clear afterwards and the page does not
    navigate. *)
Theorem verifyOtp_sends_nothing_without_form_state E s code :
  isVerifyingOtp s = false ->
  el_value <$> dom s !! "otpCode" = Some code ->
  length (trim code) = 6%nat ->
  let identifier := dataset_of (dom s !! "otpForm") "identifier" in
  let type := dataset_of (dom s !! "otpForm") "type" in
  identifier ∈ [None; Some []] \/ type ∉ [Some (lit "register"); Some (lit "login")] ->
  let s' := run (verifyOtp E) s in
  requests s' = requests s /\ pending s' = pending s /\ isVerifyingOtp s' = false
  /\ location s' = location s
  /\ (is_Some (dom s !! "message") ->
      el_textContent <$> dom s' !! "message"
      = Some (lit (if bool_decide (identifier ∈ [None; Some []])
                   then "Identifier not found. Please try again."
                   else "Unknown operation type"))).
Proof.
  intros Hflag Hcode Hlen. cbn zeta.
  unfold run. rewrite (verifyOtp_eval E s code Hflag Hcode).
  rewrite (bool_decide_true _ Hlen).
  assert (Hn : nonempty (trim code) = true)
    by (destruct (trim code); [discriminate Hlen | reflexivity]).
  rewrite Hn. cbn [negb orb].
  pose proof (showMessage_shows (lit "Identifier not found. Please try again.") "error" s)
    as (Hreq0 & Hpen0 & Hfl0 & Hloc0 & Hmsg0).
  unfold run in Hreq0, Hpen0, Hfl0, Hloc0, Hmsg0. rewrite Hflag in Hfl0.
  destruct (dataset_of (dom s !! "otpForm") "identifier") as [[|c identifier]|] eqn:Hident.
  - intros _. rewrite bool_decide_true by (apply list_elem_of_further, list_elem_of_here).
    auto.
  - assert (Hid : Some (c :: identifier) ∉ [None; Some ([] : jsstring)]).
    { intros H. apply elem_of_cons in H as [H | H]; [discriminate H |].
      apply list_elem_of_singleton in H. discriminate H. }
    intros [Hcase | Htype]; [contradiction |].
    rewrite (bool_decide_false _ Hid).
    rewrite bind_modify.
    destruct (setLoading_eq "verifyOtpBtn" true (set_isVerifyingOtp true s)) as [d Hd].
    erewrite bind_returns by exact Hd.
    assert (Hdm : d !! "message" = dom s !! "message").
    { pose proof (setLoading_other "verifyOtpBtn" true "message" (set_isVerifyingOtp true s))
        as H.
      unfold run in H. rewrite Hd in H. apply H; intros K; vm_compute in K; discriminate K. }
    rewrite bool_decide_false
      by (intros H; apply Htype; rewrite H; apply list_elem_of_here).
    rewrite bool_decide_false
      by (intros H; apply Htype; rewrite H; apply list_elem_of_further, list_elem_of_here).
    set (s1 := set_dom (fun _ => d) (set_isVerifyingOtp true s)).
    pose proof (showMessage_shows (lit "Unknown operation type") "error" s1)
      as (Hreq & Hpen & _ & Hloc & Hmsg).
    unfold run in Hreq, Hpen, Hloc, Hmsg.
    unfold try_finally.
    erewrite try_catch_returns by (rewrite showMessage_exact; reflexivity).
    rewrite showMessage_exact in Hreq, Hpen, Hloc, Hmsg. cbn [snd] in Hreq, Hpen, Hloc, Hmsg.
    set (s2 := if present "message" s1 then _ else s1) in *.
    destruct (verifyOtp_finally_eq s2) as (d' & Hfin & Hd'). rewrite Hfin.
    cbn [snd requests pending isVerifyingOtp location dom set_dom set_isVerifyingOtp].
    rewrite Hd'. repeat (split; [assumption || reflexivity |]).
    intros Hp. apply Hmsg. subst s1. cbn [dom set_dom]. rewrite Hdm. exact Hp.
  - intros _. rewrite bool_decide_true by apply list_elem_of_here. auto.
Qed.

Lemma verifyOtp_sends_nothing_without_form_state_witness :
  let s := loaded (<["otpCode" := field "123456"]> (login_page "ali@example.com" "")) in
  requests (run (verifyOtp sample_engine) s) = requests s
  /\ isVerifyingOtp (run (verifyOtp sample_engine) s) = false
  /\ el_textContent <$> dom (run (verifyOtp sample_engine) s) !! "message"
     = Some (lit "Identifier not found. Please try again.").
Proof.
  cbv zeta.
  destruct (verifyOtp_sends_nothing_without_form_state sample_engine
              (loaded (<["otpCode" := field "123456"]> (login_page "ali@example.com" "")))
              (lit "123456"))
    as (H1 & _ & H3 & _ & H5); try (vm_compute; reflexivity).
  - left. apply list_elem_of_here.
  - split; [exact H1 |]. split; [exact H3 |]. apply H5. vm_compute. eauto.
Defined.

(** X16. After a success answer to a verification request whose message
    can be shown, no interval counts down, the flag is clear, the message
    of the answer (or the one of the branch) is on the page, and the page
    has not navigated yet: a timeout is set, and when it fires the page
    goes to dashboard.html. *)
Theorem verifyOtp_success_goes_to_dashboard E done o s result success message t :
  one_countdown s ->
  apiRequest_receive E o = Ok result ->
  get result "success" = Ok success -> truthy success = true ->
  get result "message" = Ok message ->
  ToString (or_else message (VString (lit done))) = Some t ->
  let s' := run (verifyOtp_resume E done o) s in
  no_countdown s'
  /\ isVerifyingOtp s' = false
  /\ location s' = location s
  /\ (is_Some (dom s !! "message") -> el_textContent <$> dom s' !! "message" = Some t)
  /\ exists id, timers s' !! id = Some GoDashboard
                /\ (next_timer s <= id)%positive
                /\ location (fire id s') = location s ++ [lit "dashboard.html"].
Proof.
  intros Hone Hr Hs Hts Hm Ht.
  pose proof (stopOtpTimer_no_countdown s Hone) as Hstop.
  destruct (stopOtpTimer s) as [[[]|e] s1] eqn:Hstop1; [| destruct Hstop].
  assert (Hs1 : dom s1 = dom s /\ location s1 = location s /\ next_timer s1 = next_timer s).
  { rewrite stopOtpTimer_eq in Hstop1. injection Hstop1 as <-.
    destruct (otpTimerInterval s); cbn; auto. }
  destruct Hs1 as (Hdom1 & Hloc1 & Hnext1).
  set (s2 := run (showMessage (VString t) "success") s1).
  assert (Hbody : try_catch
            (result ← lift (apiRequest_receive E o);
             success ← lift (get result "success");
             if truthy success
             then stopOtpTimer;;
                  message ← lift (get result "message");
                  showMessage (or_else message (VString (lit done))) "success";;
                  setTimeout GoDashboard
             else message ← lift (get result "message");
                  showMessage (or_else message (VString (lit "Invalid verification code")))
                    "error")
            (report E) s
          = (Ok tt, new_timer GoDashboard s2)).
  { apply try_catch_returns. rewrite Hr, lift_bind, Hs, lift_bind, Hts.
    erewrite bind_returns by exact Hstop1. rewrite Hm, lift_bind.
    erewrite bind_returns
      by (rewrite (showMessage_value _ _ _ _ Ht), showMessage_exact; reflexivity).
    subst s2. unfold run. rewrite showMessage_exact. reflexivity. }
  destruct (verifyOtp_finally_eq (new_timer GoDashboard s2)) as (d & Hfin & Hd).
  assert (Hrun : run (verifyOtp_resume E done o) s
                 = set_dom (fun _ => d) (set_isVerifyingOtp false (new_timer GoDashboard s2))).
  { unfold run, verifyOtp_resume, try_finally. rewrite Hbody, Hfin. reflexivity. }
  cbn zeta. rewrite Hrun.
  assert (H2 : (forall id, ~ counts_down s2 id) /\ otpTimerInterval s2 = None
               /\ location s2 = location s /\ (next_timer s <= next_timer s2)%positive
               /\ (is_Some (dom s !! "message") ->
                   el_textContent <$> dom s2 !! "message" = Some t)).
  { subst s2. unfold run. rewrite showMessage_exact. cbn [snd]. unfold present.
    rewrite Hdom1. destruct Hstop as [Ha Hb].
    destruct (dom s !! "message") as [el|] eqn:Hel.
    - rewrite bool_decide_true by eauto. cbn. split.
      + intros id Hc. apply (Ha id). unfold counts_down in *. cbn in Hc.
        rewrite lookup_insert in Hc. case_decide; [discriminate Hc | exact Hc].
      + split; [exact Hb |]. split; [exact Hloc1 |]. split; [rewrite Hnext1; lia |].
        intros _. dom_simpl. rewrite Hdom1, Hel. reflexivity.
    - rewrite bool_decide_false by (intros [? [=]]).
      split; [exact Ha |]. split; [exact Hb |]. split; [exact Hloc1 |].
      split; [rewrite Hnext1; lia |]. intros [? [=]]. }
  destruct H2 as (Hno & Hint & Hloc & Hnext & Hmsg).
  split.
  { split; [| exact Hint]. intros id Hc. apply (Hno id). unfold counts_down in *. cbn in Hc.
    rewrite lookup_insert in Hc. case_decide; [discriminate Hc | exact Hc]. }
  split; [reflexivity |]. split; [exact Hloc |].
  split; [intros Hp; cbn; rewrite Hd; exact (Hmsg Hp) |].
  exists (next_timer s2). split; [cbn; apply lookup_insert_eq |]. split; [exact Hnext |].
  unfold fire. cbn [timers set_dom set_isVerifyingOtp new_timer].
  rewrite lookup_insert_eq. cbn. rewrite Hloc. reflexivity.
Qed.

Lemma verifyOtp_success_goes_to_dashboard_witness :
  let s' := run (verifyOtp_resume sample_engine "Login successful"
                   (json_answer 200 text_success)) code_awaited in
  no_countdown s'
  /\ isVerifyingOtp s' = false
  /\ location s' = location code_awaited
  /\ exists id, timers s' !! id = Some GoDashboard
                /\ location (fire id s') = location code_awaited ++ [lit "dashboard.html"].
Proof.
  cbv zeta.
  destruct (verifyOtp_success_goes_to_dashboard sample_engine "Login successful"
              (json_answer 200 text_success) code_awaited
              (object [("success", VBool true)]) (VBool true) VUndefined
              (lit "Login successful"))
    as (H1 & H2 & H3 & _ & id & H4 & _ & H5); try (vm_compute; reflexivity).
  - apply (reachable_one_countdown sample_engine (login_page "ali@example.com" "")).
    apply reachable_play.
  - split; [exact H1 |]. split; [exact H2 |]. split; [exact H3 |].
    exists id. split; [exact H4 | exact H5].
Defined.

(** ** The session check *)

Lemma checkAuthStatus_resume_authenticated E o s :
  says_authenticated E o ->
  checkAuthStatus_resume E o s = (Ok tt, navigate (lit "dashboard.html") s).
Proof.
  intros (result & success & authenticated & Hr & Hs & Hts & Ha & Hta).
  unfold checkAuthStatus_resume, try_catch.
  rewrite Hr, lift_bind, Hs, lift_bind, Hts, Ha, lift_bind, Hta. reflexivity.
Qed.

Lemma checkAuthStatus_resume_other E o s :
  ~ says_authenticated E o -> checkAuthStatus_resume E o s = (Ok tt, s).
Proof.
  intros Hno. unfold checkAuthStatus_resume, try_catch.
  destruct (apiRequest_receive E o) as [result|e] eqn:Hr; [| reflexivity].
  rewrite lift_bind.
  destruct (get result "success") as [success|e] eqn:Hs; [| reflexivity].
  rewrite lift_bind.
  destruct (truthy success) eqn:Hts; [| reflexivity].
  destruct (get result "authenticated") as [authenticated|e] eqn:Ha; [| reflexivity].
  rewrite lift_bind.
  destruct (truthy authenticated) eqn:Hta; [| reflexivity].
  destruct Hno. exists result, success, authenticated. auto.
Qed.

(** X17. The second half of [checkAuthStatus] never throws and changes
    nothing but the location: it goes to dashboard.html exactly when the
    answer was received and parsed and its [success] and [authenticated]
    are truthy; on every other answer, and on no answer, the state is left
    as it was. *)
Theorem checkAuthStatus_goes_to_dashboard_iff E o s :
  (says_authenticated E o ->
   checkAuthStatus_resume E o s = (Ok tt, navigate (lit "dashboard.html") s))
  /\ (~ says_authenticated E o -> checkAuthStatus_resume E o s = (Ok tt, s)).
Proof.
  split; [apply checkAuthStatus_resume_authenticated | apply checkAuthStatus_resume_other].
Qed.

Lemma loadUserInfo_resume_leaves E o s :
  ~ says_logged_in E o ->
  loadUserInfo_resume E o s = (Ok tt, navigate (lit "index.html") s).
Proof.
  intros Hno. unfold loadUserInfo_resume, try_catch.
  destruct (apiRequest_receive E o) as [result|e] eqn:Hr; [| reflexivity].
  rewrite lift_bind.
  destruct (logged_in result) as [[]|e] eqn:Hl; [| reflexivity | reflexivity].
  destruct Hno. exists result. auto.
Qed.

(** X18. Unless the answer was received and parsed and its [success],
    [authenticated] and [user] are all truthy, the second half of
    [loadUserInfo] goes to index.html and changes nothing else.  An answer
    that says authenticated but names no user therefore sends the browser
    back and forth: [checkAuthStatus] goes to the dashboard on it. *)
Theorem loadUserInfo_leaves_unless_logged_in E o s :
  ~ says_logged_in E o ->
  loadUserInfo_resume E o s = (Ok tt, navigate (lit "index.html") s)
  /\ (says_authenticated E o ->
      forall s', checkAuthStatus_resume E o s' = (Ok tt, navigate (lit "dashboard.html") s')).
Proof.
  intros Hno. split.
  - apply loadUserInfo_resume_leaves, Hno.
  - intros Ha s'. apply checkAuthStatus_resume_authenticated, Ha.
Qed.

Lemma loadUserInfo_leaves_unless_logged_in_witness :
  loadUserInfo_resume sample_engine (json_answer 200 text_success) (loaded dashboard_page)
  = (Ok tt, navigate (lit "index.html") (loaded dashboard_page)).
Proof.
  apply (loadUserInfo_leaves_unless_logged_in sample_engine (json_answer 200 text_success)
           (loaded dashboard_page)).
  intros (result & Hr & Hl). vm_compute in Hr. injection Hr as <-.
  vm_compute in Hl. discriminate Hl.
Defined.

Lemma show_contact_eq id icon v t s :
  ToString v = Some t ->
  show_contact id icon v s
  = (Ok tt, if truthy v
            then update id (set_display "block") (update id (set_textContent (icon ++ t)) s)
            else update id (set_display "none") s).
Proof.
  intros Ht. unfold show_contact. rewrite bind_getElementById.
  destruct (dom s !! id) as [el|] eqn:Hel.
  - destruct (truthy v); [| reflexivity].
    unfold to_string. rewrite Ht, bind_lift, bind_modify. reflexivity.
  - assert (Hsame : forall f, update id f s = s).
    { intros f. unfold update, set_dom. destruct s as [d ? ? ? ? ? ? ? ?]. cbn in *. f_equal.
      apply map_eq. intros j. destruct (decide (j = id)) as [->|Hne].
      - rewrite lookup_alter_eq, Hel. reflexivity.
      - rewrite lookup_alter_ne by congruence. reflexivity. }
    rewrite !Hsame. destruct (truthy v); reflexivity.
Qed.

(** X19. For an answer that gives a user with a first and a last name,
    [loadUserInfo] does not navigate; it writes the two names with a space
    between them in the name line, shows the email line (with the text the
    source puts in front of the address) when the user has an email and
    hides it otherwise, and the same for the phone line. *)
Theorem loadUserInfo_shows_user E o s result user a b email e phone p :
  apiRequest_receive E o = Ok result -> logged_in result = Ok true ->
  get result "user" = Ok user ->
  get user "first_name" = Ok (VString a) -> get user "last_name" = Ok (VString b) ->
  get user "email" = Ok email -> ToString email = Some e ->
  get user "phone" = Ok phone -> ToString phone = Some p ->
  let s' := run (loadUserInfo_resume E o) s in
  location s' = location s
  /\ el_textContent <$> dom s' !! "userName"
     = (fun _ => a ++ lit " " ++ b) <$> dom s !! "userName"
  /\ el_display <$> dom s' !! "userEmail"
     = (fun _ => if truthy email then "block" else "none") <$> dom s !! "userEmail"
  /\ el_display <$> dom s' !! "userPhone"
     = (fun _ => if truthy phone then "block" else "none") <$> dom s !! "userPhone"
  /\ (truthy email = true ->
      el_textContent <$> dom s' !! "userEmail"
      = (fun _ => [240; 376; 8220; 167; 32]%N ++ e) <$> dom s !! "userEmail")
  /\ (truthy phone = true ->
      el_textContent <$> dom s' !! "userPhone"
      = (fun _ => [240; 376; 8220; 177; 32]%N ++ p) <$> dom s !! "userPhone").
Proof.
  intros Hr Hl Hu Ha Hb He Hte Hp Htp.
  assert (Hrun : loadUserInfo_resume E o s
    = (Ok tt,
       let s1 := update "userName" (set_textContent (a ++ lit " " ++ b)) s in
       let s2 := if truthy email
                 then update "userEmail" (set_display "block")
                        (update "userEmail" (set_textContent ([240; 376; 8220; 167; 32]%N ++ e)) s1)
                 else update "userEmail" (set_display "none") s1 in
       if truthy phone
       then update "userPhone" (set_display "block")
              (update "userPhone" (set_textContent ([240; 376; 8220; 177; 32]%N ++ p)) s2)
       else update "userPhone" (set_display "none") s2)).
  { unfold loadUserInfo_resume. apply try_catch_returns.
    rewrite Hr, lift_bind, Hl, lift_bind, Hu, lift_bind.
    rewrite bind_getElementById.
    assert (Hname : forall k : unit -> M unit,
              (match dom s !! "userName" with
               | Some _ =>
                   first_name ← lift (get user "first_name");
                   a ← to_string first_name;
                   last_name ← lift (get user "last_name");
                   b ← to_string last_name;
                   modify (update "userName" (set_textContent (a ++ lit " " ++ b)))
               | None => mret tt
               end ≫= k) s
              = k tt (update "userName" (set_textContent (a ++ lit " " ++ b)) s)).
    { intros k. destruct (dom s !! "userName") as [el|] eqn:Hel.
      - rewrite Ha, Hb. reflexivity.
      - rewrite bind_ret. f_equal.
        unfold update, set_dom. destruct s as [d ? ? ? ? ? ? ? ?]. cbn in *. f_equal.
        apply map_eq. intros j. destruct (decide (j = "userName")) as [->|Hne].
        + rewrite lookup_alter_eq, Hel. reflexivity.
        + rewrite lookup_alter_ne by congruence. reflexivity. }
    rewrite Hname, He, lift_bind.
    erewrite bind_returns by (apply show_contact_eq, Hte).
    rewrite Hp, lift_bind. rewrite (show_contact_eq _ _ _ _ _ Htp). reflexivity. }
  cbn zeta. unfold run. rewrite Hrun. cbn [snd].
  destruct (truthy email), (truthy phone); cbn; dom_simpl;
    (split; [reflexivity |]);
    (split; [destruct (dom s !! "userName"); reflexivity |]);
    (split; [destruct (dom s !! "userEmail"); reflexivity |]);
    (split; [destruct (dom s !! "userPhone"); reflexivity |]);
    (split; [intros Hx; first [discriminate Hx | destruct (dom s !! "userEmail"); reflexivity] |]);
    intros Hx; first [discriminate Hx | destruct (dom s !! "userPhone"); reflexivity].
Qed.

Lemma loadUserInfo_shows_user_witness :
  let s' := run (loadUserInfo_resume session_engine (json_answer 200 text_session))
                (loaded dashboard_page) in
  location s' = []
  /\ el_textContent <$> dom s' !! "userName" = Some (lit "Ali Ashrafpour")
  /\ el_display <$> dom s' !! "userEmail" = Some "block"
  /\ el_display <$> dom s' !! "userPhone" = Some "none".
Proof.
  cbv zeta.
  destruct (loadUserInfo_shows_user session_engine (json_answer 200 text_session)
              (loaded dashboard_page)
              (object [("success", VBool true); ("authenticated", VBool true);
                       ("user", object [("first_name", VString (lit "Ali"));
                                        ("last_name", VString (lit "Ashrafpour"));
                                        ("email", VString (lit "ali@example.com"))])])
              (object [("first_name", VString (lit "Ali"));
                       ("last_name", VString (lit "Ashrafpour"));
                       ("email", VString (lit "ali@example.com"))])
              (lit "Ali") (lit "Ashrafpour")
              (VString (lit "ali@example.com")) (lit "ali@example.com")
              VUndefined (lit "undefined"))
    as (H1 & H2 & H3 & H4 & _); try (vm_compute; reflexivity).
  rewrite H1, H2, H3, H4. repeat split; vm_compute; reflexivity.
Defined.

(** ** The time that is left *)

Ltac range_prim :=
  let s := fresh "s" in
  let Ha := fresh "Ha" in
  let Hb := fresh "Hb" in
  intros s [Ha Hb];
  first [ exact (conj Ha Hb)
        | split; [exact Ha |];
          let id := fresh "id" in
          let Hc := fresh "Hc" in
          intros id Hc; apply (Hb id);
          first [ eapply counts_down_new_timer; [| exact Hc]; discriminate
                | revert Hc; unfold counts_down; cbn [timers set_timers];
                  rewrite lookup_delete; case_decide; [discriminate | exact (fun H => H)] ] ].

Lemma startOtpTimer_seconds_in_range : keeps seconds_in_range startOtpTimer.
Proof.
  assert (Hin : forall s, otpTimerSeconds s = 300 -> seconds_in_range s).
  { intros s H. unfold seconds_in_range. rewrite H. split; [lia | intros; lia]. }
  unfold startOtpTimer.
  eapply triple_bind with (R := fun _ s => otpTimerSeconds s = 300).
  - apply triple_modify. reflexivity.
  - intros _. eapply triple_weaken with (P' := fun s => otpTimerSeconds s = 300);
      [| auto | intros ? s H; apply Hin, H | intros ? s H; apply Hin, H].
    change (keeps (fun s => otpTimerSeconds s = 300)
              (stopOtpTimer;;
               timerElement ← getElementById "otpTimer";
               match timerElement with
               | None => mret tt
               | Some _ =>
                   updateTimerDisplay;;
                   id ← read next_timer;
                   modify (new_timer Countdown);;
                   modify (set_otpTimerInterval (Some id))
               end)).
    keeps_with fail ltac:(let s := fresh in let H := fresh in intros s H; exact H).
Qed.

Ltac range_known := apply startOtpTimer_seconds_in_range.

Lemma resume_seconds_in_range E k o : keeps seconds_in_range (resume E k o).
Proof. destruct k; keeps_with range_known range_prim. Qed.

Lemma call_seconds_in_range E g : keeps seconds_in_range (call E g).
Proof. destruct g; keeps_with range_known range_prim. Qed.

Lemma on_click_seconds_in_range E id : keeps seconds_in_range (on_click E id).
Proof. keeps_with range_known range_prim. Qed.

Lemma on_enter_seconds_in_range E id : keeps seconds_in_range (on_enter E id).
Proof. keeps_with range_known range_prim. Qed.

Lemma on_input_seconds_in_range id v : keeps seconds_in_range (on_input id v).
Proof. keeps_with range_known range_prim. Qed.

Lemma fire_seconds_in_range id s :
  one_countdown s -> seconds_in_range s -> seconds_in_range (fire id s).
Proof.
  intros Hone [Ha Hb]. unfold fire.
  destruct (timers s !! id) as [[]|] eqn:Ht; [| | | exact (conj Ha Hb)].
  - split; [exact Ha |]. intros j Hc. apply (Hb j). revert Hc.
    unfold counts_down. cbn. rewrite lookup_delete. case_decide; [discriminate | auto].
  - split; [exact Ha |]. intros j Hc. apply (Hb j). revert Hc.
    unfold counts_down. cbn. rewrite lookup_delete. case_decide; [discriminate | auto].
  - pose proof (Hb id Ht) as H1. unfold run.
    destruct (countdown_result s) as (s' & -> & Hsec & Hstop & Hon). cbn [snd].
    unfold seconds_in_range. rewrite Hsec. split; [lia |].
    intros j Hj. destruct (Z.le_gt_cases (otpTimerSeconds s) 1) as [Hle | Hgt].
    + destruct (Hstop Hle) as [_ Hgone]. destruct (Hgone j Hj) as [Hc Hne].
      destruct Hone as [Hi _]. destruct Hne. apply Hi, Hc.
    + lia.
Qed.

Lemma step_seconds_in_range E ev s :
  one_countdown s -> seconds_in_range s -> seconds_in_range (step E ev s).
Proof.
  intros Hone Hs. destruct ev; cbn [step].
  - apply keeps_run; [apply call_seconds_in_range | exact Hs].
  - destruct (present id s); [| exact Hs].
    apply keeps_run; [apply on_click_seconds_in_range | exact Hs].
  - destruct (present id s); [| exact Hs].
    apply keeps_run; [apply on_enter_seconds_in_range | exact Hs].
  - destruct (present id s); [| exact Hs].
    apply keeps_run; [apply on_input_seconds_in_range | exact Hs].
  - apply fire_seconds_in_range; assumption.
  - unfold answer. destruct (pending s !! n); [| exact Hs].
    apply keeps_run; [apply resume_seconds_in_range | exact Hs].
Qed.

(** X20. On every state the page can reach, the time left is between 0 and
    300 seconds, and at least one second while an interval counts down: the
    interval never fires at zero, and the text [updateTimerDisplay] writes
    for the time left is always two digits, a colon and two digits. *)
Theorem otpTimerSeconds_in_range E page s :
  reachable E page s ->
  0 <= otpTimerSeconds s <= 300
  /\ (forall id, counts_down s id -> 1 <= otpTimerSeconds s)
  /\ clock_shaped (clock_text (otpTimerSeconds s)) = true.
Proof.
  intros Hr.
  assert (H : seconds_in_range s).
  { induction Hr as [| ev s Hr IH].
    - split; [cbn; lia |]. intros id Hc. discriminate Hc.
    - apply step_seconds_in_range; [apply (reachable_one_countdown _ _ _ Hr) | exact IH]. }
  destruct H as [Ha Hb]. split; [exact Ha |]. split; [exact Hb |].
  apply clock_text_shaped. lia.
Qed.

Lemma otpTimerSeconds_in_range_witness :
  0 <= otpTimerSeconds code_awaited <= 300
  /\ (forall id, counts_down code_awaited id -> 1 <= otpTimerSeconds code_awaited)
  /\ clock_shaped (clock_text (otpTimerSeconds code_awaited)) = true.
Proof.
  apply (otpTimerSeconds_in_range sample_engine (login_page "ali@example.com" "") code_awaited).
  apply reachable_play.
Defined.

(** ** The Enter key *)

(** X21. The Enter key in a field of a form does what a click on the
    button of that form does (login, registration, verification), and
    nothing when that button is not on the page. *)
Theorem enter_is_click E field button s :
  (field, button) ∈ enter_keys ->
  present field s = true ->
  step E (Enter field) s = (if present button s then step E (Click button) s else s).
Proof.
  intros Hk Hf. cbn [step]. rewrite Hf. unfold run, on_enter. rewrite !bind_read.
  unfold enter_keys in Hk.
  repeat (apply elem_of_cons in Hk as [[= -> ->] | Hk]); [.. | inversion Hk];
    destruct (present "loginBtn" s) eqn:Hl, (present "registerBtn" s) eqn:Hr,
             (present "verifyOtpBtn" s) eqn:Hv; reflexivity.
Qed.

Lemma enter_is_click_witness :
  step sample_engine (Enter "loginEmail") (loaded (login_page "ali@example.com" ""))
  = step sample_engine (Click "loginBtn") (loaded (login_page "ali@example.com" "")).
Proof.
  apply (enter_is_click sample_engine "loginEmail" "loginBtn"
           (loaded (login_page "ali@example.com" ""))).
  - apply list_elem_of_here.
  - vm_compute. reflexivity.
Defined.

(** ** Where the page goes *)

Ltac within_prim :=
  let s := fresh "s" in
  let H := fresh "H" in
  intros s H;
  first [ exact H
        | let url := fresh "url" in
          let Hin := fresh "Hin" in
          intros url Hin; cbn [location navigate] in Hin;
          apply elem_of_app in Hin as [Hin | Hin];
          [ apply H, Hin
          | apply list_elem_of_singleton in Hin as ->;
            first [ apply list_elem_of_here | apply list_elem_of_further, list_elem_of_here ] ] ].

Lemma resume_navigates_within E k o : keeps navigates_within (resume E k o).
Proof. destruct k; keeps_with fail within_prim. Qed.

Lemma call_navigates_within E g : keeps navigates_within (call E g).
Proof. destruct g; keeps_with fail within_prim. Qed.

Lemma on_click_navigates_within E id : keeps navigates_within (on_click E id).
Proof. keeps_with fail within_prim. Qed.

Lemma on_enter_navigates_within E id : keeps navigates_within (on_enter E id).
Proof. keeps_with fail within_prim. Qed.

Lemma on_input_navigates_within id v : keeps navigates_within (on_input id v).
Proof. keeps_with fail within_prim. Qed.

Lemma countdown_navigates_within : keeps navigates_within countdown.
Proof. keeps_with fail within_prim. Qed.

Lemma step_navigates_within E ev s : navigates_within s -> navigates_within (step E ev s).
Proof.
  intros Hs. destruct ev; cbn [step].
  - apply keeps_run; [apply call_navigates_within | exact Hs].
  - destruct (present id s); [| exact Hs].
    apply keeps_run; [apply on_click_navigates_within | exact Hs].
  - destruct (present id s); [| exact Hs].
    apply keeps_run; [apply on_enter_navigates_within | exact Hs].
  - destruct (present id s); [| exact Hs].
    apply keeps_run; [apply on_input_navigates_within | exact Hs].
  - unfold fire. destruct (timers s !! id) as [[]|]; [exact Hs | | | exact Hs].
    + intros url Hin. cbn [location navigate set_timers] in Hin.
      apply elem_of_app in Hin as [Hin | Hin]; [apply Hs, Hin |].
      apply list_elem_of_singleton in Hin as ->. apply list_elem_of_here.
    + apply keeps_run; [apply countdown_navigates_within | exact Hs].
  - unfold answer. destruct (pending s !! n); [| exact Hs].
    apply keeps_run; [apply resume_navigates_within | exact Hs].
Qed.

(** X22. Whatever the user and the server do, the script navigates nowhere
    but to dashboard.html and index.html: every address it has assigned to
    [window.location.href] on a state the page can reach is one of the
    two. *)
Theorem navigation_stays_within E page s url :
  reachable E page s -> url ∈ location s ->
  url = lit "dashboard.html" \/ url = lit "index.html".
Proof.
  intros Hr Hin.
  assert (H : navigates_within s).
  { clear url Hin. induction Hr as [| ev s Hr IH].
    - intros url Hin. cbn in Hin. inversion Hin.
    - apply step_navigates_within, IH. }
  specialize (H url Hin). unfold destinations in H.
  apply elem_of_cons in H as [H | H]; [left; exact H |].
  apply list_elem_of_singleton in H. right. exact H.
Qed.

Lemma navigation_stays_within_witness :
  let s := play sample_engine
             [Click "loginBtn"; Answers 0 (json_answer 200 text_direct_login)]
             (loaded (login_page "ali@example.com" "")) in
  lit "dashboard.html" ∈ location s
  /\ (lit "dashboard.html" = lit "dashboard.html" \/ lit "dashboard.html" = lit "index.html").
Proof.
  cbv zeta.
  assert (Hin : lit "dashboard.html"
                ∈ location (play sample_engine
                              [Click "loginBtn"; Answers 0 (json_answer 200 text_direct_login)]
                              (loaded (login_page "ali@example.com" "")))).
  { vm_compute. apply list_elem_of_here. }
  split; [exact Hin |].
  apply (navigation_stays_within sample_engine (login_page "ali@example.com" "") _ _
           (reachable_play _ _ _) Hin).
Defined.
